(** * FlowBitAI: the vendor-memory agent (MemoryAgent.ts) and its two
      memory stores (MemoryStore.ts, file-backed and SQLite-backed).

    Conventions of the embedding.
    - A JavaScript string is a [string]; one [ascii] stands for one code
      unit in the range 0..255 (Latin-1).  Code units above 255 are not
      represented.
    - A JavaScript number is a binary64 value, the kernel's [float]:
      arithmetic rounds to nearest, ties to even, and NaN, the infinities
      and the two zeros are there.  Time values and usage counts, which are
      integers far below 2^53, are in [Z].
    - [new Date().toISOString()] is an explicit argument [now].
    - Promises are run to completion in program order. *)

From Stdlib Require Import String Ascii List ZArith Lia Bool Arith.
From Stdlib Require Import Floats.
From stdpp Require Import gmap strings.
Import ListNotations.

Local Open Scope string_scope.
Local Open Scope bool_scope.

(** A decimal literal of type [float] denotes the nearest binary64
    value, as a numeric literal of the source does. *)
#[local] Set Warnings "-inexact-float".

(** ** Strings: the String.prototype methods the agent calls *)

Module Str.

Definition code (c : ascii) : nat := nat_of_ascii c.

Definition between (lo hi : nat) (c : ascii) : bool :=
  (lo <=? code c)%nat && (code c <=? hi)%nat.

Definition isDigit (c : ascii) : bool := between 48 57 c.
Definition isUpper (c : ascii) : bool := between 65 90 c.
Definition isLower (c : ascii) : bool := between 97 122 c.

(** WhiteSpace and LineTerminator code units below 256: TAB, LF, VT, FF,
    CR, SP and NBSP.  This is the set of [\s] and of [trim]. *)
Definition isSpace (c : ascii) : bool :=
  between 9 13 c || (code c =? 32)%nat || (code c =? 160)%nat.

Definition isLineTerminator (c : ascii) : bool :=
  (code c =? 10)%nat || (code c =? 13)%nat.

(** [toLowerCase] on one code unit: A-Z, and the Latin-1 capitals
    U+00C0..U+00DE except the multiplication sign U+00D7. *)
Definition lowerChar (c : ascii) : ascii :=
  if isUpper c || (between 192 222 c && negb (code c =? 215)%nat)
  then ascii_of_nat (code c + 32) else c.

(** Canonicalize of a case-insensitive RegExp ([toUpperCase] on one code
    unit, kept when the result is one code unit of the same side of 128):
    a-z, and U+00E0..U+00FE except the division sign U+00F7. *)
Definition upperChar (c : ascii) : ascii :=
  if isLower c || (between 224 254 c && negb (code c =? 247)%nat)
  then ascii_of_nat (code c - 32) else c.

Fixpoint map (f : ascii -> ascii) (s : string) : string :=
  match s with
  | EmptyString => EmptyString
  | String c s' => String (f c) (map f s')
  end.

Definition toLowerCase (s : string) : string := map lowerChar s.

(** [s.indexOf(t)]: [None] is -1. *)
Definition indexOf (s t : string) : option nat := String.index 0 t s.

(** [s.includes(t)] *)
Definition includes (s t : string) : bool :=
  match indexOf s t with Some _ => true | None => false end.

(** [s.substring(i, j)] for [0 <= i <= j] *)
Definition substring (s : string) (i j : nat) : string :=
  String.substring i (j - i) s.

Fixpoint drop (n : nat) (s : string) : string :=
  match n, s with
  | O, _ => s
  | S n', EmptyString => EmptyString
  | S n', String _ s' => drop n' s'
  end.

Fixpoint take (n : nat) (s : string) : string :=
  match n, s with
  | O, _ => EmptyString
  | S n', EmptyString => EmptyString
  | S n', String c s' => String c (take n' s')
  end.

Fixpoint trimStart (s : string) : string :=
  match s with
  | EmptyString => EmptyString
  | String c s' => if isSpace c then trimStart s' else s
  end.

(** Removes trailing white space; the result is empty when all of [s] is
    white space. *)
Fixpoint trimEnd (s : string) : string :=
  match s with
  | EmptyString => EmptyString
  | String c s' =>
      match trimEnd s' with
      | EmptyString => if isSpace c then EmptyString else String c EmptyString
      | t => String c t
      end
  end.

Definition trim (s : string) : string := trimEnd (trimStart s).

(** [s.endsWith(t)] *)
Definition endsWith (s t : string) : bool :=
  (String.length t <=? String.length s)%nat &&
  String.eqb (drop (String.length s - String.length t) s) t.

(** [s.split(sep)] for a separator of one code unit. *)
Fixpoint splitChar (sep : ascii) (s : string) : list string :=
  match s with
  | EmptyString => [EmptyString]
  | String c s' =>
      match splitChar sep s' with
      | [] => [EmptyString]
      | w :: ws =>
          if Ascii.eqb c sep then EmptyString :: w :: ws
          else String c w :: ws
      end
  end.

(** [parts.join(sep)] *)
Fixpoint join (sep : string) (parts : list string) : string :=
  match parts with
  | [] => EmptyString
  | [w] => w
  | w :: ws => w ++ sep ++ join sep ws
  end.

Definition all (p : ascii -> bool) (s : string) : bool :=
  forallb p (list_ascii_of_string s).

(** Decimal rendering of an array index, as a template literal prints it. *)
Definition digitChar (d : nat) : ascii := ascii_of_nat (48 + d).

Fixpoint ofNatAux (fuel n : nat) (acc : string) : string :=
  match fuel with
  | O => acc
  | S f =>
      let acc' := String (digitChar (n mod 10)) acc in
      if (n <? 10)%nat then acc' else ofNatAux f (n / 10) acc'
  end.

Definition ofNat (n : nat) : string := ofNatAux (S n) n EmptyString.

(** [parseInt] of a non-empty run of decimal digits. *)
Definition digitsToNat (s : string) : nat :=
  fold_left (fun acc c => (10 * acc + (code c - 48))%nat)
            (list_ascii_of_string s) 0%nat.

End Str.

(** ** Regular expressions: the fragment of ECMAScript RegExp the agent
       builds and runs (no flags, or the [i] flag).

    [mt] is the backtracking matcher written as the list of end states in
    the order in which backtracking tries them; the first element is the
    match the engine reports. *)

Module RegExp.

Inductive citem : Type :=
| ILit (c : ascii)
| IRange (lo hi : ascii)
| IDigit | INotDigit
| ISpace | INotSpace
| IWord | INotWord.

Inductive regex : Type :=
| REmpty
| RChar (c : ascii)
| RDot
| RSet (neg : bool) (items : list citem)
| RBol
| REol
| RSeq (r1 r2 : regex)
| RAlt (r1 r2 : regex)
| RRep (r : regex) (lo : nat) (hi : option nat) (greedy : bool)
| RGroup (n : nat) (r : regex).

Record mstate : Type := MState {
  pos : nat;                     (* index of the next code unit *)
  rest : string;                 (* the input from [pos] on *)
  caps : list (nat * string)     (* captures, most recent first *)
}.

Definition isWord (c : ascii) : bool :=
  Str.isDigit c || Str.isUpper c || Str.isLower c || (Str.code c =? 95)%nat.

(** Membership of a code unit in a class item; with [ic] (the [i] flag)
    some member of the item must canonicalize like [c]. *)
Definition itemMatches (ic : bool) (it : citem) (c : ascii) : bool :=
  match it with
  | ILit a =>
      if ic then Ascii.eqb (Str.upperChar a) (Str.upperChar c) else Ascii.eqb a c
  | IRange lo hi =>
      if ic then
        let u := Str.upperChar c in
        Str.between (Str.code lo) (Str.code hi) u ||
        Str.between (Str.code lo) (Str.code hi) (Str.lowerChar u)
      else Str.between (Str.code lo) (Str.code hi) c
  | IDigit => Str.isDigit c
  | INotDigit => negb (Str.isDigit c)
  | ISpace => Str.isSpace c
  | INotSpace => negb (Str.isSpace c)
  | IWord => isWord c
  | INotWord => negb (isWord c)
  end.

Definition setMatches (ic neg : bool) (items : list citem) (c : ascii) : bool :=
  xorb neg (existsb (fun it => itemMatches ic it c) items).

Definition step (p : ascii -> bool) (st : mstate) : list mstate :=
  match rest st with
  | String c s' =>
      if p c then [MState (S (pos st)) s' (caps st)] else []
  | EmptyString => []
  end.

Definition belowMax (i : nat) (hi : option nat) : bool :=
  match hi with
  | None => true
  | Some h => (i <? h)%nat
  end.

Definition progress (st st' : mstate) : bool :=
  negb (pos st' =? pos st)%nat.

(** The iterations of a quantifier over the matcher [m] of its body: [i]
    iterations are done.  An iteration past the minimum that consumes
    nothing is rejected; [fuel] bounds the iterations that remain. *)
Fixpoint repLoop (m : mstate -> list mstate) (lo : nat) (hi : option nat)
  (greedy : bool) (fuel i : nat) (st : mstate) {struct fuel} : list mstate :=
  let more :=
    match fuel with
    | O => []
    | S f =>
        if belowMax i hi then
          flat_map
            (fun st' =>
               if (lo <=? i)%nat && negb (progress st st') then []
               else repLoop m lo hi greedy f (S i) st')
            (m st)
        else []
    end in
  let stop := if (lo <=? i)%nat then [st] else [] in
  if greedy then (more ++ stop)%list else (stop ++ more)%list.

Fixpoint mt (ic : bool) (r : regex) (st : mstate) : list mstate :=
  match r with
  | REmpty => [st]
  | RChar a => step (fun c => itemMatches ic (ILit a) c) st
  | RDot => step (fun c => negb (Str.isLineTerminator c)) st
  | RSet neg items => step (setMatches ic neg items) st
  | RBol => if (pos st =? 0)%nat then [st] else []
  | REol => match rest st with EmptyString => [st] | _ => [] end
  | RSeq r1 r2 => flat_map (mt ic r2) (mt ic r1 st)
  | RAlt r1 r2 => (mt ic r1 st ++ mt ic r2 st)%list
  | RRep r' lo hi greedy =>
      repLoop (mt ic r') lo hi greedy
              (lo + String.length (rest st) + 1)%nat 0%nat st
  | RGroup n r' =>
      List.map
        (fun st' =>
           MState (pos st') (rest st')
                  ((n, Str.take (pos st' - pos st) (rest st)) :: caps st'))
        (mt ic r' st)
  end.

(** The result of [String.prototype.match] / [RegExp.prototype.exec]
    without the [g] flag. *)
Record matchResult : Type := MatchResult {
  matchIndex : nat;
  matched : string;
  groups : list (nat * string)
}.

Fixpoint lookupGroup (n : nat) (gs : list (nat * string)) : option string :=
  match gs with
  | [] => None
  | (k, v) :: gs' => if (k =? n)%nat then Some v else lookupGroup n gs'
  end.

(** [m[n]]: [None] is [undefined]. *)
Definition group (m : matchResult) (n : nat) : option string :=
  lookupGroup n (groups m).

Fixpoint search (ic : bool) (r : regex) (i : nat) (s : string) {struct s}
  : option matchResult :=
  match mt ic r (MState i s []) with
  | st :: _ => Some (MatchResult i (Str.take (pos st - i) s) (caps st))
  | [] =>
      match s with
      | EmptyString => None
      | String _ s' => search ic r (S i) s'
      end
  end.

(** [text.match(r)]: the leftmost start position that matches. *)
Definition exec (ic : bool) (r : regex) (text : string) : option matchResult :=
  search ic r 0 text.

(** [r.test(text)] *)
Definition test (ic : bool) (r : regex) (text : string) : bool :=
  match exec ic r text with Some _ => true | None => false end.

(** [s.replace(/[class]/g, f)] for a pattern that is one class. *)
Fixpoint replaceChars (p : ascii -> bool) (f : ascii -> string) (s : string)
  : string :=
  match s with
  | EmptyString => EmptyString
  | String c s' =>
      (if p c then f c else String c EmptyString) ++ replaceChars p f s'
  end.

(** [s.split(/\s+/)] *)
Fixpoint splitWsAux (inSep : bool) (s : string) : list string :=
  match s with
  | EmptyString => [EmptyString]
  | String c s' =>
      if Str.isSpace c then
        if inSep then splitWsAux true s' else EmptyString :: splitWsAux true s'
      else
        match splitWsAux false s' with
        | w :: ws => String c w :: ws
        | [] => [String c EmptyString]
        end
  end.

Definition splitWs (s : string) : list string := splitWsAux false s.

(** *** Pattern source text to [regex] ([new RegExp(source)]) *)

Definition isCh (c : ascii) (s : string) : bool :=
  match s with
  | String a EmptyString => Ascii.eqb c a
  | _ => false
  end.

Definition oneOf (c : ascii) (s : string) : bool :=
  existsb (Ascii.eqb c) (list_ascii_of_string s).

(** The escape [\e] as a class item, inside or outside a class; [None]
    for an escape outside the fragment (back-references, [\b], [\x],
    [\u], [\c], [\k]). *)
Definition escapeItem (inClass : bool) (e : ascii) : option citem :=
  if isCh e "d" then Some IDigit else
  if isCh e "D" then Some INotDigit else
  if isCh e "s" then Some ISpace else
  if isCh e "S" then Some INotSpace else
  if isCh e "w" then Some IWord else
  if isCh e "W" then Some INotWord else
  if isCh e "n" then Some (ILit (ascii_of_nat 10)) else
  if isCh e "r" then Some (ILit (ascii_of_nat 13)) else
  if isCh e "t" then Some (ILit (ascii_of_nat 9)) else
  if isCh e "f" then Some (ILit (ascii_of_nat 12)) else
  if isCh e "v" then Some (ILit (ascii_of_nat 11)) else
  if isCh e "b" then (if inClass then Some (ILit (ascii_of_nat 8)) else None) else
  if oneOf e "Bxuck" || Str.isDigit e then None
  else Some (ILit e).

Definition isLit (it : citem) : option ascii :=
  match it with ILit c => Some c | _ => None end.

(** One class atom at the head of [s]. *)
Definition classAtom (s : string) : option (citem * string) :=
  match s with
  | EmptyString => None
  | String c s' =>
      if isCh c "\" then
        match s' with
        | EmptyString => None
        | String e s'' =>
            match escapeItem true e with
            | Some it => Some (it, s'')
            | None => None
            end
        end
      else Some (ILit c, s')
  end.

(** The body of a class, after the opening bracket and the optional
    caret, up to and including the closing bracket. *)
Fixpoint parseClass (fuel : nat) (s : string) (acc : list citem)
  : option (list citem * string) :=
  match fuel with
  | O => None
  | S f =>
      match s with
      | EmptyString => None
      | String c s' =>
          if isCh c "]" then Some (rev acc, s')
          else
            match classAtom s with
            | None => None
            | Some (a, s1) =>
                match s1 with
                | String d s2 =>
                    if isCh d "-" &&
                       negb (match s2 with
                             | String e _ => isCh e "]"
                             | EmptyString => true
                             end)
                    then
                      match classAtom s2 with
                      | None => None
                      | Some (b, s3) =>
                          match isLit a, isLit b with
                          | Some lo, Some hi =>
                              if (Str.code lo <=? Str.code hi)%nat
                              then parseClass f s3 (IRange lo hi :: acc)
                              else None
                          | _, _ => None
                          end
                      end
                    else parseClass f s1 (a :: acc)
                | EmptyString => None
                end
            end
      end
  end.

Fixpoint takeDigits (s : string) : string * string :=
  match s with
  | String c s' =>
      if Str.isDigit c then
        let (d, r) := takeDigits s' in (String c d, r)
      else (EmptyString, s)
  | EmptyString => (EmptyString, EmptyString)
  end.

(** The quantifier at the head of [s], if any: bounds and the rest. A
    brace that does not open a well-formed quantifier is outside the
    fragment. *)
Definition parseQuant (s : string)
  : option (option (nat * option nat) * string) :=
  match s with
  | String c s' =>
      if isCh c "*" then Some (Some (0, None), s')%nat else
      if isCh c "+" then Some (Some (1, None), s')%nat else
      if isCh c "?" then Some (Some (0, Some 1), s')%nat else
      if isCh c "{" then
        let (d1, r1) := takeDigits s' in
        match d1, r1 with
        | EmptyString, _ => None
        | _, String e r2 =>
            let lo := Str.digitsToNat d1 in
            if isCh e "}" then Some (Some (lo, Some lo), r2) else
            if isCh e "," then
              let (d2, r3) := takeDigits r2 in
              match r3 with
              | String g r4 =>
                  if isCh g "}" then
                    match d2 with
                    | EmptyString => Some (Some (lo, None), r4)
                    | _ =>
                        let hi := Str.digitsToNat d2 in
                        if (lo <=? hi)%nat then Some (Some (lo, Some hi), r4)
                        else None
                    end
                  else None
              | EmptyString => None
              end
            else None
        | _, EmptyString => None
        end
      else Some (None, s)
  | EmptyString => Some (None, s)
  end.

Definition parseLazy (s : string) : bool * string :=
  match s with
  | String c s' => if isCh c "?" then (false, s') else (true, s)
  | EmptyString => (true, s)
  end.

Definition quantified (a : regex) (s : string) : option (regex * string) :=
  match parseQuant s with
  | None => None
  | Some (None, s1) => Some (a, s1)
  | Some (Some (lo, hi), s1) =>
      let (greedy, s2) := parseLazy s1 in
      Some (RRep a lo hi greedy, s2)
  end.

(** A term followed by the rest of its alternative. *)
Definition andThen (t : regex) (res : option (regex * string * nat))
  : option (regex * string * nat) :=
  match res with
  | Some (r, s3, n3) => Some (RSeq t r, s3, n3)
  | None => None
  end.

(** [parseAlt] reads one alternative (a sequence of terms), [parseDisj] a
    disjunction; [n] is the index of the next capturing group. *)
Fixpoint parseAlt (fuel : nat) (s : string) (n : nat) {struct fuel}
  : option (regex * string * nat) :=
  match fuel with
  | O => None
  | S f =>
      match s with
      | EmptyString => Some (REmpty, s, n)
      | String c s' =>
          if oneOf c "|)" then Some (REmpty, s, n) else
          if isCh c "^" then andThen RBol (parseAlt f s' n) else
          if isCh c "$" then andThen REol (parseAlt f s' n) else
          let atom : option (regex * string * nat) :=
            if isCh c "(" then
              match s' with
              | String q s1 =>
                  if isCh q "?" then
                    match s1 with
                    | String k s2 =>
                        if isCh k ":" then
                          match parseDisj f s2 n with
                          | Some (r, String e s3, n3) =>
                              if isCh e ")" then Some (r, s3, n3) else None
                          | _ => None
                          end
                        else None
                    | EmptyString => None
                    end
                  else
                    match parseDisj f s' (S n) with
                    | Some (r, String e s3, n3) =>
                        if isCh e ")" then Some (RGroup n r, s3, n3) else None
                    | _ => None
                    end
              | EmptyString => None
              end
            else if isCh c "[" then
              let (neg, body) :=
                match s' with
                | String k s1 => if isCh k "^" then (true, s1) else (false, s')
                | EmptyString => (false, s')
                end in
              match parseClass (S (String.length body)) body [] with
              | Some (items, s2) => Some (RSet neg items, s2, n)
              | None => None
              end
            else if isCh c "\" then
              match s' with
              | String e s1 =>
                  match escapeItem false e with
                  | Some (ILit a) => Some (RChar a, s1, n)
                  | Some it => Some (RSet false [it], s1, n)
                  | None => None
                  end
              | EmptyString => None
              end
            else if isCh c "." then Some (RDot, s', n)
            else if oneOf c "*+?{" then None
            else Some (RChar c, s', n) in
          match atom with
          | None => None
          | Some (a, s1, n1) =>
              match quantified a s1 with
              | None => None
              | Some (t, s2) => andThen t (parseAlt f s2 n1)
              end
          end
      end
  end
with parseDisj (fuel : nat) (s : string) (n : nat) {struct fuel}
  : option (regex * string * nat) :=
  match fuel with
  | O => None
  | S f =>
      match parseAlt f s n with
      | Some (r1, String c s1, n1) =>
          if isCh c "|" then
            match parseDisj f s1 n1 with
            | Some (r2, s2, n2) => Some (RAlt r1 r2, s2, n2)
            | None => None
            end
          else Some (r1, String c s1, n1)
      | other => other
      end
  end.

(** [new RegExp(source)]: [None] when the constructor throws a
    SyntaxError, and also for a source outside the fragment above
    (look-around, back-references, named groups, [\b], hexadecimal and
    control escapes, a brace that is not a quantifier). *)
Definition compile (source : string) : option regex :=
  match parseDisj (2 * String.length source + 4) source 1 with
  | Some (r, EmptyString, _) => Some r
  | _ => None
  end.

End RegExp.

(** ** Numbers: the Number and Math operations the agent calls *)

Module Num.

Definition isNaN (x : float) : bool := negb (PrimFloat.eqb x x).

Definition isNegZero (x : float) : bool :=
  match PrimFloat.classify x with NZero => true | _ => false end.

Definition isFinite (x : float) : bool :=
  match PrimFloat.classify x with
  | PInf | NInf | NaN => false
  | _ => true
  end.

(** [Math.min(a, b)]: NaN when an argument is, and -0 below +0. *)
Definition min (a b : float) : float :=
  if isNaN a then a else if isNaN b then b
  else if PrimFloat.ltb a b then a
  else if PrimFloat.ltb b a then b
  else if isNegZero a then a else b.

(** The Number nearest to [n / d] for integers [n >= 0] and [d > 0]. *)
Definition ofRatio (n d : Z) : float :=
  match n with
  | Z.pos p =>
      SF2Prim (SFdiv prec emax (S754_finite false p 0)
                     (S754_finite false (Z.to_pos d) 0))
  | _ => 0%float
  end.

(** The Number nearest to [s * 10^j] for an integer [s > 0]: what
    StringToNumber makes of a decimal literal. *)
Definition ofDecimal (s j : Z) : float :=
  if (0 <=? j)%Z then SF2Prim (binary_normalize prec emax (s * 10 ^ j) 0 false)
  else ofRatio s (10 ^ (- j)).

(** *** Number.prototype.toFixed(2) *)

(** The integer nearest to [m * 2^e * 100], a tie going upwards. *)
Definition hundredths (m : positive) (e : Z) : Z :=
  if (0 <=? e)%Z then Z.pos m * 2 ^ e * 100
  else (2 * (Z.pos m * 100) + 2 ^ (- e)) / 2 ^ (1 - e).

(** [Number(x.toFixed(2))]: below 1e21 the text has two decimals, read
    back as the nearest Number; from 1e21 on, and for NaN and the
    infinities, the text is that of [toString], which reads back as
    [x]. *)
Definition toFixed2 (x : float) : float :=
  match Prim2SF x with
  | S754_finite s m e =>
      if PrimFloat.leb 1e21 (PrimFloat.abs x) then x
      else
        let q := ofRatio (hundredths m e) 100 in
        if s then PrimFloat.opp q else q
  | S754_zero _ => 0%float
  | _ => x
  end.

(** *** Number::toString, radix 10 *)

(** [m * 2^e * 10^t] as a fraction. *)
Definition scaled (m : positive) (e t : Z) : Z * Z :=
  ((Z.pos m * (if (0 <=? e)%Z then 2 ^ e else 1)
             * (if (0 <=? t)%Z then 10 ^ t else 1))%Z,
   ((if (0 <=? e)%Z then 1 else 2 ^ (- e))
    * (if (0 <=? t)%Z then 1 else 10 ^ (- t)))%Z).

(** The greatest [j], from [hi] downwards, with [10^j <= m * 2^e]. *)
Fixpoint decimalExponent (fuel : nat) (m : positive) (e hi : Z) : Z :=
  match fuel with
  | O => hi
  | S f =>
      let (num, den) := scaled m e (- hi) in
      if (den <=? num)%Z then hi else decimalExponent f m e (hi - 1)
  end.

(** The digits [s] and the exponent [n] of Number::toString: the fewest
    digits [k], from [k] upwards, such that [s * 10^(n-k)] reads back as
    [x]; of two such [s] the one nearer to [x]. *)
Fixpoint shortest (fuel : nat) (x : float) (m : positive) (e n0 k : Z)
  : Z * Z :=
  match fuel with
  | O => (0%Z, 0%Z)
  | S f =>
      let (num, den) := scaled m e (k - n0) in
      let lo := (num / den)%Z in
      let hi := (lo + 1)%Z in
      let ok (s : Z) : bool :=
        (10 ^ (k - 1) <=? s)%Z && (s <=? 10 ^ k)%Z &&
        match Prim2SF (ofDecimal s (n0 - k)), Prim2SF x with
        | S754_finite _ m1 e1, S754_finite _ m2 e2 =>
            Pos.eqb m1 m2 && (e1 =? e2)%Z
        | _, _ => false
        end in
      let pick (s : Z) : Z * Z :=
        if (s =? 10 ^ k)%Z then (10 ^ (k - 1), n0 + 1)%Z else (s, n0) in
      let r := (2 * (num - lo * den))%Z in
      match ok lo, ok hi with
      | true, true =>
          if (r <? den)%Z then pick lo
          else if (den <? r)%Z then pick hi
          else if Z.even lo then pick lo else pick hi
      | true, false => pick lo
      | false, true => pick hi
      | false, false => shortest f x m e n0 (k + 1)
      end
  end.

Fixpoint digitsAux (fuel : nat) (n : Z) (acc : string) : string :=
  match fuel with
  | O => acc
  | S f =>
      let acc' := String (ascii_of_nat (48 + Z.to_nat (n mod 10))) acc in
      if (n <? 10)%Z then acc' else digitsAux f (n / 10) acc'
  end.

(** The decimal digits of an integer [n >= 0]. *)
Definition digits (n : Z) : string := digitsAux 400 n EmptyString.

Fixpoint zeros (n : nat) : string :=
  match n with O => EmptyString | S n' => String "0" (zeros n') end.

Definition toString (x : float) : string :=
  match Prim2SF x with
  | S754_nan => "NaN"
  | S754_zero _ => "0"
  | S754_infinity s => if s then "-Infinity" else "Infinity"
  | S754_finite sg m e =>
      let bits := (e + Z.log2 (Z.pos m) + 1)%Z in
      let guess :=
        ((if (0 <=? bits)%Z then bits * 30103 else bits * 30102) / 100000
         + 1)%Z in
      let n0 := (decimalExponent 10 m e guess + 1)%Z in
      let (s, n) := shortest 20 x m e n0 1 in
      let ds := digits s in
      let k := Z.of_nat (String.length ds) in
      let body :=
        if ((k <=? n) && (n <=? 21))%Z then ds ++ zeros (Z.to_nat (n - k))
        else if ((0 <? n) && (n <=? 21))%Z then
          Str.take (Z.to_nat n) ds ++ "." ++ Str.drop (Z.to_nat n) ds
        else if ((-6 <? n) && (n <=? 0))%Z then
          "0." ++ zeros (Z.to_nat (- n)) ++ ds
        else
          let ex := (n - 1)%Z in
          let et := (if (ex <? 0)%Z then "-" else "+") ++ digits (Z.abs ex) in
          if (k =? 1)%Z then ds ++ "e" ++ et
          else Str.take 1 ds ++ "." ++ Str.drop 1 ds ++ "e" ++ et in
      (if sg then "-" else "") ++ body
  end.

(** [x.toFixed(2)] as text *)
Definition toFixed2String (x : float) : string :=
  match Prim2SF x with
  | S754_finite s m e =>
      if PrimFloat.leb 1e21 (PrimFloat.abs x) then toString x
      else
        let n := hundredths m e in
        let cents := digits (n mod 100) in
        (if s then "-" else "") ++ digits (n / 100) ++ "." ++
        (if (n mod 100 <? 10)%Z then "0" ++ cents else cents)
  | S754_zero _ => "0.00"
  | _ => toString x
  end.

End Num.

(** ** Values of type [any] and the data model of types.ts *)

Inductive value : Type :=
| VUndefined
| VNull
| VStr (s : string)
| VNum (x : float)
| VObject.   (* an object or array; only its identity is visible *)

(** ToBoolean *)
Definition truthy (v : value) : bool :=
  match v with
  | VUndefined | VNull => false
  | VStr s => negb (String.eqb s "")
  | VNum x => negb (PrimFloat.eqb x 0 || Num.isNaN x)
  | VObject => true
  end.

(** [a === b]; two values tagged [VObject] stand for distinct objects. *)
Definition strictEq (a b : value) : bool :=
  match a, b with
  | VUndefined, VUndefined => true
  | VNull, VNull => true
  | VStr s, VStr t => String.eqb s t
  | VNum x, VNum y => PrimFloat.eqb x y
  | _, _ => false
  end.

(** [v === null || v === undefined || v === ""] *)
Definition isMissing (v : value) : bool :=
  strictEq v VNull || strictEq v VUndefined || strictEq v (VStr "").

Module LineItem.
Record t : Type := Make {
  sku : value;                  (* string | null, assigned from [any] *)
  description : option string;  (* [None]: the property is absent *)
  qty : float;
  unitPrice : float
}.
End LineItem.

Module InvoiceFields.
Record t : Type := Make {
  invoiceNumber : string;
  invoiceDate : string;
  serviceDate : value;
  currency : value;
  poNumber : value;
  netTotal : float;
  taxRate : float;
  taxTotal : float;
  grossTotal : float;
  lineItems : list LineItem.t;
  discountTerms : value
}.
End InvoiceFields.

Module Invoice.
Record t : Type := Make {
  invoiceId : string;
  vendor : string;
  fields : InvoiceFields.t;
  confidence : float;
  rawText : string
}.
End Invoice.

Module PurchaseOrder.
Record t : Type := Make {
  poNumber : string;
  vendor : string;
  date : string;
  lineItems : list LineItem.t
}.
End PurchaseOrder.

Module ReferenceData.
(** [deliveryNotes] is never read by the agent and is left out. *)
Record t : Type := Make {
  purchaseOrders : list PurchaseOrder.t
}.
End ReferenceData.

Module Correction.
Record t : Type := Make {
  field : string;
  from : value;
  to : value;
  reason : string
}.
End Correction.

Inductive decision : Type := approved | rejected.

Module HumanCorrectionLog.
Record t : Type := Make {
  invoiceId : string;
  vendor : string;
  corrections : list Correction.t;
  finalDecision : decision
}.
End HumanCorrectionLog.

Module ExtractionPattern.
Record t : Type := Make {
  field : string;
  regexPattern : string;
  confidence : float;
  usageCount : Z;
  lastUsed : string
}.
End ExtractionPattern.

Module ValueCorrection.
Record t : Type := Make {
  field : string;
  triggerValue : value;
  correctedValue : value;
  condition : option string;
  confidence : float;
  usageCount : Z
}.
End ValueCorrection.

Module VendorMemory.
Record t : Type := Make {
  vendorName : string;
  patterns : list ExtractionPattern.t;
  staticCorrections : list ValueCorrection.t
}.
End VendorMemory.

Module AuditEntry.
Record t : Type := Make {
  step : string;
  timestamp : string;
  details : string
}.
End AuditEntry.

(** The working copy [normalizedInvoice]: a JavaScript object read and
    written through computed property names.  [props] holds the own
    properties with primitive values, [lineItems] the array under the key
    of that name; a key that is not bound reads as [undefined].  The agent
    never assigns to the key [lineItems]: a pattern of that field finds
    the array there and is skipped, and a static correction whose field
    contains that text takes the line-item branch; so [props] never
    shadows the array. *)
Module Normalized.
Record t : Type := Make {
  props : gmap string value;
  lineItems : list LineItem.t
}.

Definition get (n : t) (key : string) : value :=
  match props n !! key with
  | Some v => v
  | None => if String.eqb key "lineItems" then VObject else VUndefined
  end.

Definition set (n : t) (key : string) (v : value) : t :=
  Make (<[key := v]> (props n)) (lineItems n).
End Normalized.

Module ProcessResult.
Record t : Type := Make {
  normalizedInvoice : Normalized.t;
  proposedCorrections : list Correction.t;
  requiresHumanReview : bool;
  reasoning : string;
  confidenceScore : float;
  memoryUpdates : list string;
  auditTrail : list AuditEntry.t
}.
End ProcessResult.

(** A number through [JSON.stringify] and [JSON.parse]: NaN and the
    infinities are written as null, and -0 as 0. *)
Definition jsonNumber (x : float) : value :=
  if Num.isFinite x then
    if PrimFloat.eqb x 0 then VNum 0 else VNum x
  else VNull.

Definition jsonValue (v : value) : value :=
  match v with
  | VNum x => jsonNumber x
  | _ => v
  end.

(** [JSON.parse(JSON.stringify(fields))]: a property whose value is
    [undefined] is dropped, every other one is copied.  The line items
    are copied as they are; [wellTyped] asks that their numbers are
    those that the copy keeps. *)
Definition putProp (key : string) (v : value) (m : gmap string value)
  : gmap string value :=
  match v with
  | VUndefined => m
  | _ => <[key := v]> m
  end.

Definition deepCopy (f : InvoiceFields.t) : Normalized.t :=
  Normalized.Make
    (putProp "invoiceNumber" (VStr (InvoiceFields.invoiceNumber f))
    (putProp "invoiceDate" (VStr (InvoiceFields.invoiceDate f))
    (putProp "serviceDate" (jsonValue (InvoiceFields.serviceDate f))
    (putProp "currency" (jsonValue (InvoiceFields.currency f))
    (putProp "poNumber" (jsonValue (InvoiceFields.poNumber f))
    (putProp "netTotal" (jsonNumber (InvoiceFields.netTotal f))
    (putProp "taxRate" (jsonNumber (InvoiceFields.taxRate f))
    (putProp "taxTotal" (jsonNumber (InvoiceFields.taxTotal f))
    (putProp "grossTotal" (jsonNumber (InvoiceFields.grossTotal f))
    (putProp "discountTerms" (jsonValue (InvoiceFields.discountTerms f))
             ∅))))))))))
    (InvoiceFields.lineItems f).

(** ** The memory store

    The agent is written against the interface that both MemoryStore.ts
    files implement. [getVendorMemory] returns the store as well, because
    the file-backed store creates a vendor record on first access. *)

Class MemoryStore (S : Type) : Type := {
  getVendorMemory : string -> S -> VendorMemory.t * S;
  addPattern : string -> string -> ExtractionPattern.t -> S -> S;
  addStaticCorrection : string -> ValueCorrection.t -> S -> S
}.

(** [Math.min(1.0, confidence + 0.05)] *)
Definition reinforce (confidence : float) : float :=
  Num.min 1 (confidence + 0.05).

(** The first element that satisfies [p] is replaced by its image under
    [f]: what mutating the object returned by [Array.prototype.find]
    does to the array. *)
Fixpoint updateFirst {A : Type} (p : A -> bool) (f : A -> A) (l : list A)
  : list A :=
  match l with
  | [] => []
  | x :: l' => if p x then f x :: l' else x :: updateFirst p f l'
  end.

(** *** The file-backed store (memory.json) *)

Module JsonStore.

Record t : Type := Make {
  data : gmap string VendorMemory.t;   (* this.data.vendors *)
  file : gmap string VendorMemory.t    (* the object last written to
                                          memory.json *)
}.

Definition save (s : t) : t := Make (data s) (data s).

Definition getVendorMemory (vendor : string) (s : t) : VendorMemory.t * t :=
  match data s !! vendor with
  | Some mem => (mem, s)
  | None =>
      let mem := VendorMemory.Make vendor [] [] in
      (mem, Make (<[vendor := mem]> (data s)) (file s))
  end.

Definition updateVendorMemory (vendor : string) (memory : VendorMemory.t)
  (s : t) : t :=
  save (Make (<[vendor := memory]> (data s)) (file s)).

Definition samePattern (pattern p : ExtractionPattern.t) : bool :=
  String.eqb (ExtractionPattern.field p) (ExtractionPattern.field pattern) &&
  String.eqb (ExtractionPattern.regexPattern p)
             (ExtractionPattern.regexPattern pattern).

Definition reinforcePattern (now : string) (p : ExtractionPattern.t)
  : ExtractionPattern.t :=
  ExtractionPattern.Make
    (ExtractionPattern.field p) (ExtractionPattern.regexPattern p)
    (reinforce (ExtractionPattern.confidence p))
    (ExtractionPattern.usageCount p + 1)%Z
    now.

(** The array after [find], then either the mutation of the element found
    or [push]. *)
Definition upsertPattern (now : string) (pattern : ExtractionPattern.t)
  (patterns : list ExtractionPattern.t) : list ExtractionPattern.t :=
  match List.find (samePattern pattern) patterns with
  | Some _ => updateFirst (samePattern pattern) (reinforcePattern now) patterns
  | None => (patterns ++ [pattern])%list
  end.

Definition addPattern (now vendor : string) (pattern : ExtractionPattern.t)
  (s : t) : t :=
  let (mem, s1) := getVendorMemory vendor s in
  updateVendorMemory vendor
    (VendorMemory.Make (VendorMemory.vendorName mem)
                       (upsertPattern now pattern (VendorMemory.patterns mem))
                       (VendorMemory.staticCorrections mem)) s1.

Definition sameCorrection (correction c : ValueCorrection.t) : bool :=
  String.eqb (ValueCorrection.field c) (ValueCorrection.field correction) &&
  strictEq (ValueCorrection.triggerValue c)
           (ValueCorrection.triggerValue correction) &&
  strictEq (ValueCorrection.correctedValue c)
           (ValueCorrection.correctedValue correction).

Definition reinforceCorrection (c : ValueCorrection.t) : ValueCorrection.t :=
  ValueCorrection.Make
    (ValueCorrection.field c) (ValueCorrection.triggerValue c)
    (ValueCorrection.correctedValue c) (ValueCorrection.condition c)
    (reinforce (ValueCorrection.confidence c))
    (ValueCorrection.usageCount c + 1)%Z.

Definition upsertCorrection (correction : ValueCorrection.t)
  (corrections : list ValueCorrection.t) : list ValueCorrection.t :=
  match List.find (sameCorrection correction) corrections with
  | Some _ =>
      updateFirst (sameCorrection correction) reinforceCorrection corrections
  | None => (corrections ++ [correction])%list
  end.

Definition addStaticCorrection (vendor : string)
  (correction : ValueCorrection.t) (s : t) : t :=
  let (mem, s1) := getVendorMemory vendor s in
  updateVendorMemory vendor
    (VendorMemory.Make (VendorMemory.vendorName mem)
                       (VendorMemory.patterns mem)
                       (upsertCorrection correction
                          (VendorMemory.staticCorrections mem))) s1.

Definition reset (s : t) : t := save (Make ∅ (file s)).

Definition empty : t := Make ∅ ∅.

End JsonStore.

#[export] Instance jsonStore : MemoryStore JsonStore.t := {
  getVendorMemory := JsonStore.getVendorMemory;
  addPattern := JsonStore.addPattern;
  addStaticCorrection := JsonStore.addStaticCorrection
}.

(** *** The SQLite store (memory.sqlite)

    A table is the list of its rows in rowid order, which is the order in
    which a scan without ORDER BY returns them.  A bound parameter or a
    cell is a [value]: [VNull] is NULL; a number bound to a TEXT column
    keeps its numeric tag (SQLite would store its decimal rendering).  A
    REAL cell is a binary64 value; SQLite stores NaN as NULL, so a
    confidence that is NaN is outside this model of the table. *)

Module SqlStore.

Record patternRow : Type := PatternRow {
  p_id : Z;
  p_vendor : string;
  p_field : string;
  p_regexPattern : string;
  p_confidence : float;
  p_usageCount : Z;
  p_lastUsed : string
}.

Record correctionRow : Type := CorrectionRow {
  c_id : Z;
  c_vendor : string;
  c_field : string;
  c_triggerValue : value;
  c_correctedValue : value;
  c_condition : option string;
  c_confidence : float;
  c_usageCount : Z
}.

Record t : Type := Make {
  patterns : list patternRow;
  static_corrections : list correctionRow;
  seq_patterns : Z;             (* sqlite_sequence of AUTOINCREMENT *)
  seq_static_corrections : Z
}.

(** How a JavaScript argument is bound: [undefined] becomes NULL. *)
Definition bind (v : value) : value :=
  match v with
  | VUndefined => VNull
  | _ => v
  end.

(** [a = b] in a WHERE clause: never true when a side is NULL. *)
Definition sqlEq (a b : value) : bool :=
  match a, b with
  | VNull, _ | _, VNull => false
  | _, _ => strictEq a b
  end.

Definition isNull (v : value) : bool :=
  match v with VNull => true | _ => false end.

(** [x || null] *)
Definition orNull (v : value) : value := if truthy v then v else VNull.

Definition orNullStr (o : option string) : option string :=
  match o with
  | Some s => if String.eqb s "" then None else Some s
  | None => None
  end.

Definition patternOfRow (r : patternRow) : ExtractionPattern.t :=
  ExtractionPattern.Make (p_field r) (p_regexPattern r) (p_confidence r)
                         (p_usageCount r) (p_lastUsed r).

Definition correctionOfRow (r : correctionRow) : ValueCorrection.t :=
  ValueCorrection.Make (c_field r) (c_triggerValue r) (c_correctedValue r)
                       (c_condition r) (c_confidence r) (c_usageCount r).

Definition getVendorMemory (vendor : string) (s : t) : VendorMemory.t * t :=
  (VendorMemory.Make vendor
     (List.map patternOfRow
        (List.filter (fun r => String.eqb (p_vendor r) vendor) (patterns s)))
     (List.map correctionOfRow
        (List.filter (fun r => String.eqb (c_vendor r) vendor)
                     (static_corrections s))),
   s).

Definition patternKey (vendor : string) (pattern : ExtractionPattern.t)
  (r : patternRow) : bool :=
  String.eqb (p_vendor r) vendor &&
  String.eqb (p_field r) (ExtractionPattern.field pattern) &&
  String.eqb (p_regexPattern r) (ExtractionPattern.regexPattern pattern).

(** [UPDATE patterns SET usageCount = usageCount + 1, lastUsed = ?,
    confidence = ? WHERE id = ?] on one row *)
Definition bumpPattern (now : string) (id : Z) (newConf : float) (r : patternRow)
  : patternRow :=
  if (p_id r =? id)%Z then
    PatternRow (p_id r) (p_vendor r) (p_field r) (p_regexPattern r) newConf
               (p_usageCount r + 1)%Z now
  else r.

Definition addPattern (now vendor : string) (pattern : ExtractionPattern.t)
  (s : t) : t :=
  match List.filter (patternKey vendor pattern) (patterns s) with
  | rec :: _ =>
      let newConf := reinforce (p_confidence rec) in
      Make (List.map (bumpPattern now (p_id rec) newConf) (patterns s))
           (static_corrections s) (seq_patterns s) (seq_static_corrections s)
  | [] =>
      let id := (seq_patterns s + 1)%Z in
      Make
        (patterns s ++
         [PatternRow id vendor (ExtractionPattern.field pattern)
                     (ExtractionPattern.regexPattern pattern)
                     (ExtractionPattern.confidence pattern)
                     (ExtractionPattern.usageCount pattern)
                     (ExtractionPattern.lastUsed pattern)])%list
        (static_corrections s) id (seq_static_corrections s)
  end.

Definition correctionKey (vendor : string) (correction : ValueCorrection.t)
  (trigger : value) (r : correctionRow) : bool :=
  String.eqb (c_vendor r) vendor &&
  String.eqb (c_field r) (ValueCorrection.field correction) &&
  (sqlEq (c_triggerValue r) trigger ||
   (isNull (c_triggerValue r) && isNull trigger)) &&
  sqlEq (c_correctedValue r) (bind (ValueCorrection.correctedValue correction)).

(** [UPDATE static_corrections SET usageCount = usageCount + 1,
    confidence = ? WHERE id = ?] on one row *)
Definition bumpCorrection (id : Z) (newConf : float) (r : correctionRow)
  : correctionRow :=
  if (c_id r =? id)%Z then
    CorrectionRow (c_id r) (c_vendor r) (c_field r) (c_triggerValue r)
                  (c_correctedValue r) (c_condition r) newConf
                  (c_usageCount r + 1)%Z
  else r.

Definition addStaticCorrection (vendor : string)
  (correction : ValueCorrection.t) (s : t) : t :=
  let trigger := orNull (ValueCorrection.triggerValue correction) in
  match List.filter (correctionKey vendor correction trigger)
                    (static_corrections s) with
  | rec :: _ =>
      let newConf := reinforce (c_confidence rec) in
      Make (patterns s)
           (List.map (bumpCorrection (c_id rec) newConf) (static_corrections s))
           (seq_patterns s) (seq_static_corrections s)
  | [] =>
      let id := (seq_static_corrections s + 1)%Z in
      Make (patterns s)
        (static_corrections s ++
         [CorrectionRow id vendor (ValueCorrection.field correction) trigger
                        (bind (ValueCorrection.correctedValue correction))
                        (orNullStr (ValueCorrection.condition correction))
                        (ValueCorrection.confidence correction)
                        (ValueCorrection.usageCount correction)])%list
        (seq_patterns s) id
  end.

Definition reset (s : t) : t :=
  Make [] [] (seq_patterns s) (seq_static_corrections s).

Definition empty : t := Make [] [] 0 0.

End SqlStore.

#[export] Instance sqlStore : MemoryStore SqlStore.t := {
  getVendorMemory := SqlStore.getVendorMemory;
  addPattern := SqlStore.addPattern;
  addStaticCorrection := SqlStore.addStaticCorrection
}.

(** ** Services of the JavaScript runtime the agent relies on

    [newDate s] is the time value of [new Date(s)] in milliseconds since
    the epoch, [None] for an Invalid Date; beyond the ISO forms the texts
    a Date accepts depend on the engine. *)

Class Runtime : Type := {
  newDate : string -> option Z
}.

(** A call either returns, throws (a TypeError, or the SyntaxError of
    [new RegExp]), or leaves what the embedding represents (a total that
    is no number). *)
Inductive outcome (A : Type) : Type :=
| Returns (a : A)
| Throws
| Unmodelled.
Arguments Returns {A} a.
Arguments Throws {A}.
Arguments Unmodelled {A}.

Definition bindO {A B : Type} (o : outcome A) (k : A -> outcome B)
  : outcome B :=
  match o with
  | Returns a => k a
  | Throws => Throws
  | Unmodelled => Unmodelled
  end.

Notation "'try!' x := o 'in' k" := (bindO o (fun x => k))
  (at level 10, x name, o at level 200, k at level 200, only parsing).

Definition boolToString (b : bool) : string := if b then "true" else "false".

Definition millisPerDay : Z := 1000 * 60 * 60 * 24.

(** [Math.ceil(a / b)] for integers [a] and [b > 0].  The quotient of
    the program is rounded to binary64; its ceiling is compared with 60
    only.  A quotient of at most 59 rounds to at most 59, and a quotient
    above 59 exceeds it by 1/86400000 or more, far above the spacing of
    binary64 near 59, so it rounds to a Number above 59. *)
Definition ceilDiv (a b : Z) : Z := (- ((- a) / b))%Z.

(** ** The agent (MemoryAgent.ts) *)

Section Agent.

Context {RT : Runtime} {S : Type} {MS : MemoryStore S}.

(** ToString of a template-literal argument *)
Definition toStr (v : value) : string :=
  match v with
  | VUndefined => "undefined"
  | VNull => "null"
  | VStr s => s
  | VNum x => Num.toString x
  | VObject => "[object Object]"
  end.

(** *** Helpers *)

Definition getFieldValue (fields : Normalized.t) (path : string) : value :=
  if Str.includes path "[" then VNull
  else Normalized.get fields path.

Definition setFieldValue (fields : Normalized.t) (path : string) (v : value)
  : Normalized.t :=
  if Str.includes path "[" then fields
  else Normalized.set fields path v.

(** [null] when the pattern does not compile or does not match,
    [undefined] when it has no first group or the group took no part. *)
Definition extractWithRegex (text patternStr : string) : value :=
  match RegExp.compile patternStr with
  | None => VNull
  | Some regex =>
      match RegExp.exec true regex text with
      | Some m =>
          match RegExp.group m 1 with
          | Some s => VStr s
          | None => VUndefined
          end
      | None => VNull
      end
  end.

(** The result of [parseDate]: [null], or a Date that may be invalid. *)
Inductive parsedDate : Type :=
| DateNull
| DateObj (time : option Z).

(** The dotted form is rebuilt from the first three parts; a missing part
    prints as the text undefined. *)
Definition part (parts : list string) (i : nat) : string :=
  match nth_error parts i with
  | Some p => p
  | None => "undefined"
  end.

Definition parseDateStr (dateStr : string) : parsedDate :=
  if String.eqb dateStr "" then DateNull
  else if Str.includes dateStr "." then
    let parts := Str.splitChar "." dateStr in
    DateObj (newDate (part parts 2 ++ "-" ++ part parts 1 ++ "-" ++ part parts 0))
  else DateObj (newDate dateStr).

(** [parseDate] on the value found under a date key: a falsy value gives
    [null]; a truthy value that is not a string has no [includes]. *)
Definition parseDate (dateStr : value) : outcome parsedDate :=
  match dateStr with
  | VStr s => Returns (parseDateStr s)
  | _ => if truthy dateStr then Throws else Returns DateNull
  end.

Definition skuMatch (invItems : list LineItem.t) (po : PurchaseOrder.t) : bool :=
  existsb
    (fun poItem =>
       existsb (fun invItem =>
                  strictEq (LineItem.sku invItem) (LineItem.sku poItem))
               invItems)
    (PurchaseOrder.lineItems po).

Definition fuzzyMatch (invItems : list LineItem.t) (po : PurchaseOrder.t) : bool :=
  existsb
    (fun poItem =>
       existsb (fun invItem =>
                  PrimFloat.ltb
                    (PrimFloat.abs (LineItem.unitPrice invItem -
                                    LineItem.unitPrice poItem)) 0.01 &&
                  PrimFloat.eqb (LineItem.qty invItem) (LineItem.qty poItem))
               invItems)
    (PurchaseOrder.lineItems po).

(** The body of the loop for one candidate: [true] when the loop returns
    this purchase order. *)
Definition acceptsPO (invTime : option Z) (invItems : list LineItem.t)
  (po : PurchaseOrder.t) : bool :=
  match parseDateStr (PurchaseOrder.date po) with
  | DateNull => false
  | DateObj poTime =>
      match invTime, poTime with
      | Some ti, Some tp =>
          let diffTime := Z.abs (ti - tp) in
          let diffDays := ceilDiv diffTime millisPerDay in
          if (tp <=? ti)%Z && (diffDays <? 60)%Z then
            skuMatch invItems po || fuzzyMatch invItems po
          else false
      | _, _ => false      (* a comparison with NaN is false *)
      end
  end.

Definition findMatchingPOWithVendor (invoice : Normalized.t) (vendor : string)
  (refData : ReferenceData.t) : outcome (option PurchaseOrder.t) :=
  try! invDate := parseDate (Normalized.get invoice "invoiceDate") in
  match invDate with
  | DateNull => Returns None
  | DateObj invTime =>
      let candidates :=
        List.filter (fun po => String.eqb (PurchaseOrder.vendor po) vendor)
                    (ReferenceData.purchaseOrders refData) in
      Returns (List.find (acceptsPO invTime (Normalized.lineItems invoice))
                         candidates)
  end.

(** *** process *)

(** The variables of [process] that its steps update. *)
Record pstate : Type := PState {
  normalizedInvoice : Normalized.t;
  proposedCorrections : list Correction.t;
  requiresHumanReview : bool;
  reasoning : string;
  auditTrail : list AuditEntry.t
}.

Definition findDuplicate (invoice : Invoice.t) (pastInvoices : list Invoice.t)
  : option Invoice.t :=
  List.find
    (fun past =>
       String.eqb (Invoice.vendor past) (Invoice.vendor invoice) &&
       String.eqb (InvoiceFields.invoiceNumber (Invoice.fields past))
                  (InvoiceFields.invoiceNumber (Invoice.fields invoice)) &&
       negb (String.eqb (Invoice.invoiceId past) (Invoice.invoiceId invoice)))
    pastInvoices.

(** 2a. one iteration of the loop over [memory.patterns] *)
Definition applyPattern (now rawText : string) (st : pstate)
  (pattern : ExtractionPattern.t) : pstate :=
  let field := ExtractionPattern.field pattern in
  let currentVal := getFieldValue (normalizedInvoice st) field in
  if isMissing currentVal then
    let extracted :=
      extractWithRegex rawText (ExtractionPattern.regexPattern pattern) in
    if truthy extracted then
      PState
        (setFieldValue (normalizedInvoice st) field extracted)
        (proposedCorrections st ++
         [Correction.Make field currentVal extracted
            ("Memory applied: Found match in raw text using learned pattern for "
             ++ field)])%list
        (requiresHumanReview st)
        (reasoning st)
        (auditTrail st ++
         [AuditEntry.Make "apply" now
            ("Applied pattern for " ++ field ++ ": " ++ toStr extracted)])%list
    else st
  else st.

Definition applyPatterns (now rawText : string)
  (patterns : list ExtractionPattern.t) (st : pstate) : pstate :=
  fold_left (applyPattern now rawText) patterns st.

Definition descriptionText (item : LineItem.t) : string :=
  match LineItem.description item with
  | Some d => d
  | None => "undefined"
  end.

(** The callback of [forEach] for one line item of a line-item rule:
    the item as it is left, and the Correction pushed, if any. *)
Definition mapSku (rule : ValueCorrection.t) (index : nat) (item : LineItem.t)
  : LineItem.t * list Correction.t :=
  if Str.endsWith (ValueCorrection.field rule) ".sku" &&
     truthy (ValueCorrection.triggerValue rule) then
    match LineItem.description item with
    | Some d =>
        if negb (String.eqb d "") &&
           Str.includes d (toStr (ValueCorrection.triggerValue rule)) &&
           negb (truthy (LineItem.sku item))
        then
          (LineItem.Make (ValueCorrection.correctedValue rule)
                         (LineItem.description item)
                         (LineItem.qty item) (LineItem.unitPrice item),
           [Correction.Make
              ("lineItems[" ++ Str.ofNat index ++ "].sku")
              (LineItem.sku item)
              (ValueCorrection.correctedValue rule)
              ("Memory applied: Mapped description '" ++ descriptionText item
               ++ "' to SKU '" ++ toStr (ValueCorrection.correctedValue rule)
               ++ "'")])
        else (item, [])
    | None => (item, [])
    end
  else (item, []).

Fixpoint mapSkus (rule : ValueCorrection.t) (index : nat)
  (items : list LineItem.t) : list LineItem.t * list Correction.t :=
  match items with
  | [] => ([], [])
  | item :: rest =>
      let (item', cs) := mapSku rule index item in
      let (rest', cs') := mapSkus rule (Datatypes.S index) rest in
      (item' :: rest', (cs ++ cs')%list)
  end.

(** 2b. one iteration of the loop over [memory.staticCorrections] *)
Definition applyStatic (st : pstate) (rule : ValueCorrection.t) : pstate :=
  let field := ValueCorrection.field rule in
  if Str.includes field "lineItems" then
    let (items', cs) :=
      mapSkus rule 0 (Normalized.lineItems (normalizedInvoice st)) in
    PState
      (Normalized.Make (Normalized.props (normalizedInvoice st)) items')
      (proposedCorrections st ++ cs)%list
      (requiresHumanReview st) (reasoning st) (auditTrail st)
  else
    let currentVal := getFieldValue (normalizedInvoice st) field in
    if strictEq currentVal VNull ||
       match ValueCorrection.condition rule with
       | Some c => String.eqb c "always"
       | None => false
       end
    then
      PState
        (setFieldValue (normalizedInvoice st) field
                       (ValueCorrection.correctedValue rule))
        (proposedCorrections st ++
         [Correction.Make field currentVal
            (ValueCorrection.correctedValue rule)
            ("Memory applied: Static correction for " ++ field)])%list
        (requiresHumanReview st) (reasoning st) (auditTrail st)
    else st.

Definition applyStatics (rules : list ValueCorrection.t) (st : pstate)
  : pstate :=
  fold_left applyStatic rules st.

(** 3a. PO matching *)
Definition matchPO (vendor : string) (referenceData : ReferenceData.t)
  (st : pstate) : outcome pstate :=
  if negb (truthy (Normalized.get (normalizedInvoice st) "poNumber")) then
    try! candidatePO :=
      findMatchingPOWithVendor (normalizedInvoice st) vendor referenceData in
    match candidatePO with
    | Some po =>
        Returns
          (PState
             (Normalized.set (normalizedInvoice st) "poNumber"
                             (VStr (PurchaseOrder.poNumber po)))
             (proposedCorrections st ++
              [Correction.Make "poNumber" VNull
                 (VStr (PurchaseOrder.poNumber po))
                 "Heuristic: Found matching PO based on vendor and line items."])%list
             (requiresHumanReview st) (reasoning st) (auditTrail st))
    | None => Returns st
    end
  else Returns st.

(** A total read as a number; the coercions of a non-number are not
    represented. *)
Definition numberField (fields : Normalized.t) (key : string)
  : outcome float :=
  match Normalized.get fields key with
  | VNum x => Returns x
  | _ => Unmodelled
  end.

Definition inclVat (rawText : string) : bool :=
  let lcText := Str.toLowerCase rawText in
  Str.includes lcText "incl. vat" || Str.includes lcText "mwst. inkl".

(** 3b. tax validation *)
Definition validateTax (rawText : string) (st : pstate) : outcome pstate :=
  let inv := normalizedInvoice st in
  try! netTotal := numberField inv "netTotal" in
  try! taxRate := numberField inv "taxRate" in
  try! taxTotal := numberField inv "taxTotal" in
  try! grossTotal := numberField inv "grossTotal" in
  let calculatedGross := (netTotal * (1 + taxRate))%float in
  let taxCalcDiff := PrimFloat.abs (calculatedGross - grossTotal) in
  let sumDiff := PrimFloat.abs ((netTotal + taxTotal) - grossTotal) in
  let st1 :=
    if PrimFloat.ltb 1 sumDiff then
      PState inv (proposedCorrections st) true
             (reasoning st ++ "Totals do not sum up (Net + Tax != Gross). ")
             (auditTrail st)
    else st in
  if PrimFloat.ltb 1 taxCalcDiff then
    if inclVat rawText then
      let realGross := grossTotal in
      let newNet := Num.toFixed2 (realGross / (1 + taxRate)) in
      let newTax := Num.toFixed2 (realGross - newNet) in
      Returns
        (PState
           (Normalized.set (Normalized.set inv "netTotal" (VNum newNet))
                           "taxTotal" (VNum newTax))
           (proposedCorrections st1 ++
            [Correction.Make "netTotal" (VNum netTotal) (VNum newNet)
               "Detected 'incl. VAT' context, recalculated Net from Gross";
             Correction.Make "taxTotal" (VNum taxTotal) (VNum newTax)
               "Recalculated Tax from Gross"])%list
           (requiresHumanReview st1) (reasoning st1) (auditTrail st1))
    else
      Returns
        (PState inv (proposedCorrections st1) true
                (reasoning st1 ++ "Tax calculation invalid (Net * Rate != Gross). ")
                (auditTrail st1))
  else Returns st1.

(** 4. scoring and decision *)
Definition score (confidence : float) (corrections : list Correction.t)
  : float :=
  Num.min 0.99
          (match corrections with
           | [] => confidence
           | _ :: _ => confidence + 0.1
           end).

Definition criticalMissing (fields : Normalized.t) : bool :=
  negb (truthy (Normalized.get fields "invoiceNumber")) ||
  negb (truthy (Normalized.get fields "invoiceDate")) ||
  negb (truthy (Normalized.get fields "currency")).

Definition scoreAndDecide (now : string) (confidence : float) (st : pstate)
  : ProcessResult.t :=
  let sc := score confidence (proposedCorrections st) in
  let reasoning1 :=
    match proposedCorrections st with
    | [] => reasoning st
    | _ :: _ => reasoning st ++ "Applied corrections based on memory/heuristics. "
    end in
  let missing := criticalMissing (normalizedInvoice st) in
  let reasoning2 :=
    if missing then reasoning1 ++ "Critical fields missing. " else reasoning1 in
  let review :=
    requiresHumanReview st || missing || PrimFloat.ltb sc 0.8 in
  ProcessResult.Make
    (normalizedInvoice st)
    (proposedCorrections st)
    review
    (Str.trim reasoning2)
    sc
    []
    (auditTrail st ++
     [AuditEntry.Make "decide" now
        ("Review: " ++ boolToString review ++ ", Score: " ++
         Num.toFixed2String sc)])%list.

Definition duplicateResult (now : string) (invoice duplicate : Invoice.t)
  (st : pstate) : ProcessResult.t :=
  ProcessResult.Make
    (normalizedInvoice st)
    (proposedCorrections st ++
     [Correction.Make "invoiceNumber"
        (VStr (InvoiceFields.invoiceNumber (Invoice.fields invoice)))
        (VStr "DUPLICATE-FLAG")
        "Duplicate submission detected"])%list
    true
    (Str.trim (reasoning st ++ "Potential duplicate of invoice " ++
               Invoice.invoiceId duplicate ++ ". "))
    0
    []
    (auditTrail st ++
     [AuditEntry.Make "decide" now "Flagged as duplicate."])%list.

(** The variables of [process] once the vendor memory is loaded. *)
Definition initialState (now : string) (invoice : Invoice.t) : pstate :=
  PState (deepCopy (Invoice.fields invoice)) [] false ""
         [AuditEntry.Make "recall" now
            ("Loaded memory for " ++ Invoice.vendor invoice)].

(** Step 2: the state on which PO matching starts. *)
Definition afterMemory (now : string) (memory : VendorMemory.t)
  (invoice : Invoice.t) : pstate :=
  applyStatics (VendorMemory.staticCorrections memory)
    (applyPatterns now (Invoice.rawText invoice)
       (VendorMemory.patterns memory) (initialState now invoice)).

(** [process] on the vendor memory that [getVendorMemory] returned *)
Definition processWith (now : string) (memory : VendorMemory.t)
  (invoice : Invoice.t) (referenceData : ReferenceData.t)
  (pastInvoices : list Invoice.t) : outcome ProcessResult.t :=
  match findDuplicate invoice pastInvoices with
  | Some duplicate =>
      Returns (duplicateResult now invoice duplicate (initialState now invoice))
  | None =>
      let st2 := afterMemory now memory invoice in
      try! st3 := matchPO (Invoice.vendor invoice) referenceData st2 in
      try! st4 := validateTax (Invoice.rawText invoice) st3 in
      Returns (scoreAndDecide now (Invoice.confidence invoice) st4)
  end.

Definition process (now : string) (store : S) (invoice : Invoice.t)
  (referenceData : ReferenceData.t) (pastInvoices : list Invoice.t)
  : outcome ProcessResult.t :=
  processWith now (fst (getVendorMemory (Invoice.vendor invoice) store))
              invoice referenceData pastInvoices.

(** *** learn *)

(** [/[.*+?^${}()|[\\]/g]: the closing bracket is not in the class. *)
Definition isRegExpSpecial (c : ascii) : bool :=
  RegExp.oneOf c ".*+?^${}()|[\".

Definition escapeRegExp (s : string) : string :=
  RegExp.replaceChars isRegExpSpecial
    (fun c => String "\" (String c EmptyString)) s.

Definition compiled (source : string) : RegExp.regex :=
  match RegExp.compile source with
  | Some r => r
  | None => RegExp.REmpty
  end.

(** [/^\d{4}-\d{2}-\d{2}$/] *)
Definition reIsoDate : RegExp.regex :=
  Eval vm_compute in compiled "^\d{4}-\d{2}-\d{2}$".

(** [/\d{2}\.\d{2}\.\d{4}/] *)
Definition reDotDate : RegExp.regex :=
  Eval vm_compute in compiled "\d{2}\.\d{2}\.\d{4}".

(** [/\d{2}\/\d{2}\/\d{4}/] *)
Definition reSlashDate : RegExp.regex :=
  Eval vm_compute in compiled "\d{2}\/\d{2}\/\d{4}".

(** [/lineItems\[(\d+)\]\.sku/] *)
Definition reSkuPath : RegExp.regex :=
  Eval vm_compute in compiled "lineItems\[(\d+)\]\.sku".

(** The members of the label class besides A-Z and a-z.  The source lists
    the code units U+0102, U+00A4, U+00B6, U+013D, U+201E, U+2013, U+015B
    and U+017A; the two below 256 are representable. *)
Definition labelExtra : string :=
  String (ascii_of_nat 164) (String (ascii_of_nat 182) EmptyString).

(** [/([A-Za-z...]+):?\s*$/] *)
Definition reLabel : RegExp.regex :=
  Eval vm_compute in compiled ("([A-Za-z" ++ labelExtra ++ "]+):?\s*$").

(** [val.replace(/\d/g, '\\d')] *)
Definition generalizeDigits (s : string) : string :=
  RegExp.replaceChars Str.isDigit (fun _ => "\d") s.

(** The capture group around the shape of the value found in the text. *)
Definition valuePattern (val : string) : string :=
  if RegExp.test false reDotDate val then "(\d{2}\.\d{2}\.\d{4})"
  else if RegExp.test false reSlashDate val then "(\d{2}/\d{2}/\d{4})"
  else "(" ++ generalizeDigits (escapeRegExp val) ++ ")".

(** The label in the 25 code units before position [index]. *)
Definition labelBefore (rawText : string) (index : nat) : option string :=
  let windowSize := 25 in
  let start := Nat.max 0 (index - windowSize) in
  let context := Str.substring rawText start index in
  let cleanContext :=
    Str.trim
      (RegExp.replaceChars (fun c => Ascii.eqb c (ascii_of_nat 10))
                           (fun _ => " ") context) in
  match RegExp.exec false reLabel cleanContext with
  | Some labelMatch => RegExp.group labelMatch 1
  | None => None
  end.

Definition searchValues (to : string) : list string :=
  if RegExp.test false reIsoDate to then
    let parts := Str.splitChar "-" to in
    let y := part parts 0 in
    let m := part parts 1 in
    let d := part parts 2 in
    [to; d ++ "." ++ m ++ "." ++ y; d ++ "/" ++ m ++ "/" ++ y]
  else [to].

(** The loop over [searchValues]: the flag [foundMatch] and the store. *)
Fixpoint learnFromText (now vendor rawText field : string)
  (values : list string) (store : S) : bool * S :=
  match values with
  | [] => (false, store)
  | val :: values' =>
      match Str.indexOf rawText val with
      | Some index =>
          (true,
           match labelBefore rawText index with
           | Some label =>
               let regex := label ++ ":?\s*" ++ valuePattern val in
               addPattern now vendor
                 (ExtractionPattern.Make field regex 0.6 1 now) store
           | None => store
           end)
      | None => learnFromText now vendor rawText field values' store
      end
  end.

Definition flexibleWords (to : string) : list string :=
  List.filter (fun w => (1 <? String.length w)%nat) (RegExp.splitWs to).

Definition flexiblePattern (words : list string) : string :=
  Str.join ".*" (List.map escapeRegExp words).

(** The fallback of step 1, taken when no search value is in the text. *)
Definition learnFlexible (now vendor rawText field to : string) (store : S)
  : outcome S :=
  if Str.includes to " " then
    let words := flexibleWords to in
    if (2 <? List.length words)%nat then
      match RegExp.compile (flexiblePattern words) with
      | None => Throws
      | Some regex =>
          if RegExp.test true regex rawText then
            Returns
              (addPattern now vendor
                 (ExtractionPattern.Make field (flexiblePattern words)
                                         0.5 1 now) store)
          else Returns store
      end
    else Returns store
  else Returns store.

(** Step 1 for one correction: text extraction learning. *)
Definition learnExtraction (now : string) (invoice : Invoice.t)
  (c : Correction.t) (store : S) : outcome S :=
  let vendor := Invoice.vendor invoice in
  let field := Correction.field c in
  let minLength := if String.eqb field "currency" then 3 else 4 in
  match Correction.to c with
  | VStr to =>
      if (minLength <=? String.length to)%nat then
        let (foundMatch, store1) :=
          learnFromText now vendor (Invoice.rawText invoice) field
                        (searchValues to) store in
        if foundMatch then Returns store1
        else learnFlexible now vendor (Invoice.rawText invoice) field to store1
      else Returns store
  | _ => Returns store
  end.

(** Step 2 for one correction: static mapping learning. *)
Definition learnMapping (invoice : Invoice.t) (c : Correction.t) (store : S)
  : S :=
  if Str.includes (Correction.field c) "sku" && truthy (Correction.to c) then
    match RegExp.exec false reSkuPath (Correction.field c) with
    | Some m =>
        match RegExp.group m 1 with
        | Some digits =>
            let idx := Str.digitsToNat digits in
            match nth_error (InvoiceFields.lineItems (Invoice.fields invoice))
                            idx with
            | Some item =>
                match LineItem.description item with
                | Some desc =>
                    if negb (String.eqb desc "") then
                      addStaticCorrection (Invoice.vendor invoice)
                        (ValueCorrection.Make "lineItems.sku" (VStr desc)
                           (Correction.to c) None 0.8 1)
                        store
                    else store
                | None => store
                end
            | None => store
            end
        | None => store
        end
    | None => store
    end
  else store.

(** The body of the loop over [humanLog.corrections]; step 3 (currency)
    has an empty body. *)
Definition learnCorrection (now : string) (invoice : Invoice.t)
  (c : Correction.t) (store : S) : outcome S :=
  try! store1 := learnExtraction now invoice c store in
  Returns (learnMapping invoice c store1).

Fixpoint learnAll (now : string) (invoice : Invoice.t)
  (corrections : list Correction.t) (store : S) : outcome S :=
  match corrections with
  | [] => Returns store
  | c :: rest =>
      try! store1 := learnCorrection now invoice c store in
      learnAll now invoice rest store1
  end.

Definition learn (now : string) (store : S) (invoice : Invoice.t)
  (humanLog : HumanCorrectionLog.t) : outcome S :=
  match HumanCorrectionLog.finalDecision humanLog with
  | rejected => Returns store
  | approved =>
      learnAll now invoice (HumanCorrectionLog.corrections humanLog) store
  end.

End Agent.

(** ** A reference runtime, for running the agent on concrete invoices

    [isoDate] is [new Date(s)] on the date-only form YYYY-MM-DD, which
    ECMAScript reads as midnight UTC, and on the date-time form
    YYYY-MM-DDTHH:mm:ssZ; every other text is taken as an Invalid
    Date. *)

Module Reference.

Definition isLeap (y : Z) : bool :=
  ((y mod 4 =? 0) && negb (y mod 100 =? 0) || (y mod 400 =? 0))%Z.

Definition daysInMonth (y m : Z) : Z :=
  if (m =? 2)%Z then (if isLeap y then 29 else 28)%Z
  else if ((m =? 4) || (m =? 6) || (m =? 9) || (m =? 11))%Z then 30%Z
  else 31%Z.

(** Days from 1970-01-01 to the civil date [y]-[m]-[d]. *)
Definition daysFromCivil (y m d : Z) : Z :=
  let y' := (if m <=? 2 then y - 1 else y)%Z in
  let era := (y' / 400)%Z in
  let yoe := (y' - era * 400)%Z in
  let mp := ((m + 9) mod 12)%Z in
  let doy := ((153 * mp + 2) / 5 + d - 1)%Z in
  let doe := (yoe * 365 + yoe / 4 - yoe / 100 + doy)%Z in
  (era * 146097 + doe - 719468)%Z.

Definition digitsZ (s : string) : Z := Z.of_nat (Str.digitsToNat s).

Definition validDate (y m d : string) : bool :=
  Str.all Str.isDigit y && Str.all Str.isDigit m && Str.all Str.isDigit d &&
  ((1 <=? digitsZ m) && (digitsZ m <=? 12) && (1 <=? digitsZ d) &&
   (digitsZ d <=? daysInMonth (digitsZ y) (digitsZ m)))%Z.

Definition validTime (h mi se : string) : bool :=
  Str.all Str.isDigit h && Str.all Str.isDigit mi && Str.all Str.isDigit se &&
  ((digitsZ h <=? 23) && (digitsZ mi <=? 59) && (digitsZ se <=? 59))%Z.

Definition isoDate (s : string) : option Z :=
  let y := Str.substring s 0 4 in
  let m := Str.substring s 5 7 in
  let d := Str.substring s 8 10 in
  let day := (daysFromCivil (digitsZ y) (digitsZ m) (digitsZ d)
              * millisPerDay)%Z in
  let dashes :=
    String.eqb (Str.substring s 4 5) "-" &&
    String.eqb (Str.substring s 7 8) "-" in
  if (String.length s =? 10)%nat && dashes && validDate y m d
  then Some day
  else
    let h := Str.substring s 11 13 in
    let mi := Str.substring s 14 16 in
    let se := Str.substring s 17 19 in
    if (String.length s =? 20)%nat && dashes && validDate y m d &&
       String.eqb (Str.substring s 10 11) "T" &&
       String.eqb (Str.substring s 13 14) ":" &&
       String.eqb (Str.substring s 16 17) ":" &&
       String.eqb (Str.substring s 19 20) "Z" &&
       validTime h mi se
    then Some (day + ((digitsZ h * 60 + digitsZ mi) * 60 + digitsZ se) * 1000)%Z
    else None.

End Reference.

#[export] Instance referenceRuntime : Runtime := {
  newDate := Reference.isoDate
}.

(** ** Well-typed vendor memory

    A static correction of a top-level field assigns [correctedValue]
    whatever the declared type of the field.  [ruleTyped] holds when the
    assignment respects types.ts on the fields whose type the later steps
    rely on: the four totals stay numbers and the invoice date stays a
    string or a falsy value.  The invoice is as [JSON.parse] returns it
    from a file that [JSON.stringify] wrote: its totals are finite, and
    the numbers of its line items are finite and not -0, so that the
    deep copy keeps them as they are. *)

Definition isTotal (key : string) : bool :=
  String.eqb key "netTotal" || String.eqb key "taxRate" ||
  String.eqb key "taxTotal" || String.eqb key "grossTotal".

Definition valueTyped (key : string) (v : value) : bool :=
  if isTotal key then
    match v with
    | VNum _ => true
    | _ => false
    end
  else if String.eqb key "invoiceDate" then
    match v with
    | VStr _ => true
    | _ => negb (truthy v)
    end
  else true.

Definition ruleTyped (rule : ValueCorrection.t) : bool :=
  valueTyped (ValueCorrection.field rule) (ValueCorrection.correctedValue rule).

Definition finiteTotals (f : InvoiceFields.t) : bool :=
  Num.isFinite (InvoiceFields.netTotal f) &&
  Num.isFinite (InvoiceFields.taxRate f) &&
  Num.isFinite (InvoiceFields.taxTotal f) &&
  Num.isFinite (InvoiceFields.grossTotal f).

Definition survivesJson (x : float) : bool :=
  Num.isFinite x && negb (Num.isNegZero x).

Definition plainItems (items : list LineItem.t) : bool :=
  forallb (fun item => survivesJson (LineItem.qty item) &&
                       survivesJson (LineItem.unitPrice item) &&
                       match LineItem.sku item with
                       | VNum x => survivesJson x
                       | _ => true
                       end) items.

Definition wellTyped (memory : VendorMemory.t) (invoice : Invoice.t) : bool :=
  forallb ruleTyped (VendorMemory.staticCorrections memory) &&
  finiteTotals (Invoice.fields invoice) &&
  plainItems (InvoiceFields.lineItems (Invoice.fields invoice)).

(** The typing invariant of the working copy. *)
Definition typedFields (n : Normalized.t) : Prop :=
  forall key, valueTyped key (Normalized.get n key) = true.

(** ** Sample data, in the shape of data/invoices.json *)

Module Demo.

Definition item (sku : value) (description : string) (qty unitPrice : float)
  : LineItem.t :=
  LineItem.Make sku (Some description) qty unitPrice.

Definition supplier : string := "Supplier GmbH".

(** An invoice of Supplier GmbH without service date. *)
Definition invA1 : Invoice.t :=
  Invoice.Make "INV-A-001" supplier
    (InvoiceFields.Make "A-1001" "2024-01-10" VNull (VStr "EUR")
       (VStr "PO-A-050") 100 0.19 19 119
       [item (VStr "WIDGET-1") "Widget" 10 10] VUndefined)
    0.85
    "Rechnung A-1001
Leistungsdatum: 01.01.2024
Summe 119.00 EUR".

(** The same invoice number submitted again under another id. *)
Definition invA4 : Invoice.t :=
  Invoice.Make "INV-A-004" supplier
    (InvoiceFields.Make "A-1001" "2024-01-12" VNull (VStr "EUR")
       (VStr "PO-A-050") 100 0.19 19 119
       [item (VStr "WIDGET-1") "Widget" 10 10] VUndefined)
    0.85
    "Rechnung A-1001 (Kopie)".

Definition noReference : ReferenceData.t := ReferenceData.Make [].

Definition now : string := "2024-01-15T10:00:00.000Z".

End Demo.

Module DemoPatterns.

(** A learned pattern that would read the service date of [Demo.invA1],
    and one that would read its currency. *)
Definition serviceDate : ExtractionPattern.t :=
  ExtractionPattern.Make "serviceDate"
    "Leistungsdatum:?\s*(\d{2}\.\d{2}\.\d{4})" 0.6 1 Demo.now.

Definition currency : ExtractionPattern.t :=
  ExtractionPattern.Make "currency" "Summe\s*[\d.]+\s*([A-Z]{3})"
    0.6 1 Demo.now.

End DemoPatterns.

Module DemoTax.

Definition parts : string := "Parts AG".

(** Net 100, rate 19 %, tax 19, gross 119: the totals agree. *)
Definition consistent : Invoice.t :=
  Invoice.Make "INV-B-000" parts
    (InvoiceFields.Make "B-2000" "2024-02-01" (VStr "2024-01-30")
       (VStr "EUR") (VStr "PO-B-010") 100 0.19 19 119
       [Demo.item (VStr "BOLT-8") "Bolts M8" 100 1] VNull)
    0.9
    "Invoice B-2000
Net 100.00 VAT 19.00 Total 119.00 EUR".

(** The extraction copied the gross amount into the net total; the
    document says that prices include VAT. *)
Definition grossAsNet : Invoice.t :=
  Invoice.Make "INV-B-001" parts
    (InvoiceFields.Make "B-2001" "2024-02-03" (VStr "2024-02-01")
       (VStr "EUR") (VStr "PO-B-011") 119 0.19 0 119
       [Demo.item (VStr "BOLT-8") "Bolts M8" 100 1] VNull)
    0.85
    "Invoice B-2001
Total 119.00 EUR (prices incl. VAT)".

(** As [grossAsNet], but the extracted tax is 19: net and tax do not
    add up to the gross amount either. *)
Definition grossAsNetWithTax : Invoice.t :=
  Invoice.Make "INV-B-002" parts
    (InvoiceFields.Make "B-2002" "2024-02-05" (VStr "2024-02-01")
       (VStr "EUR") (VStr "PO-B-012") 119 0.19 19 119
       [Demo.item (VStr "BOLT-8") "Bolts M8" 100 1] VNull)
    0.95
    "Invoice B-2002
Total 119.00 EUR (prices incl. VAT)".

(** Gross 100.11 copied into the net total at a rate of 20 %: the
    quotient 100.11 / 1.2 is a binary64 value just below 83.425. *)
Definition rounding : Invoice.t :=
  Invoice.Make "INV-B-003" parts
    (InvoiceFields.Make "B-2003" "2024-02-07" (VStr "2024-02-01")
       (VStr "EUR") (VStr "PO-B-013") 100.11 0.2 0 100.11
       [Demo.item (VStr "BOLT-8") "Bolts M8" 100 1] VNull)
    0.85
    "Invoice B-2003
Total 100.11 EUR (prices incl. VAT)".

(** Net and tax are one unit above the gross amount on paper; the
    binary64 difference is 1.0000000000002274. *)
Definition oneOff : Invoice.t :=
  Invoice.Make "INV-B-004" parts
    (InvoiceFields.Make "B-2004" "2024-02-09" (VStr "2024-02-01")
       (VStr "EUR") (VStr "PO-B-014") 1000.1 0.19 190.02 1189.12
       [Demo.item (VStr "BOLT-8") "Bolts M8" 100 1] VNull)
    0.85
    "Invoice B-2004
Net 1000.10 VAT 190.02 Total 1189.12 EUR".

End DemoTax.

(** ** Purchase-order matching, declaratively

    What the loop of [findMatchingPOWithVendor] decides, stated on time
    values and Numbers without the loop and its ceiling.
    A purchase order is eligible for an invoice when it is of the same
    vendor, its date is on or before the invoice date with a gap of at
    most 59 days (the gap counted in started days is less than 60), and
    it shares an exact line-item SKU with the invoice or has a line item
    of equal quantity whose unit price differs, as a Number, by less
    than 0.01 from that of some invoice line item. *)

Section Eligibility.

Context {RT : Runtime}.

Definition sharesSku (invItems poItems : list LineItem.t) : Prop :=
  exists invItem poItem,
    In invItem invItems /\ In poItem poItems /\
    strictEq (LineItem.sku invItem) (LineItem.sku poItem) = true.

Definition sameQtyAndPrice (invItems poItems : list LineItem.t) : Prop :=
  exists invItem poItem,
    In invItem invItems /\ In poItem poItems /\
    PrimFloat.eqb (LineItem.qty invItem) (LineItem.qty poItem) = true /\
    PrimFloat.ltb
      (PrimFloat.abs (LineItem.unitPrice invItem - LineItem.unitPrice poItem))
      0.01 = true.

Definition eligiblePO (vendor : string) (invTime : Z)
  (invItems : list LineItem.t) (po : PurchaseOrder.t) : Prop :=
  PurchaseOrder.vendor po = vendor /\
  exists poTime,
    parseDateStr (PurchaseOrder.date po) = DateObj (Some poTime) /\
    (poTime <= invTime)%Z /\
    (invTime - poTime <= 59 * millisPerDay)%Z /\
    (sharesSku invItems (PurchaseOrder.lineItems po) \/
     sameQtyAndPrice invItems (PurchaseOrder.lineItems po)).

End Eligibility.

Module DemoPO.

Definition freight : string := "Freight & Co".

Definition invoice : Invoice.t :=
  Invoice.Make "INV-C-003" freight
    (InvoiceFields.Make "C-3003" "01.03.2024" (VStr "2024-02-28")
       (VStr "EUR") VNull 1000 0.19 190 1190
       [Demo.item (VStr "FREIGHT") "Seefracht Hamburg" 2 500] VNull)
    0.85
    "Rechnung C-3003 vom 01.03.2024
Seefracht Hamburg 2 x 500.00
Netto 1000.00 MwSt 190.00 Brutto 1190.00 EUR".

(** Dated 70 days before the invoice, same SKU, same price. *)
Definition tooOld : PurchaseOrder.t :=
  PurchaseOrder.Make "PO-C-001" freight "2023-12-22"
    [Demo.item (VStr "FREIGHT") "Sea freight" 2 500].

(** Dated 10 days before the invoice, same SKU, another unit price. *)
Definition recent : PurchaseOrder.t :=
  PurchaseOrder.Make "PO-C-002" freight "2024-02-20"
    [Demo.item (VStr "FREIGHT") "Sea freight" 5 450].

(** Also in the window with the same SKU, but later in the list. *)
Definition later : PurchaseOrder.t :=
  PurchaseOrder.Make "PO-C-003" freight "2024-02-25"
    [Demo.item (VStr "FREIGHT") "Sea freight" 2 500].

Definition reference : ReferenceData.t :=
  ReferenceData.Make [tooOld; recent; later].

(** Line items without SKU on both sides. *)
Definition invoiceNoSku : Invoice.t :=
  Invoice.Make "INV-C-004" freight
    (InvoiceFields.Make "C-3004" "2024-03-01" (VStr "2024-02-28")
       (VStr "EUR") VNull 1000 0.19 190 1190
       [LineItem.Make VNull (Some "Handling") 1 1000] VNull)
    0.85
    "Rechnung C-3004
Netto 1000.00 MwSt 190.00 Brutto 1190.00 EUR".

Definition noSku1 : PurchaseOrder.t :=
  PurchaseOrder.Make "PO-C-010" freight "2024-02-20"
    [LineItem.Make VNull (Some "Pallets") 40 12].

Definition noSku2 : PurchaseOrder.t :=
  PurchaseOrder.Make "PO-C-011" freight "2024-02-21"
    [LineItem.Make VNull (Some "Crates") 7 3].

Definition referenceNoSku : ReferenceData.t :=
  ReferenceData.Make [noSku1; noSku2].

(** An invoice whose date carries a time of day, and a purchase order
    with the same SKU dated 59 days and 12 hours before it. *)
Definition invoiceNoon : Invoice.t :=
  Invoice.Make "INV-C-006" freight
    (InvoiceFields.Make "C-3006" "2024-03-01T12:00:00Z" (VStr "2024-02-28")
       (VStr "EUR") VNull 1000 0.19 190 1190
       [Demo.item (VStr "FREIGHT") "Seefracht Hamburg" 2 500] VNull)
    0.85
    "Rechnung C-3006
Netto 1000.00 MwSt 190.00 Brutto 1190.00 EUR".

Definition halfDay : PurchaseOrder.t :=
  PurchaseOrder.Make "PO-C-020" freight "2024-01-02"
    [Demo.item (VStr "FREIGHT") "Sea freight" 2 500].

Definition referenceNoon : ReferenceData.t :=
  ReferenceData.Make [halfDay].

(** [invoice] again, extracted with a confidence of 0.7: the purchase
    order found for it is the one Correction proposed. *)
Definition borderline : Invoice.t :=
  Invoice.Make "INV-C-005" freight
    (InvoiceFields.Make "C-3005" "01.03.2024" (VStr "2024-02-28")
       (VStr "EUR") VNull 1000 0.19 190 1190
       [Demo.item (VStr "FREIGHT") "Seefracht Hamburg" 2 500] VNull)
    0.7
    "Rechnung C-3005 vom 01.03.2024
Seefracht Hamburg 2 x 500.00
Netto 1000.00 MwSt 190.00 Brutto 1190.00 EUR".

End DemoPO.

(** ** What the agent needs from a store

    [recall] is the vendor memory a later [process] loads.  The laws say
    that an upsert is visible to [recall], that no upsert removes a
    pattern or a mapping, and that [addPattern] adds no mapping; both
    stores satisfy them (see [jsonStore_laws] and [sqlStore_laws]). *)

Section StoreLaws.

Context {S : Type} {MS : MemoryStore S}.

Definition recall (vendor : string) (store : S) : VendorMemory.t :=
  fst (getVendorMemory vendor store).

Definition hasPattern (store : S) (vendor field regexPattern : string)
  : Prop :=
  exists p,
    In p (VendorMemory.patterns (recall vendor store)) /\
    ExtractionPattern.field p = field /\
    ExtractionPattern.regexPattern p = regexPattern.

Definition hasMapping (store : S) (vendor field trigger corrected : string)
  : Prop :=
  exists c,
    In c (VendorMemory.staticCorrections (recall vendor store)) /\
    ValueCorrection.field c = field /\
    ValueCorrection.triggerValue c = VStr trigger /\
    ValueCorrection.correctedValue c = VStr corrected.

Class MemoryStoreLaws : Prop := {
  addPattern_recall now vendor p store :
    hasPattern (addPattern now vendor p store) vendor
               (ExtractionPattern.field p) (ExtractionPattern.regexPattern p);
  addPattern_keeps_pattern now vendor p store vendor' field regex :
    hasPattern store vendor' field regex ->
    hasPattern (addPattern now vendor p store) vendor' field regex;
  addPattern_same_mappings now vendor p store vendor' field trigger corrected :
    hasMapping (addPattern now vendor p store) vendor' field trigger corrected
    <-> hasMapping store vendor' field trigger corrected;
  addStatic_recall vendor field trigger corrected condition confidence count
                   store :
    trigger <> "" ->
    hasMapping
      (addStaticCorrection vendor
         (ValueCorrection.Make field (VStr trigger) (VStr corrected)
                               condition confidence count) store)
      vendor field trigger corrected;
  addStatic_fresh vendor field trigger corrected confidence count store :
    trigger <> "" ->
    ~ hasMapping store vendor field trigger corrected ->
    In (ValueCorrection.Make field (VStr trigger) (VStr corrected) None
                             confidence count)
       (VendorMemory.staticCorrections
          (recall vendor
             (addStaticCorrection vendor
                (ValueCorrection.Make field (VStr trigger) (VStr corrected)
                                      None confidence count) store)));
  addStatic_keeps_pattern vendor c store vendor' field regex :
    hasPattern store vendor' field regex ->
    hasPattern (addStaticCorrection vendor c store) vendor' field regex;
  addStatic_keeps_mapping vendor c store vendor' field trigger corrected :
    hasMapping store vendor' field trigger corrected ->
    hasMapping (addStaticCorrection vendor c store)
               vendor' field trigger corrected
}.

End StoreLaws.

Arguments MemoryStoreLaws S {MS}.

Module DemoStore.

(** A vendor-wide rule that clears a field: the corrected value is null. *)
Definition clearTerms : ValueCorrection.t :=
  ValueCorrection.Make "discountTerms" VUndefined VNull (Some "always")
                       0.8 1.

End DemoStore.

(** ** The flexible patterns that [learn] builds

    A pattern source is plain when it is a sequence of characters without
    meaning in a RegExp, escaped characters of the class that
    [escapeRegExp] escapes, and the connector [.*]. *)

Inductive plainPattern : string -> Prop :=
| plain_nil : plainPattern EmptyString
| plain_char c s :
    isRegExpSpecial c = false -> plainPattern s -> plainPattern (String c s)
| plain_escape c s :
    isRegExpSpecial c = true -> plainPattern s ->
    plainPattern (String "\" (String c s))
| plain_dotStar s :
    plainPattern s -> plainPattern (String "." (String "*" s)).

(** ** Vocabulary for reasoning about matches *)

Module Matching.
Import RegExp.

(** The state after [k] more code units are consumed. *)
Definition advance (k : nat) (st : mstate) : mstate :=
  MState (pos st + k) (Str.drop k (rest st)) (caps st).

(** The regex of the literal text [s] followed by [K], in the shape the
    parser produces. *)
Fixpoint litsThen (s : string) (K : regex) : regex :=
  match s with
  | EmptyString => K
  | String c s' => RSeq (RChar c) (litsThen s' K)
  end.

(** [tail] does not start with a code unit that satisfies [p]. *)
Definition stopsAt (p : ascii -> bool) (tail : string) : Prop :=
  match tail with
  | EmptyString => True
  | String c _ => p c = false
  end.

End Matching.

(** [store'] has every pattern and every mapping of [store]. *)
Definition extends {S : Type} {MS : MemoryStore S} (store store' : S) : Prop :=
  (forall vendor field regex,
     hasPattern store vendor field regex ->
     hasPattern store' vendor field regex) /\
  (forall vendor field trigger corrected,
     hasMapping store vendor field trigger corrected ->
     hasMapping store' vendor field trigger corrected).



Module DemoSku.

(** The invoice on which the human sets the SKU of line item 0. *)
Definition invC2 : Invoice.t :=
  Invoice.Make "INV-C-002" DemoPO.freight
    (InvoiceFields.Make "C-3002" "2024-02-10" (VStr "2024-02-08")
       (VStr "EUR") (VStr "PO-C-000") 500 0.19 95 595
       [LineItem.Make VNull (Some "Seefracht") 1 500] VNull)
    0.8
    "Rechnung C-3002
Seefracht 1 x 500.00
Netto 500.00 MwSt 95.00 Brutto 595.00 EUR".

Definition skuCorrection : Correction.t :=
  Correction.Make "lineItems[0].sku" VNull (VStr "FREIGHT")
                  "SKU assigned by reviewer".

Definition logC2 : HumanCorrectionLog.t :=
  HumanCorrectionLog.Make "INV-C-002" DemoPO.freight [skuCorrection] approved.




End DemoSku.

(** ** Labels as the specification words them

    A label is a non-empty run of letters, the class of the label
    pattern; the text before it is empty or ends with a code unit that
    is no letter; between the label and the value there may be a colon
    and white space. *)

Definition isLabelChar (c : ascii) : bool :=
  Str.isUpper c || Str.isLower c ||
  (Str.code c =? 164)%nat || (Str.code c =? 182)%nat.

(** [s] is empty or its last code unit does not satisfy [p]. *)
Fixpoint endsOutside (p : ascii -> bool) (s : string) : bool :=
  match s with
  | EmptyString => true
  | String c s' =>
      match s' with
      | EmptyString => negb (p c)
      | String _ _ => endsOutside p s'
      end
  end.

Definition isColon (c : ascii) : bool := Ascii.eqb c ":".

(** An optional colon, then white space only. *)
Definition isSeparator (sep : string) : bool :=
  match sep with
  | EmptyString => true
  | String c ws =>
      if isColon c then Str.all Str.isSpace ws else Str.all Str.isSpace sep
  end.

(** The code units that [:?\s*] can step over. *)
Definition isSepChar (c : ascii) : bool := isColon c || Str.isSpace c.

(** [s.replace(/\n/g, ' ')], as [learn] cleans the context of a value. *)
Definition unbreak (s : string) : string :=
  RegExp.replaceChars (fun c => Ascii.eqb c (ascii_of_nat 10)) (fun _ => " ") s.

(** The class of the label pattern. *)
Definition labelSet : list RegExp.citem :=
  [RegExp.IRange "A" "Z"; RegExp.IRange "a" "z";
   RegExp.ILit (ascii_of_nat 164); RegExp.ILit (ascii_of_nat 182)].

Module DemoLabel.

(** The human reads the service date of [Demo.invA1] off the document. *)
Definition dateCorrection : Correction.t :=
  Correction.Make "serviceDate" VNull (VStr "2024-01-01")
                  "Service date taken from the document".

Definition logA1 : HumanCorrectionLog.t :=
  HumanCorrectionLog.Make "INV-A-001" Demo.supplier [dateCorrection] approved.

(** A later invoice of the vendor, again without service date. *)
Definition invA2 : Invoice.t :=
  Invoice.Make "INV-A-002" Demo.supplier
    (InvoiceFields.Make "A-1002" "2024-01-20" VNull (VStr "EUR")
       (VStr "PO-A-051") 200 0.19 38 238
       [Demo.item (VStr "WIDGET-1") "Widget" 20 10] VUndefined)
    0.85
    "Rechnung A-1002
Leistungsdatum: 05.01.2024
Summe 238.00 EUR".

(** An invoice whose invoice date and service date are the same day, the
    invoice date printed first. *)
Definition invA3 : Invoice.t :=
  Invoice.Make "INV-A-003" Demo.supplier
    (InvoiceFields.Make "A-1003" "2024-01-01" VNull (VStr "EUR")
       (VStr "PO-A-052") 100 0.19 19 119
       [Demo.item (VStr "WIDGET-1") "Widget" 10 10] VUndefined)
    0.85
    "Rechnung A-1003
Rechnungsdatum: 01.01.2024
Leistungsdatum: 01.01.2024
Summe 119.00 EUR".

Definition logA3 : HumanCorrectionLog.t :=
  HumanCorrectionLog.Make "INV-A-003" Demo.supplier [dateCorrection] approved.

End DemoLabel.

(** ** The two stores side by side *)

(** The ids of each table are pairwise different and at most the table's
    sequence number: what AUTOINCREMENT guarantees of the ids it hands
    out. *)
Definition sqlIdsUnique (s : SqlStore.t) : Prop :=
  List.NoDup (List.map SqlStore.p_id (SqlStore.patterns s)) /\
  List.Forall (fun r => (SqlStore.p_id r <= SqlStore.seq_patterns s)%Z)
              (SqlStore.patterns s) /\
  List.NoDup (List.map SqlStore.c_id (SqlStore.static_corrections s)) /\
  List.Forall
    (fun r => (SqlStore.c_id r <= SqlStore.seq_static_corrections s)%Z)
    (SqlStore.static_corrections s).

(** Both stores return the same patterns and the same static corrections
    for every vendor. *)
Definition storesAgree (j : JsonStore.t) (q : SqlStore.t) : Prop :=
  forall vendor,
    VendorMemory.patterns (recall vendor j)
    = VendorMemory.patterns (recall vendor q) /\
    VendorMemory.staticCorrections (recall vendor j)
    = VendorMemory.staticCorrections (recall vendor q).

Definition agreeing (j : JsonStore.t) (q : SqlStore.t) : Prop :=
  storesAgree j q /\ sqlIdsUnique q.

(** Two patterns, or two static corrections, with the same key: what
    the file-backed store compares with [===]. *)
Definition samePatternKey (p q : ExtractionPattern.t) : Prop :=
  ExtractionPattern.field p = ExtractionPattern.field q /\
  ExtractionPattern.regexPattern p = ExtractionPattern.regexPattern q.

Definition sameCorrectionKey (c d : ValueCorrection.t) : Prop :=
  ValueCorrection.field c = ValueCorrection.field d /\
  strictEq (ValueCorrection.triggerValue c) (ValueCorrection.triggerValue d)
  = true /\
  strictEq (ValueCorrection.correctedValue c)
           (ValueCorrection.correctedValue d) = true.

(** A regex without capturing group. *)
Fixpoint groupFree (r : RegExp.regex) : bool :=
  match r with
  | RegExp.RGroup _ _ => false
  | RegExp.RSeq a b | RegExp.RAlt a b => groupFree a && groupFree b
  | RegExp.RRep a _ _ _ => groupFree a
  | _ => true
  end.

(** * Properties *)

(** ** The working copy *)

Lemma get_set_eq (n : Normalized.t) (key : string) (v : value) :
  Normalized.get (Normalized.set n key v) key = v.
Proof.
  unfold Normalized.get, Normalized.set; simpl.
  by rewrite lookup_insert_eq.
Qed.

Lemma get_set_ne (n : Normalized.t) (key key' : string) (v : value) :
  key <> key' ->
  Normalized.get (Normalized.set n key v) key' = Normalized.get n key'.
Proof.
  intros Hne. unfold Normalized.get, Normalized.set; simpl.
  by rewrite lookup_insert_ne.
Qed.

Lemma lineItems_set (n : Normalized.t) (key : string) (v : value) :
  Normalized.lineItems (Normalized.set n key v) = Normalized.lineItems n.
Proof. reflexivity. Qed.

Lemma putProp_ne (key key' : string) (v : value) (m : gmap string value) :
  key <> key' -> putProp key v m !! key' = m !! key'.
Proof.
  intros Hne. destruct v; simpl; try reflexivity; by rewrite lookup_insert_ne.
Qed.

Lemma putProp_eq (key : string) (v : value) (m : gmap string value) :
  v <> VUndefined -> putProp key v m !! key = Some v.
Proof.
  intros Hv. destruct v; simpl; try congruence; by rewrite lookup_insert_eq.
Qed.

Lemma jsonNumber_defined x : jsonNumber x <> VUndefined.
Proof. unfold jsonNumber. by repeat case_match. Qed.

Lemma jsonNumber_finite x :
  Num.isFinite x = true -> exists y, jsonNumber x = VNum y.
Proof. unfold jsonNumber. intros ->. case_match; eauto. Qed.

Ltac skip_props :=
  repeat (rewrite putProp_ne by (intros ?; discriminate)).

Lemma deepCopy_netTotal f :
  Normalized.get (deepCopy f) "netTotal" = jsonNumber (InvoiceFields.netTotal f).
Proof.
  unfold Normalized.get, deepCopy; cbn [Normalized.props]. skip_props.
  by rewrite putProp_eq by apply jsonNumber_defined.
Qed.

Lemma deepCopy_taxRate f :
  Normalized.get (deepCopy f) "taxRate" = jsonNumber (InvoiceFields.taxRate f).
Proof.
  unfold Normalized.get, deepCopy; cbn [Normalized.props]. skip_props.
  by rewrite putProp_eq by apply jsonNumber_defined.
Qed.

Lemma deepCopy_taxTotal f :
  Normalized.get (deepCopy f) "taxTotal" = jsonNumber (InvoiceFields.taxTotal f).
Proof.
  unfold Normalized.get, deepCopy; cbn [Normalized.props]. skip_props.
  by rewrite putProp_eq by apply jsonNumber_defined.
Qed.

Lemma deepCopy_grossTotal f :
  Normalized.get (deepCopy f) "grossTotal" = jsonNumber (InvoiceFields.grossTotal f).
Proof.
  unfold Normalized.get, deepCopy; cbn [Normalized.props]. skip_props.
  by rewrite putProp_eq by apply jsonNumber_defined.
Qed.

Lemma deepCopy_invoiceDate f :
  Normalized.get (deepCopy f) "invoiceDate" = VStr (InvoiceFields.invoiceDate f).
Proof.
  unfold Normalized.get, deepCopy; cbn [Normalized.props]. skip_props.
  by rewrite putProp_eq.
Qed.

Lemma deepCopy_invoiceNumber f :
  Normalized.get (deepCopy f) "invoiceNumber"
  = VStr (InvoiceFields.invoiceNumber f).
Proof.
  unfold Normalized.get, deepCopy; cbn [Normalized.props].
  by rewrite putProp_eq.
Qed.

Lemma deepCopy_lineItems f :
  Normalized.lineItems (deepCopy f) = InvoiceFields.lineItems f.
Proof. reflexivity. Qed.

Lemma typedFields_set n key v :
  typedFields n -> valueTyped key v = true ->
  typedFields (Normalized.set n key v).
Proof.
  intros Hn Hv key'. destruct (decide (key = key')) as [<- | Hne].
  - by rewrite get_set_eq.
  - rewrite get_set_ne by done. apply Hn.
Qed.

Lemma isTotal_cases key :
  isTotal key = true ->
  key = "netTotal" \/ key = "taxRate" \/ key = "taxTotal" \/ key = "grossTotal".
Proof.
  unfold isTotal. rewrite !orb_true_iff, !String.eqb_eq. tauto.
Qed.

Lemma typedFields_deepCopy f :
  finiteTotals f = true ->
  typedFields (deepCopy f).
Proof.
  unfold finiteTotals. rewrite !andb_true_iff.
  intros [[[Hn Hr] Ht] Hg] key. unfold valueTyped.
  destruct (isTotal key) eqn:Htot.
  - apply isTotal_cases in Htot as [-> | [-> | [-> | ->]]].
    + rewrite deepCopy_netTotal.
      by destruct (jsonNumber_finite _ Hn) as [y ->].
    + rewrite deepCopy_taxRate.
      by destruct (jsonNumber_finite _ Hr) as [y ->].
    + rewrite deepCopy_taxTotal.
      by destruct (jsonNumber_finite _ Ht) as [y ->].
    + rewrite deepCopy_grossTotal.
      by destruct (jsonNumber_finite _ Hg) as [y ->].
  - destruct (String.eqb key "invoiceDate") eqn:Hd; [|done].
    apply String.eqb_eq in Hd as ->. by rewrite deepCopy_invoiceDate.
Qed.

Lemma wellTyped_totals memory invoice :
  wellTyped memory invoice = true ->
  finiteTotals (Invoice.fields invoice) = true.
Proof.
  unfold wellTyped. rewrite !andb_true_iff. by intros [[_ H] _].
Qed.

Lemma deepCopy_total_present memory invoice key :
  wellTyped memory invoice = true -> isTotal key = true ->
  isMissing (Normalized.get (deepCopy (Invoice.fields invoice)) key) = false.
Proof.
  intros Hwt Hkey.
  pose proof (typedFields_deepCopy _ (wellTyped_totals _ _ Hwt) key) as Ht.
  unfold valueTyped in Ht. rewrite Hkey in Ht.
  by destruct (Normalized.get _ key).
Qed.

(** ** The steps of [process] *)

Section ProcessFacts.

Context {RT : Runtime} {S : Type} {MS : MemoryStore S}.

Lemma truthy_extracted text patternStr :
  truthy (extractWithRegex text patternStr) = true ->
  exists s, extractWithRegex text patternStr = VStr s.
Proof.
  unfold extractWithRegex.
  destruct (RegExp.compile patternStr); [|discriminate].
  destruct (RegExp.exec true r text); [|discriminate].
  destruct (RegExp.group m 1); [eauto|discriminate].
Qed.

Lemma isMissing_typed_total key v :
  isTotal key = true -> valueTyped key v = true -> isMissing v = false.
Proof.
  unfold valueTyped. intros ->. by destruct v.
Qed.


Lemma applyPattern_typed now rawText st pattern :
  typedFields (normalizedInvoice st) ->
  typedFields (normalizedInvoice (applyPattern now rawText st pattern)).
Proof.
  intros Hst. unfold applyPattern, getFieldValue, setFieldValue.
  destruct (Str.includes (ExtractionPattern.field pattern) "[") eqn:Hb.
  { repeat (case_match; simpl; try done). }
  destruct (isMissing _) eqn:Hm; [|done].
  destruct (truthy _) eqn:Ht; [|done]. simpl.
  apply truthy_extracted in Ht as [s Hs]. rewrite Hs.
  apply typedFields_set; [done|].
  unfold valueTyped.
  destruct (isTotal _) eqn:Htot.
  - rewrite (isMissing_typed_total _ _ Htot (Hst _)) in Hm. discriminate.
  - by destruct (String.eqb _ "invoiceDate").
Qed.


Lemma applyPatterns_typed now rawText patterns st :
  typedFields (normalizedInvoice st) ->
  typedFields (normalizedInvoice (applyPatterns now rawText patterns st)).
Proof.
  unfold applyPatterns. revert st.
  induction patterns as [|p ps IH]; intros st Hst; simpl; [done|].
  apply IH. by apply applyPattern_typed.
Qed.

Lemma applyPatterns_review now rawText patterns st :
  requiresHumanReview (applyPatterns now rawText patterns st)
  = requiresHumanReview st.
Proof.
  unfold applyPatterns. revert st.
  induction patterns as [|p ps IH]; intros st; simpl; [done|].
  rewrite IH. unfold applyPattern. repeat (case_match; simpl; try done).
Qed.

Lemma applyStatic_typed st rule :
  ruleTyped rule = true ->
  typedFields (normalizedInvoice st) ->
  typedFields (normalizedInvoice (applyStatic st rule)).
Proof.
  intros Hr Hst. unfold applyStatic, setFieldValue.
  destruct (Str.includes (ValueCorrection.field rule) "lineItems").
  { destruct (mapSkus _ _ _). simpl. intros key. apply (Hst key). }
  destruct (strictEq _ VNull || _); [|done]. simpl.
  destruct (Str.includes _ "["); [done|]. by apply typedFields_set.
Qed.

Lemma applyStatics_typed rules st :
  forallb ruleTyped rules = true ->
  typedFields (normalizedInvoice st) ->
  typedFields (normalizedInvoice (applyStatics rules st)).
Proof.
  unfold applyStatics. revert st.
  induction rules as [|r rs IH]; intros st Hrs Hst; simpl; [done|].
  simpl in Hrs. apply andb_true_iff in Hrs as [Hr Hrs].
  apply IH; [done|]. by apply applyStatic_typed.
Qed.

Lemma applyStatics_review rules st :
  requiresHumanReview (applyStatics rules st) = requiresHumanReview st.
Proof.
  unfold applyStatics. revert st.
  induction rules as [|r rs IH]; intros st; simpl; [done|].
  rewrite IH. unfold applyStatic.
  repeat (case_match; simpl; try done).
Qed.

(** With a well-typed invoice date, PO matching returns. *)
Lemma parseDate_typed n :
  typedFields n ->
  exists d, parseDate (Normalized.get n "invoiceDate") = Returns d.
Proof.
  intros Hn. specialize (Hn "invoiceDate"). unfold valueTyped in Hn.
  simpl in Hn. unfold parseDate.
  destruct (Normalized.get n "invoiceDate"); simpl in *; eauto.
  - rewrite negb_true_iff in Hn. rewrite Hn. eauto.
  - discriminate.
Qed.

Lemma findMatchingPO_typed n vendor refData :
  typedFields n ->
  exists r, findMatchingPOWithVendor n vendor refData = Returns r.
Proof.
  intros Hn. unfold findMatchingPOWithVendor.
  destruct (parseDate_typed n Hn) as [d ->]. simpl.
  destruct d; eauto.
Qed.

Lemma matchPO_typed vendor referenceData st :
  typedFields (normalizedInvoice st) ->
  exists st', matchPO vendor referenceData st = Returns st' /\
              typedFields (normalizedInvoice st') /\
              requiresHumanReview st' = requiresHumanReview st.
Proof.
  intros Hst. unfold matchPO.
  destruct (negb _); [|eauto].
  destruct (findMatchingPO_typed _ vendor referenceData Hst) as [r ->].
  simpl. destruct r as [po|]; [|eauto].
  eexists; split; [reflexivity|]. split; [|done]. simpl.
  by apply typedFields_set.
Qed.

Lemma typed_number n key :
  typedFields n -> isTotal key = true ->
  exists q, Normalized.get n key = VNum q.
Proof.
  intros Hn Hk. specialize (Hn key). unfold valueTyped in Hn.
  rewrite Hk in Hn. destruct (Normalized.get n key); try discriminate. eauto.
Qed.

Lemma validateTax_typed rawText st :
  typedFields (normalizedInvoice st) ->
  exists st', validateTax rawText st = Returns st'.
Proof.
  intros Hst. unfold validateTax, numberField.
  destruct (typed_number _ "netTotal" Hst eq_refl) as [net ->].
  destruct (typed_number _ "taxRate" Hst eq_refl) as [rate ->].
  destruct (typed_number _ "taxTotal" Hst eq_refl) as [tax ->].
  destruct (typed_number _ "grossTotal" Hst eq_refl) as [gross ->].
  simpl. repeat (case_match; eauto).
Qed.

Lemma afterMemory_typed now memory invoice :
  wellTyped memory invoice = true ->
  typedFields (normalizedInvoice (afterMemory now memory invoice)).
Proof.
  unfold wellTyped. rewrite !andb_true_iff. intros [[Hrules Htotals] _].
  apply applyStatics_typed; [done|].
  apply applyPatterns_typed. simpl. by apply typedFields_deepCopy.
Qed.

Lemma afterMemory_review now memory invoice :
  requiresHumanReview (afterMemory now memory invoice) = false.
Proof.
  unfold afterMemory. by rewrite applyStatics_review, applyPatterns_review.
Qed.

(** On the path without duplicate, [process] is the composition of its
    steps, and it returns on well-typed memory. *)
Lemma processWith_steps now memory invoice referenceData pastInvoices :
  findDuplicate invoice pastInvoices = None ->
  wellTyped memory invoice = true ->
  exists st3 st4,
    matchPO (Invoice.vendor invoice) referenceData
            (afterMemory now memory invoice) = Returns st3 /\
    validateTax (Invoice.rawText invoice) st3 = Returns st4 /\
    processWith now memory invoice referenceData pastInvoices
    = Returns (scoreAndDecide now (Invoice.confidence invoice) st4).
Proof.
  intros Hdup Hwt. unfold processWith. rewrite Hdup.
  destruct (matchPO_typed (Invoice.vendor invoice) referenceData _
              (afterMemory_typed now _ _ Hwt)) as (st3 & -> & Hst3 & _).
  destruct (validateTax_typed (Invoice.rawText invoice) st3 Hst3) as [st4 Hst4].
  exists st3, st4. simpl. rewrite Hst4. done.
Qed.

Lemma processWith_returns now memory invoice referenceData pastInvoices :
  wellTyped memory invoice = true ->
  exists r,
    processWith now memory invoice referenceData pastInvoices = Returns r.
Proof.
  intros Hwt.
  destruct (findDuplicate invoice pastInvoices) as [d|] eqn:Hdup.
  - unfold processWith. rewrite Hdup. eauto.
  - destruct (processWith_steps now memory invoice referenceData pastInvoices
                Hdup Hwt) as (st3 & st4 & _ & _ & ->). eauto.
Qed.

End ProcessFacts.

(** ** Claims about [process] *)

Section ProcessClaims.

Context {RT : Runtime} {S : Type} {MS : MemoryStore S}.

Lemma findDuplicate_found invoice pastInvoices past :
  In past pastInvoices ->
  Invoice.vendor past = Invoice.vendor invoice ->
  InvoiceFields.invoiceNumber (Invoice.fields past)
  = InvoiceFields.invoiceNumber (Invoice.fields invoice) ->
  Invoice.invoiceId past <> Invoice.invoiceId invoice ->
  exists duplicate, findDuplicate invoice pastInvoices = Some duplicate.
Proof.
  intros Hin Hv Hn Hid. unfold findDuplicate.
  destruct (List.find _ pastInvoices) as [d|] eqn:Hf; [eauto|].
  exfalso. eapply find_none in Hf; [|exact Hin].
  rewrite Hv, Hn, !String.eqb_refl in Hf. simpl in Hf.
  apply negb_false_iff, String.eqb_eq in Hf. contradiction.
Qed.

(** C2. When [pastInvoices] holds an invoice of the same vendor with the
    same invoice number and another id, [process] returns with
    [requiresHumanReview = true] and [confidenceScore = 0.0]; the only
    Correction proposed is the duplicate flag on [invoiceNumber], and the
    normalized invoice is the deep copy of the input: no pattern, static
    correction, PO match, tax check or scoring has run, whatever the
    store and the reference data hold. *)
Theorem duplicate_short_circuit
  (now : string) (store : S) (invoice : Invoice.t)
  (referenceData : ReferenceData.t) (pastInvoices : list Invoice.t)
  (past : Invoice.t) :
  In past pastInvoices ->
  Invoice.vendor past = Invoice.vendor invoice ->
  InvoiceFields.invoiceNumber (Invoice.fields past)
  = InvoiceFields.invoiceNumber (Invoice.fields invoice) ->
  Invoice.invoiceId past <> Invoice.invoiceId invoice ->
  exists r,
    process now store invoice referenceData pastInvoices = Returns r /\
    ProcessResult.requiresHumanReview r = true /\
    ProcessResult.confidenceScore r = 0%float /\
    ProcessResult.proposedCorrections r
    = [Correction.Make "invoiceNumber"
         (VStr (InvoiceFields.invoiceNumber (Invoice.fields invoice)))
         (VStr "DUPLICATE-FLAG") "Duplicate submission detected"] /\
    ProcessResult.normalizedInvoice r = deepCopy (Invoice.fields invoice).
Proof.
  intros Hin Hv Hn Hid.
  destruct (findDuplicate_found invoice pastInvoices past Hin Hv Hn Hid)
    as [d Hd].
  unfold process, processWith. rewrite Hd.
  eexists; split; [reflexivity|]. simpl. auto.
Qed.

Lemma score_below_forces_review now confidence st :
  PrimFloat.ltb (score confidence (proposedCorrections st)) 0.8 = true ->
  ProcessResult.requiresHumanReview (scoreAndDecide now confidence st) = true.
Proof.
  intros Hlt. unfold scoreAndDecide; simpl. rewrite Hlt.
  by rewrite !orb_true_r.
Qed.

Lemma missing_forces_review now confidence st :
  criticalMissing (normalizedInvoice st) = true ->
  ProcessResult.requiresHumanReview (scoreAndDecide now confidence st) = true.
Proof.
  intros Hm. unfold scoreAndDecide; simpl. rewrite Hm.
  by rewrite orb_true_r.
Qed.

(** C8. On the path without duplicate, the returned [confidenceScore] is
    [min(0.99, confidence + 0.10)] when at least one Correction is
    proposed and [min(0.99, confidence)] otherwise; [requiresHumanReview]
    is true whenever the invoice number, the invoice date or the currency
    of the normalized invoice is null (or another falsy value), and
    whenever the score is below 0.80.  The sum, the minimum and the
    comparison are those of binary64: with a confidence of 0.7 and a
    Correction the score is 0.7999999999999999, which is below 0.80. *)
Theorem scoring_and_decision
  (now : string) (store : S) (invoice : Invoice.t)
  (referenceData : ReferenceData.t) (pastInvoices : list Invoice.t) :
  findDuplicate invoice pastInvoices = None ->
  wellTyped (fst (getVendorMemory (Invoice.vendor invoice) store)) invoice
  = true ->
  exists r,
    process now store invoice referenceData pastInvoices = Returns r /\
    ProcessResult.confidenceScore r
    = Num.min 0.99
        (match ProcessResult.proposedCorrections r with
         | [] => Invoice.confidence invoice
         | _ :: _ => Invoice.confidence invoice + 0.1
         end) /\
    (truthy (Normalized.get (ProcessResult.normalizedInvoice r)
                            "invoiceNumber") = false \/
     truthy (Normalized.get (ProcessResult.normalizedInvoice r)
                            "invoiceDate") = false \/
     truthy (Normalized.get (ProcessResult.normalizedInvoice r)
                            "currency") = false ->
     ProcessResult.requiresHumanReview r = true) /\
    (PrimFloat.ltb (ProcessResult.confidenceScore r) 0.8 = true ->
     ProcessResult.requiresHumanReview r = true).
Proof.
  intros Hdup Hwt.
  destruct (processWith_steps now _ invoice referenceData pastInvoices
              Hdup Hwt) as (st3 & st4 & _ & _ & Hr).
  exists (scoreAndDecide now (Invoice.confidence invoice) st4).
  split; [exact Hr|]. split; [reflexivity|]. split.
  - intros Hnull. apply missing_forces_review.
    unfold criticalMissing.
    cbn [ProcessResult.normalizedInvoice scoreAndDecide] in Hnull.
    destruct Hnull as [H | [H | H]]; rewrite H; simpl;
      by rewrite ?orb_true_r.
  - apply score_below_forces_review.
Qed.

(** C9. Whenever [process] returns, on the duplicate path or on the normal
    one, [memoryUpdates] is the empty list; and [process] does return on
    every invoice, reference data and list of past invoices once the
    vendor memory is well typed. *)
Theorem memoryUpdates_empty
  (now : string) (store : S) (invoice : Invoice.t)
  (referenceData : ReferenceData.t) (pastInvoices : list Invoice.t) :
  (forall r,
     process now store invoice referenceData pastInvoices = Returns r ->
     ProcessResult.memoryUpdates r = []) /\
  (wellTyped (fst (getVendorMemory (Invoice.vendor invoice) store)) invoice
   = true ->
   exists r,
     process now store invoice referenceData pastInvoices = Returns r /\
     ProcessResult.memoryUpdates r = []).
Proof.
  assert (Hall : forall r,
     process now store invoice referenceData pastInvoices = Returns r ->
     ProcessResult.memoryUpdates r = []).
  { intros r. unfold process, processWith.
    destruct (findDuplicate invoice pastInvoices).
    - intros [= <-]. reflexivity.
    - destruct (matchPO _ _ _) as [st3| |]; simpl; try discriminate.
      destruct (validateTax _ st3) as [st4| |]; simpl; try discriminate.
      intros [= <-]. reflexivity. }
  split; [exact Hall|].
  intros Hwt.
  destruct (processWith_returns now _ invoice referenceData pastInvoices Hwt)
    as [r Hr].
  exists r. split; [exact Hr|]. by apply Hall.
Qed.

End ProcessClaims.

Lemma duplicate_short_circuit_witness :
  exists r,
    process Demo.now JsonStore.empty Demo.invA4 Demo.noReference [Demo.invA1]
    = Returns r /\
    ProcessResult.requiresHumanReview r = true /\
    ProcessResult.confidenceScore r = 0%float /\
    ProcessResult.proposedCorrections r
    = [Correction.Make "invoiceNumber" (VStr "A-1001")
         (VStr "DUPLICATE-FLAG") "Duplicate submission detected"] /\
    ProcessResult.normalizedInvoice r = deepCopy (Invoice.fields Demo.invA4).
Proof.
  apply (duplicate_short_circuit Demo.now JsonStore.empty Demo.invA4
           Demo.noReference [Demo.invA1] Demo.invA1).
  - simpl. auto.
  - reflexivity.
  - reflexivity.
  - discriminate.
Defined.

Lemma scoring_and_decision_witness :
  (exists r,
     process Demo.now JsonStore.empty DemoPO.borderline DemoPO.reference []
     = Returns r /\
     ProcessResult.confidenceScore r
     = Num.min 0.99
         (match ProcessResult.proposedCorrections r with
          | [] => 0.7
          | _ :: _ => 0.7 + 0.1
          end) /\
     (truthy (Normalized.get (ProcessResult.normalizedInvoice r)
                             "invoiceNumber") = false \/
      truthy (Normalized.get (ProcessResult.normalizedInvoice r)
                             "invoiceDate") = false \/
      truthy (Normalized.get (ProcessResult.normalizedInvoice r)
                             "currency") = false ->
      ProcessResult.requiresHumanReview r = true) /\
     (PrimFloat.ltb (ProcessResult.confidenceScore r) 0.8 = true ->
      ProcessResult.requiresHumanReview r = true)) /\
  (exists r,
     process Demo.now JsonStore.empty DemoPO.borderline DemoPO.reference []
     = Returns r /\
     List.map Correction.field (ProcessResult.proposedCorrections r)
     = ["poNumber"] /\
     ProcessResult.confidenceScore r = 0x1.9999999999999p-1%float /\
     PrimFloat.ltb (ProcessResult.confidenceScore r) 0.8 = true /\
     ProcessResult.requiresHumanReview r = true /\
     ProcessResult.reasoning r
     = "Applied corrections based on memory/heuristics.").
Proof.
  split.
  - apply (scoring_and_decision Demo.now JsonStore.empty DemoPO.borderline
             DemoPO.reference []).
    + reflexivity.
    + vm_compute. reflexivity.
  - eexists. split; [vm_compute; reflexivity|].
    repeat split; vm_compute; reflexivity.
Defined.

Lemma memoryUpdates_empty_witness :
  exists r,
    process Demo.now SqlStore.empty Demo.invA1 Demo.noReference [Demo.invA4]
    = Returns r /\
    ProcessResult.memoryUpdates r = [].
Proof.
  apply (memoryUpdates_empty Demo.now SqlStore.empty Demo.invA1
           Demo.noReference [Demo.invA4]).
  vm_compute. reflexivity.
Defined.

Section PatternFrame.

Context {RT : Runtime}.


Lemma applyPattern_frame now rawText st pattern key :
  isMissing (Normalized.get (normalizedInvoice st) key) = false ->
  Normalized.get (normalizedInvoice (applyPattern now rawText st pattern)) key
  = Normalized.get (normalizedInvoice st) key.
Proof.
  intros Hkey. unfold applyPattern, getFieldValue, setFieldValue.
  destruct (Str.includes (ExtractionPattern.field pattern) "[") eqn:Hb.
  { repeat (case_match; simpl; try done). }
  destruct (isMissing (Normalized.get _ (ExtractionPattern.field pattern)))
    eqn:Hm; [|done].
  destruct (truthy _); [|done]. simpl.
  apply get_set_ne. intros Heq. rewrite Heq in Hm. congruence.
Qed.


End PatternFrame.


(** ** Tax validation *)

Section TaxFacts.

Context {RT : Runtime}.

Lemma numberField_get n key q :
  Normalized.get n key = VNum q -> numberField n key = Returns q.
Proof. unfold numberField. by intros ->. Qed.

(** Both checks pass: the state is returned as it is. *)
Lemma validateTax_consistent rawText st net rate tax gross :
  Normalized.get (normalizedInvoice st) "netTotal" = VNum net ->
  Normalized.get (normalizedInvoice st) "taxRate" = VNum rate ->
  Normalized.get (normalizedInvoice st) "taxTotal" = VNum tax ->
  Normalized.get (normalizedInvoice st) "grossTotal" = VNum gross ->
  PrimFloat.ltb 1 (PrimFloat.abs (net + tax - gross)) = false ->
  PrimFloat.ltb 1 (PrimFloat.abs (net * (1 + rate) - gross)) = false ->
  validateTax rawText st = Returns st.
Proof.
  intros Hn Hr Ht Hg Hsum Hcalc. unfold validateTax.
  rewrite (numberField_get _ _ _ Hn), (numberField_get _ _ _ Hr),
    (numberField_get _ _ _ Ht), (numberField_get _ _ _ Hg).
  cbn [bindO]. by rewrite Hsum, Hcalc.
Qed.

(** The VAT check fails and the text says that VAT is included. *)
Lemma validateTax_inclVat rawText st net rate tax gross :
  Normalized.get (normalizedInvoice st) "netTotal" = VNum net ->
  Normalized.get (normalizedInvoice st) "taxRate" = VNum rate ->
  Normalized.get (normalizedInvoice st) "taxTotal" = VNum tax ->
  Normalized.get (normalizedInvoice st) "grossTotal" = VNum gross ->
  PrimFloat.ltb 1 (PrimFloat.abs (net * (1 + rate) - gross)) = true ->
  inclVat rawText = true ->
  let newNet := Num.toFixed2 (gross / (1 + rate)) in
  let newTax := Num.toFixed2 (gross - newNet) in
  exists st',
    validateTax rawText st = Returns st' /\
    Normalized.get (normalizedInvoice st') "netTotal" = VNum newNet /\
    Normalized.get (normalizedInvoice st') "taxTotal" = VNum newTax /\
    proposedCorrections st'
    = (proposedCorrections st ++
       [Correction.Make "netTotal" (VNum net) (VNum newNet)
          "Detected 'incl. VAT' context, recalculated Net from Gross";
        Correction.Make "taxTotal" (VNum tax) (VNum newTax)
          "Recalculated Tax from Gross"])%list /\
    requiresHumanReview st'
    = requiresHumanReview st ||
      PrimFloat.ltb 1 (PrimFloat.abs (net + tax - gross)).
Proof.
  intros Hn Hr Ht Hg Hcalc Hincl newNet newTax. unfold validateTax.
  rewrite (numberField_get _ _ _ Hn), (numberField_get _ _ _ Hr),
    (numberField_get _ _ _ Ht), (numberField_get _ _ _ Hg).
  cbn [bindO]. rewrite Hcalc, Hincl.
  eexists. split; [reflexivity|].
  cbn [normalizedInvoice proposedCorrections requiresHumanReview].
  split; [|split; [|split]].
  - rewrite get_set_ne by discriminate. by rewrite get_set_eq.
  - by rewrite get_set_eq.
  - by destruct (PrimFloat.ltb 1 (PrimFloat.abs (net + tax - gross))).
  - destruct (PrimFloat.ltb 1 (PrimFloat.abs (net + tax - gross))); simpl;
      by rewrite ?orb_false_r, ?orb_true_r.
Qed.

End TaxFacts.

(** C4, as the code has it. At the tax step, with sumDiff = |Net+Tax-Gross|
    and calcDiff = |Net*(1+Rate)-Gross| computed in binary64: when
    calcDiff > 1.0 and the raw text contains "incl. vat" or "mwst. inkl"
    in any letter case, the step sets Net = Number((Gross/(1+Rate))
    .toFixed(2)) and Tax = Number((Gross-Net).toFixed(2)) and appends one
    Correction for each; the VAT check does not flag review, and the
    review flag is raised exactly when sumDiff > 1.0.  When neither
    difference exceeds 1.0 the step changes nothing.  [process] on
    Net=100, Rate=0.19, Tax=19, Gross=119 proposes no Correction and asks
    for no review; on Net=119, Tax=0, Gross=119, Rate=0.19 with
    "incl. VAT" in the text it proposes Net -> 100 and Tax -> 19 and asks
    for no review. *)
Theorem tax_reconciliation :
  (forall (RT : Runtime) rawText st net rate tax gross,
     Normalized.get (normalizedInvoice st) "netTotal" = VNum net ->
     Normalized.get (normalizedInvoice st) "taxRate" = VNum rate ->
     Normalized.get (normalizedInvoice st) "taxTotal" = VNum tax ->
     Normalized.get (normalizedInvoice st) "grossTotal" = VNum gross ->
     (PrimFloat.ltb 1 (PrimFloat.abs (net * (1 + rate) - gross)) = true ->
      inclVat rawText = true ->
      exists st',
        validateTax rawText st = Returns st' /\
        Normalized.get (normalizedInvoice st') "netTotal"
        = VNum (Num.toFixed2 (gross / (1 + rate))) /\
        Normalized.get (normalizedInvoice st') "taxTotal"
        = VNum (Num.toFixed2 (gross - Num.toFixed2 (gross / (1 + rate)))) /\
        proposedCorrections st'
        = (proposedCorrections st ++
           [Correction.Make "netTotal" (VNum net)
              (VNum (Num.toFixed2 (gross / (1 + rate))))
              "Detected 'incl. VAT' context, recalculated Net from Gross";
            Correction.Make "taxTotal" (VNum tax)
              (VNum (Num.toFixed2
                       (gross - Num.toFixed2 (gross / (1 + rate)))))
              "Recalculated Tax from Gross"])%list /\
        requiresHumanReview st'
        = requiresHumanReview st ||
          PrimFloat.ltb 1 (PrimFloat.abs (net + tax - gross))) /\
     (PrimFloat.ltb 1 (PrimFloat.abs (net + tax - gross)) = false ->
      PrimFloat.ltb 1 (PrimFloat.abs (net * (1 + rate) - gross)) = false ->
      validateTax rawText st = Returns st)) /\
  (exists r,
     process Demo.now JsonStore.empty DemoTax.consistent Demo.noReference []
     = Returns r /\
     ProcessResult.proposedCorrections r = [] /\
     ProcessResult.requiresHumanReview r = false) /\
  (exists r,
     process Demo.now JsonStore.empty DemoTax.grossAsNet Demo.noReference []
     = Returns r /\
     ProcessResult.proposedCorrections r
     = [Correction.Make "netTotal" (VNum 119) (VNum 100)
          "Detected 'incl. VAT' context, recalculated Net from Gross";
        Correction.Make "taxTotal" (VNum 0) (VNum 19)
          "Recalculated Tax from Gross"] /\
     ProcessResult.requiresHumanReview r = false).
Proof.
  split; [|split].
  - intros RT rawText st net rate tax gross Hn Hr Ht Hg. split.
    + intros Hcalc Hincl.
      exact (validateTax_inclVat rawText st net rate tax gross
               Hn Hr Ht Hg Hcalc Hincl).
    + intros Hsum Hcalc.
      exact (validateTax_consistent rawText st net rate tax gross
               Hn Hr Ht Hg Hsum Hcalc).
  - eexists. split; [vm_compute; reflexivity|]. split; reflexivity.
  - eexists. split; [vm_compute; reflexivity|]. split; reflexivity.
Qed.

(** C4 as stated fails: on Net=119, Tax=19, Gross=119, Rate=0.19 with
    "incl. VAT" in the text, calcDiff is 22.61 and the totals are
    recomputed, yet the tax step raises the review flag, because Net+Tax
    misses Gross by 19; [process] asks for review although the score is
    0.99 and no critical field is missing. *)
Lemma tax_review_counterexample :
  let st := initialState Demo.now DemoTax.grossAsNetWithTax in
  PrimFloat.ltb 1 (PrimFloat.abs (119 * (1 + 0.19) - 119)) = true /\
  inclVat (Invoice.rawText DemoTax.grossAsNetWithTax) = true /\
  requiresHumanReview st = false /\
  (exists st',
     validateTax (Invoice.rawText DemoTax.grossAsNetWithTax) st = Returns st' /\
     Normalized.get (normalizedInvoice st') "netTotal" = VNum 100 /\
     Normalized.get (normalizedInvoice st') "taxTotal" = VNum 19 /\
     requiresHumanReview st' = true) /\
  (exists r,
     process Demo.now JsonStore.empty DemoTax.grossAsNetWithTax
             Demo.noReference [] = Returns r /\
     ProcessResult.requiresHumanReview r = true /\
     ProcessResult.reasoning r
     = "Totals do not sum up (Net + Tax != Gross). Applied corrections based on memory/heuristics." /\
     ProcessResult.confidenceScore r = 0.99%float /\
     criticalMissing (ProcessResult.normalizedInvoice r) = false).
Proof.
  split; [by vm_compute|]. split; [by vm_compute|]. split; [reflexivity|].
  split.
  - eexists. split; [vm_compute; reflexivity|].
    repeat split; vm_compute; reflexivity.
  - eexists. split; [vm_compute; reflexivity|].
    repeat split; vm_compute; reflexivity.
Qed.

Lemma tax_reconciliation_witness :
  (exists st',
     validateTax (Invoice.rawText DemoTax.grossAsNet)
                 (initialState Demo.now DemoTax.grossAsNet) = Returns st' /\
     Normalized.get (normalizedInvoice st') "netTotal" = VNum 100 /\
     Normalized.get (normalizedInvoice st') "taxTotal" = VNum 19 /\
     requiresHumanReview st' = false) /\
  (exists st',
     validateTax (Invoice.rawText DemoTax.rounding)
                 (initialState Demo.now DemoTax.rounding) = Returns st' /\
     Normalized.get (normalizedInvoice st') "netTotal" = VNum 83.42 /\
     Normalized.get (normalizedInvoice st') "taxTotal" = VNum 16.69 /\
     requiresHumanReview st' = false).
Proof.
  destruct tax_reconciliation as [Hgen _]. split.
  - destruct (Hgen referenceRuntime (Invoice.rawText DemoTax.grossAsNet)
                (initialState Demo.now DemoTax.grossAsNet)
                119%float 0.19%float 0%float 119%float
                eq_refl eq_refl eq_refl eq_refl) as [Hvat _].
    destruct Hvat as (st' & Hret & Hnet & Htax & _ & Hrev).
    + vm_compute. reflexivity.
    + vm_compute. reflexivity.
    + exists st'. split; [exact Hret|].
      split; [rewrite Hnet; vm_compute; reflexivity|].
      split; [rewrite Htax; vm_compute; reflexivity|].
      rewrite Hrev. vm_compute. reflexivity.
  - destruct (Hgen referenceRuntime (Invoice.rawText DemoTax.rounding)
                (initialState Demo.now DemoTax.rounding)
                100.11%float 0.2%float 0%float 100.11%float
                eq_refl eq_refl eq_refl eq_refl) as [Hvat _].
    destruct Hvat as (st' & Hret & Hnet & Htax & _ & Hrev).
    + vm_compute. reflexivity.
    + vm_compute. reflexivity.
    + exists st'. split; [exact Hret|].
      split; [rewrite Hnet; vm_compute; reflexivity|].
      split; [rewrite Htax; vm_compute; reflexivity|].
      rewrite Hrev. vm_compute. reflexivity.
Defined.

(** ** Purchase-order matching *)

Lemma find_first {A : Type} (h : A -> bool) (l : list A) (x : A) :
  List.find h l = Some x ->
  exists pre post,
    l = (pre ++ x :: post)%list /\ h x = true /\
    Forall (fun p => h p = false) pre.
Proof.
  induction l as [|a l IH]; simpl; [discriminate|].
  destruct (h a) eqn:Ha.
  - intros [= ->]. exists [], l. auto.
  - intros Hf. destruct (IH Hf) as (pre & post & -> & Hx & Hpre).
    exists (a :: pre), post. auto.
Qed.

Lemma find_filter {A : Type} (g h : A -> bool) (l : list A) :
  List.find h (List.filter g l) = List.find (fun x => g x && h x) l.
Proof.
  induction l as [|a l IH]; simpl; [done|].
  destruct (g a); simpl; [|done]. by rewrite IH.
Qed.

Section POFacts.

Context {RT : Runtime}.

Lemma skuMatch_sharesSku invItems po :
  skuMatch invItems po = true <->
  sharesSku invItems (PurchaseOrder.lineItems po).
Proof.
  unfold skuMatch, sharesSku. rewrite existsb_exists. split.
  - intros (poItem & Hpo & Hex). apply existsb_exists in Hex
      as (invItem & Hinv & Heq). eauto 6.
  - intros (invItem & poItem & Hinv & Hpo & Heq).
    exists poItem. split; [done|]. apply existsb_exists. eauto.
Qed.

Lemma fuzzyMatch_sameQtyAndPrice invItems po :
  fuzzyMatch invItems po = true <->
  sameQtyAndPrice invItems (PurchaseOrder.lineItems po).
Proof.
  unfold fuzzyMatch, sameQtyAndPrice. rewrite existsb_exists. split.
  - intros (poItem & Hpo & Hex). apply existsb_exists in Hex
      as (invItem & Hinv & Hb). apply andb_true_iff in Hb as [Hp Hq].
    by exists invItem, poItem.
  - intros (invItem & poItem & Hinv & Hpo & Hq & Hp).
    exists poItem. split; [done|]. apply existsb_exists.
    exists invItem. split; [done|]. by rewrite Hp, Hq.
Qed.

(** The gap in started days is below 60 exactly when the gap is at most
    59 days. *)
Lemma ceilDiv_lt (a d n : Z) :
  (0 < d)%Z -> (ceilDiv a d < n)%Z <-> (a <= (n - 1) * d)%Z.
Proof.
  intros Hd. unfold ceilDiv.
  pose proof (Z.div_mod (- a) d ltac:(lia)) as Hdiv.
  pose proof (Z.mod_pos_bound (- a) d Hd) as Hmod.
  split; intros H; nia.
Qed.

(** The loop body accepts exactly the eligible purchase orders of the
    vendor. *)
Lemma acceptsPO_eligible vendor invTime invItems po :
  String.eqb (PurchaseOrder.vendor po) vendor &&
  acceptsPO (Some invTime) invItems po = true <->
  eligiblePO vendor invTime invItems po.
Proof.
  unfold eligiblePO, acceptsPO.
  rewrite andb_true_iff, String.eqb_eq.
  destruct (parseDateStr (PurchaseOrder.date po)) as [|[poTime|]].
  - split; [intros [_ [=]]|]. intros (_ & t & [=] & _).
  - assert (Hday : (0 < millisPerDay)%Z) by done.
    pose proof (ceilDiv_lt (Z.abs (invTime - poTime)) millisPerDay 60 Hday)
      as Hceil.
    split.
    + intros [Hv Hacc]. split; [done|]. exists poTime. split; [done|].
      destruct ((poTime <=? invTime)%Z &&
                (ceilDiv (Z.abs (invTime - poTime)) millisPerDay <? 60)%Z)
        eqn:Hwin; [|discriminate].
      apply andb_true_iff in Hwin as [Hle Hlt].
      apply Z.leb_le in Hle. apply Z.ltb_lt in Hlt.
      split; [done|]. split; [lia|].
      apply orb_true_iff in Hacc as [H|H].
      * left. by apply skuMatch_sharesSku.
      * right. by apply fuzzyMatch_sameQtyAndPrice.
    + intros (Hv & t & [= <-] & Hle & Hlt & Hitems). split; [done|].
      assert (Hwin : (poTime <=? invTime)%Z &&
                (ceilDiv (Z.abs (invTime - poTime)) millisPerDay <? 60)%Z
                = true).
      { apply andb_true_iff. split; [by apply Z.leb_le|].
        apply Z.ltb_lt. lia. }
      rewrite Hwin. apply orb_true_iff. destruct Hitems as [H|H].
      * left. by apply skuMatch_sharesSku.
      * right. by apply fuzzyMatch_sameQtyAndPrice.
  - split; [intros [_ [=]]|]. intros (_ & t & [=] & _).
Qed.

End POFacts.

Lemma find_app_first {A : Type} (h : A -> bool) (pre post : list A) (x : A) :
  Forall (fun p => h p = false) pre -> h x = true ->
  List.find h (pre ++ x :: post) = Some x.
Proof.
  intros Hpre Hx. induction Hpre as [|a pre Ha _ IH]; simpl.
  - by rewrite Hx.
  - by rewrite Ha.
Qed.

Lemma find_all_false {A : Type} (h : A -> bool) (l : list A) :
  Forall (fun p => h p = false) l -> List.find h l = None.
Proof.
  intros Hl. induction Hl as [|a l Ha _ IH]; simpl; [done|]. by rewrite Ha.
Qed.

Section POSteps.

Context {RT : Runtime}.

(** What the tax step leaves alone. *)
Lemma validateTax_frame rawText st st' key :
  validateTax rawText st = Returns st' ->
  key <> "netTotal" -> key <> "taxTotal" ->
  Normalized.get (normalizedInvoice st') key
  = Normalized.get (normalizedInvoice st) key /\
  Normalized.lineItems (normalizedInvoice st')
  = Normalized.lineItems (normalizedInvoice st) /\
  exists cs,
    proposedCorrections st' = (proposedCorrections st ++ cs)%list.
Proof.
  unfold validateTax. intros Hret Hk1 Hk2.
  destruct (numberField _ "netTotal") as [net| |]; try discriminate.
  destruct (numberField _ "taxRate") as [rate| |]; try discriminate.
  destruct (numberField _ "taxTotal") as [tax| |]; try discriminate.
  destruct (numberField _ "grossTotal") as [gross| |]; try discriminate.
  cbn [bindO] in Hret.
  destruct (PrimFloat.ltb 1 (PrimFloat.abs (net + tax - gross)));
    (destruct (PrimFloat.ltb 1 (PrimFloat.abs (net * (1 + rate) - gross)));
     [destruct (inclVat rawText)|]);
    injection Hret as <-;
    cbn [normalizedInvoice proposedCorrections];
    rewrite ?get_set_ne by done;
    (split; [reflexivity|]); (split; [reflexivity|]);
    first [by eexists | by exists []; rewrite app_nil_r].
Qed.

(** PO matching on a state without PO number and with a valid invoice
    date: the first purchase order that the loop accepts. *)
Lemma matchPO_find vendor referenceData st invTime :
  truthy (Normalized.get (normalizedInvoice st) "poNumber") = false ->
  parseDate (Normalized.get (normalizedInvoice st) "invoiceDate")
  = Returns (DateObj (Some invTime)) ->
  matchPO vendor referenceData st
  = Returns
      match
        List.find
          (fun po =>
             String.eqb (PurchaseOrder.vendor po) vendor &&
             acceptsPO (Some invTime)
                       (Normalized.lineItems (normalizedInvoice st)) po)
          (ReferenceData.purchaseOrders referenceData)
      with
      | Some po =>
          PState
            (Normalized.set (normalizedInvoice st) "poNumber"
                            (VStr (PurchaseOrder.poNumber po)))
            (proposedCorrections st ++
             [Correction.Make "poNumber" VNull
                (VStr (PurchaseOrder.poNumber po))
                "Heuristic: Found matching PO based on vendor and line items."])%list
            (requiresHumanReview st) (reasoning st) (auditTrail st)
      | None => st
      end.
Proof.
  intros Hpo Hdate. unfold matchPO, findMatchingPOWithVendor.
  rewrite Hpo, Hdate. cbn [negb bindO]. rewrite find_filter.
  by destruct (List.find _ _).
Qed.

End POSteps.

Section POClaims.

Context {RT : Runtime} {S : Type} {MS : MemoryStore S}.

Lemma not_eligible_bool vendor invTime invItems pos :
  Forall (fun po => ~ eligiblePO vendor invTime invItems po) pos ->
  Forall (fun po =>
            String.eqb (PurchaseOrder.vendor po) vendor &&
            acceptsPO (Some invTime) invItems po = false) pos.
Proof.
  intros Hne. apply List.Forall_forall. intros po Hin.
  rewrite List.Forall_forall in Hne. specialize (Hne po Hin).
  destruct (_ && _) eqn:Hb; [|done].
  exfalso. apply Hne. by apply acceptsPO_eligible.
Qed.

(** C5, as the code has it. On the path without duplicate, when the
    normalized invoice has no PO number after memory application and
    its invoice date parses, [process] selects the first purchase order
    of [referenceData] that is eligible: of the same vendor, dated on or
    before the invoice date with a gap of at most 59 days between the
    two time values, and sharing an exact SKU or having a line item of
    equal quantity whose unit price differs, in binary64, by less than
    0.01.  It writes its number to [poNumber] and proposes the
    Correction; when none is eligible, [poNumber] stays empty.  A
    same-vendor purchase order dated 10 days before the invoice that
    shares an exact SKU is eligible whatever its unit prices; one dated
    70 days before is not, whatever its SKUs. *)
Theorem po_matching
  (now : string) (store : S) (invoice : Invoice.t)
  (referenceData : ReferenceData.t) (pastInvoices : list Invoice.t)
  (invTime : Z) :
  let vendor := Invoice.vendor invoice in
  let st := afterMemory now (fst (getVendorMemory vendor store)) invoice in
  let invItems := Normalized.lineItems (normalizedInvoice st) in
  findDuplicate invoice pastInvoices = None ->
  wellTyped (fst (getVendorMemory vendor store)) invoice = true ->
  truthy (Normalized.get (normalizedInvoice st) "poNumber") = false ->
  parseDate (Normalized.get (normalizedInvoice st) "invoiceDate")
  = Returns (DateObj (Some invTime)) ->
  exists r,
    process now store invoice referenceData pastInvoices = Returns r /\
    (forall pre po post,
       ReferenceData.purchaseOrders referenceData = (pre ++ po :: post)%list ->
       eligiblePO vendor invTime invItems po ->
       Forall (fun p => ~ eligiblePO vendor invTime invItems p) pre ->
       Normalized.get (ProcessResult.normalizedInvoice r) "poNumber"
       = VStr (PurchaseOrder.poNumber po) /\
       In (Correction.Make "poNumber" VNull
             (VStr (PurchaseOrder.poNumber po))
             "Heuristic: Found matching PO based on vendor and line items.")
          (ProcessResult.proposedCorrections r)) /\
    (Forall (fun p => ~ eligiblePO vendor invTime invItems p)
            (ReferenceData.purchaseOrders referenceData) ->
     truthy (Normalized.get (ProcessResult.normalizedInvoice r) "poNumber")
     = false) /\
    (forall po poTime,
       PurchaseOrder.vendor po = vendor ->
       parseDateStr (PurchaseOrder.date po) = DateObj (Some poTime) ->
       poTime = (invTime - 10 * millisPerDay)%Z ->
       sharesSku invItems (PurchaseOrder.lineItems po) ->
       eligiblePO vendor invTime invItems po) /\
    (forall po poTime,
       parseDateStr (PurchaseOrder.date po) = DateObj (Some poTime) ->
       poTime = (invTime - 70 * millisPerDay)%Z ->
       ~ eligiblePO vendor invTime invItems po).
Proof.
  intros vendor st invItems Hdup Hwt Hpo Hdate.
  destruct (processWith_steps now _ invoice referenceData pastInvoices
              Hdup Hwt) as (st3 & st4 & Hm & Htax & Hr).
  fold vendor in Hm. fold st in Hm.
  rewrite (matchPO_find vendor referenceData st invTime Hpo Hdate) in Hm.
  fold invItems in Hm.
  exists (scoreAndDecide now (Invoice.confidence invoice) st4).
  split; [exact Hr|].
  destruct (validateTax_frame _ _ _ "poNumber" Htax)
    as (Hkeep & _ & cs & Hcs); [done|done|].
  cbn [scoreAndDecide ProcessResult.normalizedInvoice
       ProcessResult.proposedCorrections].
  split; [|split; [|split]].
  - intros pre po post Hlist Hel Hpre.
    rewrite Hlist, (find_app_first _ pre post po) in Hm.
    + injection Hm as <-. rewrite Hkeep, Hcs.
      cbn [normalizedInvoice proposedCorrections].
      rewrite get_set_eq. split; [done|].
      apply in_or_app. left. apply in_or_app. right. by left.
    + by apply not_eligible_bool.
    + by apply acceptsPO_eligible.
  - intros Hnone.
    rewrite (find_all_false _ _ (not_eligible_bool _ _ _ _ Hnone)) in Hm.
    injection Hm as <-. by rewrite Hkeep.
  - intros po poTime Hv Hparse -> Hsku. split; [done|].
    exists (invTime - 10 * millisPerDay)%Z.
    split; [done|]. unfold millisPerDay. split; [lia|]. split; [lia|].
    by left.
  - intros po poTime Hparse -> (_ & t & Ht & _ & Hlt & _).
    rewrite Hparse in Ht. injection Ht as <-.
    unfold millisPerDay in Hlt. lia.
Qed.

End POClaims.

(** C5 as stated fails twice.  The gap is counted in started days: a
    same-vendor purchase order with the invoice's SKU dated 59 days and
    12 hours before the invoice is less than 60 days before it, and
    [process] does not select it.  And the price test is one of
    binary64: 500.01 - 500 computes to less than 0.01, and 0.07 - 0.06
    to more. *)
Lemma po_gap_counterexample :
  let invItems := InvoiceFields.lineItems (Invoice.fields DemoPO.invoiceNoon) in
  parseDateStr "2024-03-01T12:00:00Z" = DateObj (Some 1709294400000%Z) /\
  parseDateStr (PurchaseOrder.date DemoPO.halfDay)
  = DateObj (Some 1704153600000%Z) /\
  (1704153600000 <= 1709294400000)%Z /\
  (1709294400000 - 1704153600000 < 60 * millisPerDay)%Z /\
  PurchaseOrder.vendor DemoPO.halfDay = Invoice.vendor DemoPO.invoiceNoon /\
  sharesSku invItems (PurchaseOrder.lineItems DemoPO.halfDay) /\
  (exists r,
     process Demo.now JsonStore.empty DemoPO.invoiceNoon DemoPO.referenceNoon []
     = Returns r /\
     Normalized.get (ProcessResult.normalizedInvoice r) "poNumber" = VNull /\
     ProcessResult.proposedCorrections r = []) /\
  fuzzyMatch [Demo.item VNull "Freight" 2 500.01]
             (PurchaseOrder.Make "PO-1" DemoPO.freight "2024-02-20"
                [Demo.item (VStr "F") "Freight" 2 500]) = true /\
  fuzzyMatch [Demo.item VNull "Stamp" 2 0.07]
             (PurchaseOrder.Make "PO-2" DemoPO.freight "2024-02-20"
                [Demo.item (VStr "S") "Stamp" 2 0.06]) = false.
Proof.
  split; [vm_compute; reflexivity|]. split; [vm_compute; reflexivity|].
  split; [lia|]. split; [by vm_compute|]. split; [reflexivity|].
  split.
  { exists (Demo.item (VStr "FREIGHT") "Seefracht Hamburg" 2 500),
           (Demo.item (VStr "FREIGHT") "Sea freight" 2 500).
    split; [by left|]. split; [by left|]. reflexivity. }
  split.
  { eexists. split; [vm_compute; reflexivity|]. split; reflexivity. }
  split; vm_compute; reflexivity.
Qed.

Lemma po_matching_witness :
  exists r,
    process Demo.now JsonStore.empty DemoPO.invoice DemoPO.reference []
    = Returns r /\
    Normalized.get (ProcessResult.normalizedInvoice r) "poNumber"
    = VStr "PO-C-002" /\
    ~ eligiblePO DemoPO.freight 1709251200000
        (InvoiceFields.lineItems (Invoice.fields DemoPO.invoice))
        DemoPO.tooOld.
Proof.
  destruct (po_matching Demo.now JsonStore.empty DemoPO.invoice
              DemoPO.reference [] 1709251200000)
    as (r & Hr & Hfirst & _ & Hten & Hseventy).
  - reflexivity.
  - vm_compute. reflexivity.
  - vm_compute. reflexivity.
  - vm_compute. reflexivity.
  - exists r. split; [exact Hr|]. split.
    + refine (proj1 (Hfirst [DemoPO.tooOld] DemoPO.recent [DemoPO.later]
                       eq_refl _ _)).
      * apply (Hten DemoPO.recent 1708387200000%Z); try reflexivity.
        exists (Demo.item (VStr "FREIGHT") "Seefracht Hamburg" 2 500),
               (Demo.item (VStr "FREIGHT") "Sea freight" 5 450).
        split; [by left|]. split; [by left|]. reflexivity.
      * constructor; [|constructor].
        apply (Hseventy DemoPO.tooOld 1703203200000%Z); reflexivity.
    + apply (Hseventy DemoPO.tooOld 1703203200000%Z); reflexivity.
Defined.

Section NullSku.

Context {RT : Runtime} {S : Type} {MS : MemoryStore S}.

Lemma skuMatch_null invItems po invItem poItem :
  In invItem invItems -> LineItem.sku invItem = VNull ->
  In poItem (PurchaseOrder.lineItems po) -> LineItem.sku poItem = VNull ->
  skuMatch invItems po = true.
Proof.
  intros Hinv Hi Hpo Hp. apply skuMatch_sharesSku.
  exists invItem, poItem. by rewrite Hi, Hp.
Qed.

(** C10, as the code has it. When PO matching runs (no duplicate, no PO
    number after memory application, a valid invoice date) and a line
    item of the normalized invoice has a null SKU, a same-vendor purchase
    order in the date window with a line item of null SKU counts as an
    exact SKU match whatever the quantities and unit prices; [process]
    then selects a purchase order that the loop accepts: the first one in
    reference-data order, which is this one when none before it is
    accepted. *)
Theorem null_sku_matches
  (now : string) (store : S) (invoice : Invoice.t)
  (referenceData : ReferenceData.t) (pastInvoices : list Invoice.t)
  (invTime poTime : Z) (invItem poItem : LineItem.t)
  (pre post : list PurchaseOrder.t) (po : PurchaseOrder.t) :
  let vendor := Invoice.vendor invoice in
  let st := afterMemory now (fst (getVendorMemory vendor store)) invoice in
  let invItems := Normalized.lineItems (normalizedInvoice st) in
  let accepted p :=
    String.eqb (PurchaseOrder.vendor p) vendor &&
    acceptsPO (Some invTime) invItems p in
  findDuplicate invoice pastInvoices = None ->
  wellTyped (fst (getVendorMemory vendor store)) invoice = true ->
  truthy (Normalized.get (normalizedInvoice st) "poNumber") = false ->
  parseDate (Normalized.get (normalizedInvoice st) "invoiceDate")
  = Returns (DateObj (Some invTime)) ->
  In invItem invItems -> LineItem.sku invItem = VNull ->
  ReferenceData.purchaseOrders referenceData = (pre ++ po :: post)%list ->
  PurchaseOrder.vendor po = vendor ->
  parseDateStr (PurchaseOrder.date po) = DateObj (Some poTime) ->
  (poTime <= invTime)%Z ->
  (ceilDiv (Z.abs (invTime - poTime)) millisPerDay < 60)%Z ->
  In poItem (PurchaseOrder.lineItems po) -> LineItem.sku poItem = VNull ->
  skuMatch invItems po = true /\
  accepted po = true /\
  exists r selected,
    process now store invoice referenceData pastInvoices = Returns r /\
    In selected (ReferenceData.purchaseOrders referenceData) /\
    accepted selected = true /\
    Normalized.get (ProcessResult.normalizedInvoice r) "poNumber"
    = VStr (PurchaseOrder.poNumber selected) /\
    (Forall (fun p => accepted p = false) pre -> selected = po).
Proof.
  intros vendor st invItems accepted Hdup Hwt Hno Hdate Hinv Hi Hlist Hv
    Hparse Hle Hlt Hpo Hp.
  assert (Hsku : skuMatch invItems po = true)
    by (by eapply skuMatch_null).
  assert (Hacc : accepted po = true).
  { unfold accepted, acceptsPO. rewrite Hv, String.eqb_refl, Hparse.
    apply Z.leb_le in Hle. apply Z.ltb_lt in Hlt.
    by rewrite Hle, Hlt, Hsku. }
  split; [done|]. split; [done|].
  destruct (processWith_steps now _ invoice referenceData pastInvoices
              Hdup Hwt) as (st3 & st4 & Hm & Htax & Hr).
  fold vendor in Hm. fold st in Hm.
  rewrite (matchPO_find vendor referenceData st invTime Hno Hdate) in Hm.
  fold invItems in Hm. fold accepted in Hm.
  destruct (validateTax_frame _ _ _ "poNumber" Htax)
    as (Hkeep & _ & _); [done|done|].
  destruct (List.find accepted (ReferenceData.purchaseOrders referenceData))
    as [selected|] eqn:Hfind.
  - exists (scoreAndDecide now (Invoice.confidence invoice) st4), selected.
    injection Hm as <-.
    split; [exact Hr|]. apply find_some in Hfind as Hsel.
    destruct Hsel as [Hin Hsel]. split; [done|]. split; [done|].
    cbn [scoreAndDecide ProcessResult.normalizedInvoice].
    rewrite Hkeep. cbn [normalizedInvoice]. rewrite get_set_eq.
    split; [done|]. intros Hpre.
    rewrite Hlist, (find_app_first accepted pre post po Hpre Hacc) in Hfind.
    congruence.
  - exfalso. eapply find_none in Hfind.
    + rewrite Hacc in Hfind. discriminate.
    + rewrite Hlist. apply in_or_app. right. by left.
Qed.

End NullSku.

(** C10 as stated fails: both purchase orders of [DemoPO.referenceNoSku]
    are of the vendor, lie in the date window (10 and 9 days before the
    invoice) and have a line item of null SKU, as the invoice has; the
    loop accepts both, and [process] selects the first one only. *)
Lemma null_sku_counterexample :
  let invItems := InvoiceFields.lineItems (Invoice.fields DemoPO.invoiceNoSku) in
  acceptsPO (Some 1709251200000%Z) invItems DemoPO.noSku1 = true /\
  acceptsPO (Some 1709251200000%Z) invItems DemoPO.noSku2 = true /\
  exists r,
    process Demo.now JsonStore.empty DemoPO.invoiceNoSku
            DemoPO.referenceNoSku [] = Returns r /\
    Normalized.get (ProcessResult.normalizedInvoice r) "poNumber"
    = VStr "PO-C-010" /\
    Normalized.get (ProcessResult.normalizedInvoice r) "poNumber"
    <> VStr (PurchaseOrder.poNumber DemoPO.noSku2).
Proof.
  split; [by vm_compute|]. split; [by vm_compute|].
  eexists. split; [vm_compute; reflexivity|].
  split; [reflexivity|]. discriminate.
Qed.

Lemma null_sku_matches_witness :
  skuMatch (InvoiceFields.lineItems (Invoice.fields DemoPO.invoiceNoSku))
           DemoPO.noSku1 = true /\
  exists r,
    process Demo.now JsonStore.empty DemoPO.invoiceNoSku
            DemoPO.referenceNoSku [] = Returns r /\
    Normalized.get (ProcessResult.normalizedInvoice r) "poNumber"
    = VStr "PO-C-010".
Proof.
  destruct (null_sku_matches Demo.now JsonStore.empty DemoPO.invoiceNoSku
              DemoPO.referenceNoSku [] 1709251200000%Z 1708387200000%Z
              (LineItem.Make VNull (Some "Handling") 1 1000)
              (LineItem.Make VNull (Some "Pallets") 40 12)
              [] [DemoPO.noSku2] DemoPO.noSku1)
    as (Hsku & _ & r & selected & Hr & _ & _ & Hpo & Hsel).
  - reflexivity.
  - vm_compute. reflexivity.
  - vm_compute. reflexivity.
  - vm_compute. reflexivity.
  - left. reflexivity.
  - reflexivity.
  - reflexivity.
  - reflexivity.
  - vm_compute. reflexivity.
  - vm_compute. discriminate.
  - vm_compute. reflexivity.
  - left. reflexivity.
  - reflexivity.
  - split; [exact Hsku|]. exists r. split; [exact Hr|].
    rewrite Hpo, (Hsel (List.Forall_nil _)). reflexivity.
Defined.

(** ** The stores *)

Lemma updateFirst_keeps {A : Type} (p : A -> bool) (f : A -> A)
  (Q : A -> Prop) (l : list A) :
  (forall y, Q y -> Q (f y)) ->
  (exists x, In x l /\ Q x) ->
  exists x, In x (updateFirst p f l) /\ Q x.
Proof.
  intros Hf. induction l as [|a l IH]; intros (x & Hin & Hq); [done|].
  simpl. destruct Hin as [-> | Hin].
  - destruct (p x).
    + exists (f x). split; [by left|auto].
    + exists x. split; [by left|done].
  - destruct (p a).
    + exists x. split; [by right|done].
    + destruct IH as (x' & Hin' & Hq'); [eauto|].
      exists x'. split; [by right|done].
Qed.

Lemma updateFirst_found {A : Type} (p : A -> bool) (f : A -> A)
  (l : list A) (x : A) :
  List.find p l = Some x -> In (f x) (updateFirst p f l) /\ p x = true.
Proof.
  induction l as [|a l IH]; simpl; [discriminate|].
  destruct (p a) eqn:Ha.
  - intros [= ->]. split; [by left|done].
  - intros Hf. destruct (IH Hf). split; [by right|done].
Qed.

Lemma updateFirst_length {A : Type} (p : A -> bool) (f : A -> A)
  (l : list A) :
  List.length (updateFirst p f l) = List.length l.
Proof.
  induction l as [|a l IH]; simpl; [done|].
  destruct (p a); simpl; by rewrite ?IH.
Qed.

Module JsonFacts.
Import JsonStore.

Lemma recall_get vendor vendor' s :
  fst (getVendorMemory vendor' (snd (getVendorMemory vendor s)))
  = fst (getVendorMemory vendor' s).
Proof.
  unfold getVendorMemory.
  destruct (data s !! vendor) eqn:Hv; simpl; [done|].
  destruct (decide (vendor = vendor')) as [<- | Hne].
  - rewrite lookup_insert_eq. simpl. by rewrite Hv.
  - rewrite lookup_insert_ne by done. by destruct (data s !! vendor').
Qed.

Lemma recall_update vendor vendor' memory s :
  fst (getVendorMemory vendor' (updateVendorMemory vendor memory s))
  = if decide (vendor = vendor') then memory
    else fst (getVendorMemory vendor' s).
Proof.
  unfold getVendorMemory, updateVendorMemory, save. simpl.
  destruct (decide (vendor = vendor')) as [<- | Hne].
  - by rewrite lookup_insert_eq.
  - rewrite lookup_insert_ne by done. by destruct (data s !! vendor').
Qed.

Lemma recall_addPattern now vendor vendor' pattern s :
  fst (getVendorMemory vendor' (addPattern now vendor pattern s))
  = if decide (vendor = vendor') then
      let mem := fst (getVendorMemory vendor s) in
      VendorMemory.Make (VendorMemory.vendorName mem)
        (upsertPattern now pattern (VendorMemory.patterns mem))
        (VendorMemory.staticCorrections mem)
    else fst (getVendorMemory vendor' s).
Proof.
  unfold addPattern.
  destruct (getVendorMemory vendor s) as [mem s1] eqn:Hg.
  rewrite recall_update.
  destruct (decide (vendor = vendor')); [done|].
  replace s1 with (snd (getVendorMemory vendor s)) by (by rewrite Hg).
  apply recall_get.
Qed.

Lemma recall_addStaticCorrection vendor vendor' correction s :
  fst (getVendorMemory vendor' (addStaticCorrection vendor correction s))
  = if decide (vendor = vendor') then
      let mem := fst (getVendorMemory vendor s) in
      VendorMemory.Make (VendorMemory.vendorName mem)
        (VendorMemory.patterns mem)
        (upsertCorrection correction (VendorMemory.staticCorrections mem))
    else fst (getVendorMemory vendor' s).
Proof.
  unfold addStaticCorrection.
  destruct (getVendorMemory vendor s) as [mem s1] eqn:Hg.
  rewrite recall_update.
  destruct (decide (vendor = vendor')); [done|].
  replace s1 with (snd (getVendorMemory vendor s)) by (by rewrite Hg).
  apply recall_get.
Qed.

Lemma upsertPattern_has now pattern l :
  exists p, In p (upsertPattern now pattern l) /\
    ExtractionPattern.field p = ExtractionPattern.field pattern /\
    ExtractionPattern.regexPattern p = ExtractionPattern.regexPattern pattern.
Proof.
  unfold upsertPattern.
  destruct (List.find _ l) as [x|] eqn:Hf.
  - apply (updateFirst_found _ (reinforcePattern now)) in Hf as [Hin Hsame].
    exists (reinforcePattern now x). split; [done|].
    unfold samePattern in Hsame.
    apply andb_true_iff in Hsame as [Hf1 Hf2].
    apply String.eqb_eq in Hf1, Hf2. done.
  - exists pattern. split; [|done]. apply in_or_app. right. by left.
Qed.

Lemma upsertPattern_keeps now pattern l field regex :
  (exists p, In p l /\ ExtractionPattern.field p = field /\
             ExtractionPattern.regexPattern p = regex) ->
  exists p, In p (upsertPattern now pattern l) /\
            ExtractionPattern.field p = field /\
            ExtractionPattern.regexPattern p = regex.
Proof.
  intros Hex. unfold upsertPattern. destruct (List.find _ l).
  - by apply (updateFirst_keeps _ _
                (fun p => ExtractionPattern.field p = field /\
                          ExtractionPattern.regexPattern p = regex)).
  - destruct Hex as (p & Hin & Hp). exists p. split; [|done].
    apply in_or_app. by left.
Qed.

Lemma upsertCorrection_keeps correction l field trigger corrected :
  (exists c, In c l /\ ValueCorrection.field c = field /\
             ValueCorrection.triggerValue c = trigger /\
             ValueCorrection.correctedValue c = corrected) ->
  exists c, In c (upsertCorrection correction l) /\
            ValueCorrection.field c = field /\
            ValueCorrection.triggerValue c = trigger /\
            ValueCorrection.correctedValue c = corrected.
Proof.
  intros Hex. unfold upsertCorrection. destruct (List.find _ l).
  - by apply (updateFirst_keeps _ _
                (fun c => ValueCorrection.field c = field /\
                          ValueCorrection.triggerValue c = trigger /\
                          ValueCorrection.correctedValue c = corrected)).
  - destruct Hex as (c & Hin & Hc). exists c. split; [|done].
    apply in_or_app. by left.
Qed.

Lemma strictEq_str v s : strictEq v (VStr s) = true -> v = VStr s.
Proof.
  destruct v; simpl; try discriminate. by intros ->%String.eqb_eq.
Qed.

Lemma upsertCorrection_has field trigger corrected condition confidence
  count l :
  exists c,
    In c (upsertCorrection
            (ValueCorrection.Make field (VStr trigger) (VStr corrected)
                                  condition confidence count) l) /\
    ValueCorrection.field c = field /\
    ValueCorrection.triggerValue c = VStr trigger /\
    ValueCorrection.correctedValue c = VStr corrected.
Proof.
  unfold upsertCorrection.
  destruct (List.find _ l) as [x|] eqn:Hf.
  - apply (updateFirst_found _ reinforceCorrection) in Hf as [Hin Hsame].
    exists (reinforceCorrection x). split; [done|].
    unfold sameCorrection in Hsame. simpl in Hsame.
    apply andb_true_iff in Hsame as [Hsame Hc].
    apply andb_true_iff in Hsame as [Hf1 Ht].
    apply String.eqb_eq in Hf1.
    apply strictEq_str in Ht, Hc. done.
  - eexists. split; [apply in_or_app; right; by left|done].
Qed.

Lemma upsertCorrection_fresh correction l :
  (forall c, In c l -> sameCorrection correction c = false) ->
  In correction (upsertCorrection correction l).
Proof.
  intros Hnone. unfold upsertCorrection.
  destruct (List.find _ l) as [x|] eqn:Hf.
  - apply find_some in Hf as [Hin Hx]. rewrite Hnone in Hx by done.
    discriminate.
  - apply in_or_app. right. by left.
Qed.

End JsonFacts.

Lemma jsonStore_laws : MemoryStoreLaws JsonStore.t.
Proof.
  split; unfold hasPattern, hasMapping, recall; simpl.
  - intros. rewrite JsonFacts.recall_addPattern.
    destruct (decide _); [|done]. simpl. apply JsonFacts.upsertPattern_has.
  - intros now vendor p store vendor' field regex Hex.
    rewrite JsonFacts.recall_addPattern.
    destruct (decide _) as [<- |]; [|done]. simpl.
    by apply JsonFacts.upsertPattern_keeps.
  - intros now vendor p store vendor' field trigger corrected.
    rewrite JsonFacts.recall_addPattern.
    destruct (decide _) as [<- |]; done.
  - intros. rewrite JsonFacts.recall_addStaticCorrection.
    destruct (decide _); [|done]. simpl. apply JsonFacts.upsertCorrection_has.
  - intros vendor field trigger corrected confidence count store _ Hnone.
    rewrite JsonFacts.recall_addStaticCorrection.
    destruct (decide _); [|done]. simpl.
    apply JsonFacts.upsertCorrection_fresh. intros c Hin.
    destruct (JsonStore.sameCorrection _ c) eqn:Hsame; [|done].
    exfalso. apply Hnone. exists c. split; [done|].
    unfold JsonStore.sameCorrection in Hsame. simpl in Hsame.
    apply andb_true_iff in Hsame as [Hsame Hc].
    apply andb_true_iff in Hsame as [Hf1 Ht].
    apply String.eqb_eq in Hf1.
    apply JsonFacts.strictEq_str in Ht, Hc. done.
  - intros vendor c store vendor' field regex Hex.
    rewrite JsonFacts.recall_addStaticCorrection.
    destruct (decide _) as [<- |]; done.
  - intros vendor c store vendor' field trigger corrected Hex.
    rewrite JsonFacts.recall_addStaticCorrection.
    destruct (decide _) as [<- |]; [|done]. simpl.
    by apply JsonFacts.upsertCorrection_keeps.
Qed.

Module SqlFacts.
Import SqlStore.




Lemma bumpPattern_key now id newConf r :
  p_vendor (bumpPattern now id newConf r) = p_vendor r /\
  p_field (bumpPattern now id newConf r) = p_field r /\
  p_regexPattern (bumpPattern now id newConf r) = p_regexPattern r.
Proof. unfold bumpPattern. by destruct (_ =? _)%Z. Qed.

Lemma bumpCorrection_key id newConf r :
  c_vendor (bumpCorrection id newConf r) = c_vendor r /\
  c_field (bumpCorrection id newConf r) = c_field r /\
  c_triggerValue (bumpCorrection id newConf r) = c_triggerValue r /\
  c_correctedValue (bumpCorrection id newConf r) = c_correctedValue r.
Proof. unfold bumpCorrection. by destruct (_ =? _)%Z. Qed.

Lemma addPattern_rows now vendor pattern s :
  patterns (addPattern now vendor pattern s)
  = match List.filter (patternKey vendor pattern) (patterns s) with
    | rec :: _ =>
        List.map (bumpPattern now (p_id rec) (reinforce (p_confidence rec)))
                 (patterns s)
    | [] =>
        (patterns s ++
         [PatternRow (seq_patterns s + 1) vendor
                     (ExtractionPattern.field pattern)
                     (ExtractionPattern.regexPattern pattern)
                     (ExtractionPattern.confidence pattern)
                     (ExtractionPattern.usageCount pattern)
                     (ExtractionPattern.lastUsed pattern)])%list
    end /\
  static_corrections (addPattern now vendor pattern s) = static_corrections s.
Proof. unfold addPattern. by destruct (List.filter _ _). Qed.

Lemma addStaticCorrection_rows vendor correction s :
  let trigger := orNull (ValueCorrection.triggerValue correction) in
  static_corrections (addStaticCorrection vendor correction s)
  = match List.filter (correctionKey vendor correction trigger)
                      (static_corrections s) with
    | rec :: _ =>
        List.map (bumpCorrection (c_id rec) (reinforce (c_confidence rec)))
                 (static_corrections s)
    | [] =>
        (static_corrections s ++
         [CorrectionRow (seq_static_corrections s + 1) vendor
            (ValueCorrection.field correction) trigger
            (bind (ValueCorrection.correctedValue correction))
            (orNullStr (ValueCorrection.condition correction))
            (ValueCorrection.confidence correction)
            (ValueCorrection.usageCount correction)])%list
    end /\
  patterns (addStaticCorrection vendor correction s) = patterns s.
Proof. unfold addStaticCorrection. by destruct (List.filter _ _). Qed.

Lemma filter_head {A : Type} (p : A -> bool) (l : list A) (x : A)
  (rest : list A) :
  List.filter p l = x :: rest -> In x l /\ p x = true.
Proof.
  intros Hf. apply filter_In. rewrite Hf. by left.
Qed.

Lemma filter_nil {A : Type} (p : A -> bool) (l : list A) (x : A) :
  List.filter p l = [] -> In x l -> p x = false.
Proof.
  intros Hf Hin. destruct (p x) eqn:Hp; [|done].
  assert (In x (List.filter p l)) by (by apply filter_In).
  rewrite Hf in *. done.
Qed.

End SqlFacts.



(** ** [new RegExp] on the patterns of [learn] never throws *)

Module CompileFacts.
Import RegExp.

Ltac by_cases_on c :=
  destruct c as [[|] [|] [|] [|] [|] [|] [|] [|]];
  vm_compute; intros; congruence.

Lemma plain_not_quantifier c :
  isRegExpSpecial c = false -> oneOf c "*+?{" = false.
Proof. by_cases_on c. Qed.

Lemma parseQuant_none c s :
  oneOf c "*+?{" = false ->
  parseQuant (String c s) = Some (None, String c s).
Proof.
  unfold oneOf, parseQuant, isCh. simpl.
  intros H. repeat (apply orb_false_iff in H as [? H]).
  by repeat match goal with Hc : Ascii.eqb c _ = false |- _ =>
    rewrite Hc; clear Hc end.
Qed.

Lemma parseLazy_not_question c s :
  oneOf c "*+?{" = false -> parseLazy (String c s) = (true, String c s).
Proof.
  unfold oneOf, parseLazy, isCh. simpl.
  intros H. repeat (apply orb_false_iff in H as [? H]).
  by repeat match goal with Hc : Ascii.eqb c _ = false |- _ =>
    rewrite Hc; clear Hc end.
Qed.

Lemma plain_head s :
  plainPattern s ->
  s = EmptyString \/ exists c s', s = String c s' /\ oneOf c "*+?{" = false.
Proof.
  intros [|c s' Hc _|c s' _ _|s' _]; [by left|right..].
  - exists c, s'. split; [done|]. by apply plain_not_quantifier.
  - by eexists _, _.
  - by eexists _, _.
Qed.

Lemma quantified_plain a s :
  plainPattern s -> quantified a s = Some (a, s).
Proof.
  intros Hs. unfold quantified.
  destruct (plain_head s Hs) as [-> | (c & s' & -> & Hc)]; [done|].
  by rewrite parseQuant_none.
Qed.

Lemma parseLazy_plain s : plainPattern s -> parseLazy s = (true, s).
Proof.
  intros Hs.
  destruct (plain_head s Hs) as [-> | (c & s' & -> & Hc)]; [done|].
  by apply parseLazy_not_question.
Qed.

Lemma parseAlt_char f c s n :
  isRegExpSpecial c = false ->
  parseAlt (Datatypes.S f) (String c s) n
  = match quantified (RChar c) s with
    | None => None
    | Some (t, s2) => andThen t (parseAlt f s2 n)
    end.
Proof.
  destruct c as [[|] [|] [|] [|] [|] [|] [|] [|]];
    first [ (intros H; vm_compute in H; discriminate H)
          | (intros _; reflexivity) ].
Qed.

Lemma parseAlt_escape f c s n :
  isRegExpSpecial c = true ->
  parseAlt (Datatypes.S f) (String "\" (String c s)) n
  = match quantified (RChar c) s with
    | None => None
    | Some (t, s2) => andThen t (parseAlt f s2 n)
    end.
Proof.
  destruct c as [[|] [|] [|] [|] [|] [|] [|] [|]];
    first [ (intros H; vm_compute in H; discriminate H)
          | (intros _; reflexivity) ].
Qed.

Lemma parseAlt_dotStar f s n :
  parseAlt (Datatypes.S f) (String "." (String "*" s)) n
  = let (greedy, s2) := parseLazy s in
    andThen (RRep RDot 0 None greedy) (parseAlt f s2 n).
Proof.
  destruct s as [|c s]; [reflexivity|].
  destruct c as [[|] [|] [|] [|] [|] [|] [|] [|]]; reflexivity.
Qed.

Lemma parseAlt_plain s :
  plainPattern s ->
  forall fuel n, (String.length s < fuel)%nat ->
  exists r, parseAlt fuel s n = Some (r, EmptyString, n).
Proof.
  induction 1 as [|c s Hc Hs IH|c s Hc Hs IH|s Hs IH];
    intros [|f] n Hlen; simpl in Hlen; try lia.
  - eauto.
  - rewrite parseAlt_char, quantified_plain by done.
    destruct (IH f n) as [r ->]; [lia|]. simpl. eauto.
  - rewrite parseAlt_escape, quantified_plain by done.
    destruct (IH f n) as [r ->]; [lia|]. simpl. eauto.
  - rewrite parseAlt_dotStar, parseLazy_plain by done.
    destruct (IH f n) as [r ->]; [lia|]. simpl. eauto.
Qed.

Lemma compile_plain s : plainPattern s -> exists r, compile s = Some r.
Proof.
  intros Hs. unfold compile.
  replace (2 * String.length s + 4)%nat
    with (Datatypes.S (2 * String.length s + 3)) by lia.
  cbn [parseDisj].
  destruct (parseAlt_plain s Hs (2 * String.length s + 3) 1) as [r ->];
    [lia|]. eauto.
Qed.

Lemma plain_app a b :
  plainPattern a -> plainPattern b -> plainPattern (a ++ b).
Proof.
  induction 1; intros Hb; simpl; [done|by constructor; auto..].
Qed.

Lemma escapeRegExp_plain w : plainPattern (escapeRegExp w).
Proof.
  induction w as [|c w IH]; [constructor|].
  unfold escapeRegExp in *. simpl.
  destruct (isRegExpSpecial c) eqn:Hc; simpl; by constructor.
Qed.

Lemma flexiblePattern_plain words : plainPattern (flexiblePattern words).
Proof.
  unfold flexiblePattern.
  induction words as [|w ws IH]; simpl; [constructor|].
  destruct (List.map escapeRegExp ws) as [|w' ws'] eqn:Hm.
  - apply escapeRegExp_plain.
  - apply plain_app; [apply escapeRegExp_plain|].
    by apply plain_dotStar.
Qed.

Lemma compile_flexible words :
  exists r, compile (flexiblePattern words) = Some r.
Proof. apply compile_plain, flexiblePattern_plain. Qed.

End CompileFacts.

(** ** Matching a run of one class *)

Module MatchFacts.
Import RegExp Matching.

Lemma length_append (a b : string) :
  String.length (a ++ b) = (String.length a + String.length b)%nat.
Proof. induction a; simpl; [done|]. by rewrite IHa. Qed.

Lemma drop_app (a b : string) : Str.drop (String.length a) (a ++ b) = b.
Proof. induction a; simpl; done. Qed.

Lemma take_app (a b : string) : Str.take (String.length a) (a ++ b) = a.
Proof. induction a; simpl; [done|]. by rewrite IHa. Qed.

Lemma advance_0 st : advance 0 st = st.
Proof.
  unfold advance. destruct st as [p r c]. simpl. by rewrite Nat.add_0_r.
Qed.

Lemma advance_step p c s caps k :
  advance k (MState (Datatypes.S p) s caps)
  = advance (Datatypes.S k) (MState p (String c s) caps).
Proof. unfold advance. simpl. f_equal. lia. Qed.

Lemma flat_map_single {A : Type} (l : list A) :
  flat_map (fun x => [x]) l = l.
Proof. induction l; simpl; by rewrite ?IHl. Qed.

Lemma mt_REmpty ic : mt ic REmpty = fun st => [st].
Proof. reflexivity. Qed.

Lemma step_hit p st c s :
  rest st = String c s -> p c = true ->
  step p st = [MState (Datatypes.S (pos st)) s (caps st)].
Proof. unfold step. by intros -> ->. Qed.

Lemma step_miss p st : stopsAt p (rest st) -> step p st = [].
Proof.
  unfold step, stopsAt. destruct (rest st); [done|]. by intros ->.
Qed.

(** A greedy unbounded quantifier over one class, on a run of the class
    that stops: the first result consumes the whole run. *)
Lemma repLoop_run_head p lo run : forall fuel i st tail,
  rest st = run ++ tail ->
  Str.all p run = true ->
  stopsAt p tail ->
  (lo <= i + String.length run)%nat ->
  (String.length run < fuel)%nat ->
  exists others,
    repLoop (step p) lo None true fuel i st
    = advance (String.length run) st :: others.
Proof.
  induction run as [|c run IH]; intros fuel i st tail Hrest Hall Hstop Hlo Hfuel.
  - simpl in *. destruct fuel as [|f]; [lia|].
    cbn [repLoop belowMax]. rewrite step_miss by (by rewrite Hrest).
    simpl. assert (Hle : (lo <=? i)%nat = true) by (apply Nat.leb_le; lia).
    rewrite Hle, advance_0. eauto.
  - destruct fuel as [|f]; [simpl in Hfuel; lia|].
    unfold Str.all in Hall. simpl in Hall, Hrest, Hlo, Hfuel.
    apply andb_true_iff in Hall as [Hc Hall].
    cbn [repLoop belowMax]. rewrite (step_hit p st c (run ++ tail)) by done.
    cbn [flat_map]. rewrite app_nil_r.
    unfold progress at 1. cbn [pos].
    replace (Datatypes.S (pos st) =? pos st)%nat with false
      by (symmetry; apply Nat.eqb_neq; lia).
    rewrite andb_false_r.
    destruct (IH f (Datatypes.S i)
                (MState (Datatypes.S (pos st)) (run ++ tail) (caps st)) tail)
      as [others Ho]; try done; try lia.
    rewrite Ho. exists (others ++ (if (lo <=? i)%nat then [st] else []))%list.
    cbn [app]. f_equal.
    destruct st as [ps rs cs]. simpl in Hrest. subst rs.
    simpl. apply advance_step.
Qed.

(** Every result of that quantifier consumes a part of the run. *)
Lemma repLoop_run_all p lo run : forall fuel i st tail,
  rest st = run ++ tail ->
  Str.all p run = true ->
  stopsAt p tail ->
  Forall (fun st' => exists k, (k <= String.length run)%nat /\
                               (lo <= i + k)%nat /\ st' = advance k st)
         (repLoop (step p) lo None true fuel i st).
Proof.
  induction run as [|c run IH]; intros fuel i st tail Hrest Hall Hstop.
  - simpl in *. destruct fuel as [|f]; cbn [repLoop belowMax];
      rewrite ?step_miss by (by rewrite Hrest); simpl;
      destruct (lo <=? i)%nat eqn:Hle; constructor; try constructor;
      exists 0%nat; rewrite advance_0;
      apply Nat.leb_le in Hle; repeat split; lia.
  - unfold Str.all in Hall. simpl in Hall, Hrest.
    apply andb_true_iff in Hall as [Hc Hall].
    assert (Hstopcase : Forall
              (fun st' => exists k, (k <= String.length (String c run))%nat /\
                                    (lo <= i + k)%nat /\ st' = advance k st)
              (if (lo <=? i)%nat then [st] else [])).
    { destruct (lo <=? i)%nat eqn:Hle; constructor; [|constructor].
      exists 0%nat. rewrite advance_0. apply Nat.leb_le in Hle.
      repeat split; simpl; lia. }
    destruct fuel as [|f]; cbn [repLoop belowMax]; [done|].
    rewrite (step_hit p st c (run ++ tail)) by done.
    cbn [flat_map]. rewrite app_nil_r.
    apply List.Forall_app. split; [|done].
    destruct ((lo <=? i)%nat && negb (progress st _)); [constructor|].
    specialize (IH f (Datatypes.S i)
                  (MState (Datatypes.S (pos st)) (run ++ tail) (caps st))
                  tail eq_refl Hall Hstop).
    eapply List.Forall_impl; [|exact IH].
    intros st' (k & Hk & Hlo & ->). exists (Datatypes.S k).
    split; [simpl; lia|]. split; [lia|].
    destruct st as [ps rs cs]. simpl in Hrest. subst rs.
    simpl. apply advance_step.
Qed.



Lemma all_ext p q s :
  (forall c, p c = q c) -> Str.all p s = Str.all q s.
Proof.
  intros Hpq. unfold Str.all. induction s; simpl; [done|].
  by rewrite Hpq, IHs.
Qed.

Lemma step_ext p q st : (forall c, p c = q c) -> step p st = step q st.
Proof. intros Hpq. unfold step. destruct (rest st); [done|]. by rewrite Hpq. Qed.

Lemma repLoop_ext m m' lo hi greedy : forall fuel i st,
  (forall st, m st = m' st) ->
  repLoop m lo hi greedy fuel i st = repLoop m' lo hi greedy fuel i st.
Proof.
  induction fuel as [|f IH]; intros i st Hm; cbn [repLoop]; [done|].
  rewrite Hm.
  assert (Hfm : forall l,
    flat_map (fun st' => if (lo <=? i)%nat && negb (progress st st')
                         then [] else repLoop m lo hi greedy f (Datatypes.S i) st') l
    = flat_map (fun st' => if (lo <=? i)%nat && negb (progress st st')
                         then [] else repLoop m' lo hi greedy f (Datatypes.S i) st') l).
  { induction l as [|x l IHl]; simpl; [done|]. rewrite IHl, IH by done. done. }
  by rewrite Hfm.
Qed.

End MatchFacts.

Module PathFacts.
Import RegExp Matching MatchFacts.







Lemma append_assoc (a b c : string) : (a ++ b) ++ c = a ++ (b ++ c).
Proof.
  induction a as [|x a IH]; [done|].
  change ((String x a ++ b) ++ c) with (String x ((a ++ b) ++ c)).
  by rewrite IH.
Qed.


End PathFacts.

(** ** [learn] always returns and never forgets *)

Section LearnFacts.

Context {RT : Runtime} {S : Type} {MS : MemoryStore S}
        {laws : MemoryStoreLaws S}.

Lemma extends_refl (s : S) : extends s s.
Proof. by split. Qed.

Lemma extends_trans (s1 s2 s3 : S) :
  extends s1 s2 -> extends s2 s3 -> extends s1 s3.
Proof. intros [H1 H2] [H3 H4]. split; eauto. Qed.

Lemma extends_addPattern now vendor p (s : S) :
  extends s (addPattern now vendor p s).
Proof.
  split; intros.
  - by apply addPattern_keeps_pattern.
  - by apply addPattern_same_mappings.
Qed.

Lemma extends_addStatic vendor c (s : S) :
  extends s (addStaticCorrection vendor c s).
Proof.
  split; intros.
  - by apply addStatic_keeps_pattern.
  - by apply addStatic_keeps_mapping.
Qed.

Lemma learnFromText_extends now vendor rawText field values (s : S) :
  extends s (snd (learnFromText now vendor rawText field values s)).
Proof.
  induction values as [|val values IH]; simpl; [apply extends_refl|].
  destruct (Str.indexOf rawText val); [|done]. simpl.
  destruct (labelBefore rawText _);
    [apply extends_addPattern|apply extends_refl].
Qed.

Lemma learnFlexible_returns now vendor rawText field to (s : S) :
  exists s', learnFlexible now vendor rawText field to s = Returns s' /\
             extends s s'.
Proof.
  unfold learnFlexible.
  destruct (Str.includes to " "); [|eauto using extends_refl].
  destruct (_ <? _)%nat; [|eauto using extends_refl].
  destruct (CompileFacts.compile_flexible (flexibleWords to)) as [r ->].
  destruct (RegExp.test true r rawText);
    eauto using extends_refl, extends_addPattern.
Qed.

Lemma learnExtraction_returns now invoice c (s : S) :
  exists s', learnExtraction now invoice c s = Returns s' /\ extends s s'.
Proof.
  unfold learnExtraction.
  destruct (Correction.to c); eauto using extends_refl.
  destruct (_ <=? _)%nat; [|eauto using extends_refl].
  pose proof (learnFromText_extends now (Invoice.vendor invoice)
                (Invoice.rawText invoice) (Correction.field c)
                (searchValues s0) s) as Hext.
  destruct (learnFromText _ _ _ _ _ s) as [found s1]. simpl in Hext.
  destruct found; [eauto|].
  destruct (learnFlexible_returns now (Invoice.vendor invoice)
              (Invoice.rawText invoice) (Correction.field c) s0 s1)
    as (s' & -> & Hs'). eauto using extends_trans.
Qed.

Lemma learnMapping_extends invoice c (s : S) :
  extends s (learnMapping invoice c s).
Proof.
  unfold learnMapping.
  repeat (case_match; try apply extends_refl).
  apply extends_addStatic.
Qed.

Lemma learnCorrection_returns now invoice c (s : S) :
  exists s', learnCorrection now invoice c s = Returns s' /\ extends s s'.
Proof.
  unfold learnCorrection.
  destruct (learnExtraction_returns now invoice c s) as (s1 & -> & H1).
  simpl. eauto using extends_trans, learnMapping_extends.
Qed.

Lemma learnAll_returns now invoice corrections : forall (s : S),
  exists s', learnAll now invoice corrections s = Returns s' /\ extends s s'.
Proof.
  induction corrections as [|c cs IH]; intros s; simpl.
  - eauto using extends_refl.
  - destruct (learnCorrection_returns now invoice c s) as (s1 & -> & H1).
    simpl. destruct (IH s1) as (s' & -> & H2). eauto using extends_trans.
Qed.

(** What one correction adds is there at the end of the loop. *)
Lemma learnAll_keeps now invoice corrections c (Q : S -> Prop) :
  (forall s s', extends s s' -> Q s -> Q s') ->
  (forall s s', learnCorrection now invoice c s = Returns s' -> Q s') ->
  In c corrections ->
  forall s s', learnAll now invoice corrections s = Returns s' -> Q s'.
Proof.
  intros Hmono Hadd. induction corrections as [|c0 cs IH]; [done|].
  intros Hin s s'. simpl.
  destruct (learnCorrection_returns now invoice c0 s) as (s1 & Hs1 & H1).
  rewrite Hs1. simpl. intros Hrest.
  destruct Hin as [-> | Hin].
  - destruct (learnAll_returns now invoice cs s1) as (s2 & Hs2 & H2).
    rewrite Hs2 in Hrest. injection Hrest as <-.
    eapply Hmono; [exact H2|]. by eapply Hadd.
  - by eapply IH.
Qed.

Lemma learn_returns now (s : S) invoice humanLog :
  exists s', learn now s invoice humanLog = Returns s' /\ extends s s'.
Proof.
  unfold learn. destruct (HumanCorrectionLog.finalDecision humanLog).
  - apply learnAll_returns.
  - eauto using extends_refl.
Qed.

End LearnFacts.

(** ** Line-item rules *)

Section SkuFacts.

Context {RT : Runtime}.






Lemma applyStatic_corrections st rule c :
  In c (proposedCorrections st) ->
  In c (proposedCorrections (applyStatic st rule)).
Proof.
  intros Hc. unfold applyStatic.
  destruct (Str.includes _ "lineItems").
  - destruct (mapSkus _ _ _). simpl. apply in_or_app. by left.
  - destruct (_ || _); [|done]. simpl. apply in_or_app. by left.
Qed.


Lemma applyStatics_corrections rules : forall st c,
  In c (proposedCorrections st) ->
  In c (proposedCorrections (applyStatics rules st)).
Proof.
  unfold applyStatics.
  induction rules as [|r rs IH]; intros st c Hc; simpl; [done|].
  apply IH. by apply applyStatic_corrections.
Qed.



Lemma matchPO_frame vendor referenceData st st' :
  matchPO vendor referenceData st = Returns st' ->
  Normalized.lineItems (normalizedInvoice st')
  = Normalized.lineItems (normalizedInvoice st) /\
  forall c, In c (proposedCorrections st) -> In c (proposedCorrections st').
Proof.
  unfold matchPO. destruct (negb _); [|by intros [= <-]].
  destruct (findMatchingPOWithVendor _ _ _) as [[po|]| |]; simpl;
    try discriminate; intros [= <-]; [|done].
  simpl. split; [done|]. intros c Hc. apply in_or_app. by left.
Qed.

End SkuFacts.

Section SkuLearning.

Context {RT : Runtime} {S : Type} {MS : MemoryStore S}
        {laws : MemoryStoreLaws S}.





End SkuLearning.



(** ** The label in front of a value *)

Module LabelFacts.
Import RegExp Matching MatchFacts.

Lemma all_app p (a b : string) :
  Str.all p (a ++ b) = Str.all p a && Str.all p b.
Proof.
  unfold Str.all. induction a as [|c a IH]; [done|].
  change (String c a ++ b) with (String c (a ++ b)). simpl.
  by rewrite IH, andb_assoc.
Qed.

Lemma span p s :
  exists run tail, s = run ++ tail /\ Str.all p run = true /\ stopsAt p tail.
Proof.
  induction s as [|c s (run & tail & -> & Hrun & Hstop)].
  - by exists "", "".
  - destruct (p c) eqn:Hc.
    + exists (String c run), tail. split; [done|]. split; [|done].
      unfold Str.all in *. simpl. by rewrite Hc.
    + by exists "", (String c (run ++ tail)).
Qed.

Lemma flat_map_nil {A B : Type} (f : A -> list B) (l : list A) :
  Forall (fun x => f x = []) l -> flat_map f l = [].
Proof.
  induction 1 as [|x l Hx _ IH]; [done|]. simpl. by rewrite Hx, IH.
Qed.

Lemma drop_app_le k : forall (a b : string),
  (k <= String.length a)%nat -> Str.drop k (a ++ b) = Str.drop k a ++ b.
Proof.
  induction k as [|k IH]; intros a b Hk; [done|].
  destruct a as [|c a]; [simpl in Hk; lia|].
  change (String c a ++ b) with (String c (a ++ b)). simpl.
  apply IH. simpl in Hk. lia.
Qed.

Lemma drop_length k : forall s,
  String.length (Str.drop k s) = (String.length s - k)%nat.
Proof.
  induction k as [|k IH]; intros s; simpl; [lia|].
  destruct s; simpl; [done|]. apply IH.
Qed.

(** The end of the pattern, [\s*$], fails on text that is not white space
    only. *)
Lemma spacesEol_nil p T caps :
  Str.all Str.isSpace T = false ->
  mt false (RSeq (RRep (RSet false [ISpace]) 0 None true) (RSeq REol REmpty))
     (MState p T caps) = [].
Proof.
  intros Hother. cbn [mt]. apply flat_map_nil.
  destruct (span (setMatches false false [ISpace]) T)
    as (run & tail & -> & Hrun & Hstop).
  change (fun st0 => step (setMatches false false [ISpace]) st0)
    with (step (setMatches false false [ISpace])).
  eapply List.Forall_impl;
    [|apply (repLoop_run_all _ 0 run _ 0 (MState p (run ++ tail) caps) tail);
      done].
  intros st' (k & Hk & _ & ->). unfold advance. cbn [rest pos RegExp.caps].
  rewrite drop_app_le by done.
  destruct tail as [|c tail].
  - exfalso. rewrite all_app in Hother.
    rewrite (all_ext Str.isSpace (setMatches false false [ISpace])) in Hother.
    + rewrite Hrun in Hother. done.
    + intros c. unfold setMatches. simpl. by rewrite orb_false_r.
  - destruct (Str.drop k run); done.
Qed.

(** [:?] leaves the state as it is or steps over a colon. *)
Lemma optColon_results st :
  Forall (fun st' =>
            st' = st \/
            exists T, rest st = String ":" T /\
                      st' = MState (Datatypes.S (pos st)) T (caps st))
         (mt false (RRep (RChar ":") 0 (Some 1) true) st).
Proof.
  cbn [mt]. set (m := fun st0 => step _ st0).
  rewrite Nat.add_1_r. cbn [repLoop belowMax Nat.ltb Nat.leb andb].
  apply List.Forall_app. split; [|constructor; [by left|constructor]].
  destruct (m st) as [|st1 l] eqn:Hm; [constructor|].
  unfold m, step in Hm. destruct (rest st) as [|c T] eqn:Hrest; [done|].
  destruct (itemMatches false (ILit ":") c) eqn:Hc; [|done].
  injection Hm as <- <-.
  unfold itemMatches in Hc. apply Ascii.eqb_eq in Hc. subst c.
  cbn [flat_map]. rewrite app_nil_r.
  destruct (negb (progress st _)); [constructor|].
  destruct (0 + String.length (String ":" T))%nat;
    cbn [repLoop belowMax Nat.ltb Nat.leb app];
    (constructor; [right; eauto|constructor]).
Qed.

(** [:?\s*$] fails on text with a code unit that is neither. *)
Lemma sepEol_nil p T caps :
  Str.all isSepChar T = false ->
  mt false
     (RSeq (RRep (RChar ":") 0 (Some 1) true)
        (RSeq (RRep (RSet false [ISpace]) 0 None true) (RSeq REol REmpty)))
     (MState p T caps) = [].
Proof.
  intros Hother.
  assert (Hsp : forall T', Str.all isSepChar T' = false ->
                           Str.all Str.isSpace T' = false).
  { intros T' HT'. destruct (Str.all Str.isSpace T') eqn:Hs; [|done].
    rewrite <- HT'. symmetry. unfold Str.all in *.
    apply forallb_forall. intros c Hc.
    unfold isSepChar. rewrite (proj1 (forallb_forall _ _) Hs c Hc).
    apply orb_true_r. }
  change (mt false (RSeq ?a ?b) ?st) with (flat_map (mt false b) (mt false a st)).
  apply flat_map_nil.
  eapply List.Forall_impl; [|apply optColon_results].
  intros st' [-> | (T' & HT & ->)]; apply spacesEol_nil, Hsp; [done|].
  cbn [rest] in HT. subst T. unfold Str.all in *.
  cbn [list_ascii_of_string forallb] in Hother.
  by destruct (isSepChar ":") eqn:Hcolon.
Qed.

Lemma reLabel_shape :
  reLabel
  = RSeq (RGroup 1 (RSeq (RRep (RSet false labelSet) 1 None true) REmpty))
      (RSeq (RRep (RChar ":") 0 (Some 1) true)
         (RSeq (RRep (RSet false [ISpace]) 0 None true) (RSeq REol REmpty))).
Proof. reflexivity. Qed.

Ltac by_bits c :=
  destruct c as [[|] [|] [|] [|] [|] [|] [|] [|]]; vm_compute; congruence.

Lemma labelSet_isLabelChar c :
  setMatches false false labelSet c = isLabelChar c.
Proof. by_bits c. Qed.

Lemma isLabelChar_not_sep c : isLabelChar c = true -> isSepChar c = false.
Proof. by_bits c. Qed.

Lemma isLabelChar_not_space c : isLabelChar c = true -> Str.isSpace c = false.
Proof. by_bits c. Qed.

(** A run of letters that starts inside text whose last code unit is no
    letter ends before that code unit. *)
Lemma run_inside p : forall u run tail T,
  u <> "" -> endsOutside p u = true -> Str.all p run = true ->
  run ++ tail = u ++ T -> (String.length run < String.length u)%nat.
Proof.
  induction u as [|c u IH]; intros run tail T Hne Hend Hrun Heq; [done|].
  destruct run as [|x run]; [simpl; lia|].
  change (String x run ++ tail) with (String x (run ++ tail)) in Heq.
  change (String c u ++ T) with (String c (u ++ T)) in Heq.
  injection Heq as -> Heq.
  unfold Str.all in Hrun. simpl in Hrun.
  apply andb_true_iff in Hrun as [Hc Hrun].
  destruct u as [|d u].
  - simpl in Hend. by rewrite Hc in Hend.
  - simpl. apply -> Nat.succ_lt_mono.
    apply (IH run tail T); done.
Qed.

(** The label pattern finds nothing that starts before the last code
    unit that is no letter. *)
Lemma label_fails_inside p u label colon caps :
  u <> "" -> endsOutside isLabelChar u = true ->
  label <> "" -> Str.all isLabelChar label = true ->
  mt false reLabel (MState p (u ++ label ++ colon) caps) = [].
Proof.
  intros Hu Hend Hl Hlabel. rewrite reLabel_shape.
  change (mt false (RSeq ?a ?b) ?st) with (flat_map (mt false b) (mt false a st)).
  apply flat_map_nil. cbn [mt].
  change (fun st0 => step (setMatches false false labelSet) st0)
    with (step (setMatches false false labelSet)).
  rewrite flat_map_single. apply List.Forall_map.
  destruct (span (setMatches false false labelSet) (u ++ label ++ colon))
    as (run & tail & Heq & Hrun & Hstop).
  assert (Hlen : (String.length run < String.length u)%nat).
  { apply (run_inside isLabelChar u run tail (label ++ colon)); try done.
    rewrite <- Hrun. apply all_ext. intros c.
    symmetry. apply labelSet_isLabelChar. }
  eapply List.Forall_impl;
    [|apply (repLoop_run_all _ 1 run _ 0 (MState p (u ++ label ++ colon) caps)
               tail); done].
  intros st' (k & Hk & _ & ->). unfold advance. cbn [rest pos RegExp.caps].
  apply sepEol_nil. rewrite drop_app_le by lia. rewrite !all_app.
  destruct label as [|x label]; [done|].
  unfold Str.all in Hlabel. simpl in Hlabel.
  apply andb_true_iff in Hlabel as [Hx _].
  unfold Str.all at 2. simpl. rewrite (isLabelChar_not_sep x Hx).
  by rewrite andb_false_r.
Qed.

(** [:?\s*$] matches the empty text and a colon. *)
Lemma sep_matches p caps colon :
  colon = "" \/ colon = ":" ->
  exists st others,
    mt false
      (RSeq (RRep (RChar ":") 0 (Some 1) true)
         (RSeq (RRep (RSet false [ISpace]) 0 None true) (RSeq REol REmpty)))
      (MState p colon caps) = st :: others /\
    RegExp.caps st = caps.
Proof.
  intros [-> | ->].
  - cbn. eauto.
  - cbn. unfold progress. cbn [pos].
    replace (Datatypes.S p =? p)%nat with false
      by (symmetry; apply Nat.eqb_neq; lia).
    cbn. eauto.
Qed.

(** Where the label starts, the pattern matches and captures it. *)
Lemma label_matches_here p label colon :
  label <> "" -> Str.all isLabelChar label = true ->
  colon = "" \/ colon = ":" ->
  exists st others,
    mt false reLabel (MState p (label ++ colon) []) = st :: others /\
    RegExp.caps st = [(1%nat, label)].
Proof.
  intros Hl Hlabel Hcolon. rewrite reLabel_shape.
  change (mt false (RSeq ?a ?b) ?st) with (flat_map (mt false b) (mt false a st)).
  set (K := RSeq (RRep (RChar ":") 0 (Some 1) true) _).
  cbn [mt].
  change (fun st0 => step (setMatches false false labelSet) st0)
    with (step (setMatches false false labelSet)).
  rewrite flat_map_single.
  destruct (repLoop_run_head (setMatches false false labelSet) 1 label
              (1 + String.length (label ++ colon) + 1) 0
              (MState p (label ++ colon) []) colon) as [others Hrun];
    try done.
  - rewrite <- Hlabel. apply all_ext, labelSet_isLabelChar.
  - by destruct Hcolon as [-> | ->].
  - destruct label; [done|]. simpl. lia.
  - rewrite length_append. lia.
  - cbn [rest pos]. cbn [rest] in Hrun. rewrite Hrun. unfold advance.
    cbn [List.map flat_map pos rest RegExp.caps].
    rewrite drop_app.
    replace (p + String.length label - p)%nat with (String.length label)
      by lia.
    rewrite take_app.
    subst K.
    destruct (sep_matches (p + String.length label) [(1%nat, label)] colon
                Hcolon) as (st & rest & -> & Hcaps).
    cbn [app]. eauto.
Qed.

Lemma search_skip ic r u : forall i T,
  (forall u1 u2, u = u1 ++ u2 -> u2 <> "" ->
                 mt ic r (MState (i + String.length u1) (u2 ++ T) []) = []) ->
  search ic r i (u ++ T) = search ic r (i + String.length u) T.
Proof.
  induction u as [|c u IH]; intros i T Hnil.
  - simpl. by rewrite Nat.add_0_r.
  - change (String c u ++ T) with (String c (u ++ T)).
    cbn [search].
    pose proof (Hnil "" (String c u) eq_refl) as H0.
    change (String c u ++ T) with (String c (u ++ T)) in H0.
    simpl in H0. rewrite Nat.add_0_r in H0. rewrite H0 by done.
    rewrite IH.
    + simpl. f_equal. lia.
    + intros u1 u2 -> Hu2.
      specialize (Hnil (String c u1) u2 eq_refl Hu2).
      simpl in Hnil. by rewrite Nat.add_succ_r in Hnil.
Qed.

Lemma endsOutside_suffix p u1 : forall u2,
  u2 <> "" -> endsOutside p (u1 ++ u2) = true -> endsOutside p u2 = true.
Proof.
  induction u1 as [|c u1 IH]; intros u2 Hne Hend; [done|].
  apply IH; [done|].
  change (String c u1 ++ u2) with (String c (u1 ++ u2)) in Hend.
  simpl in Hend. destruct (u1 ++ u2) eqn:Heq; [|done].
  destruct u1; [|done]. simpl in Heq. by subst.
Qed.

(** On text that ends with the label and an optional colon, the label
    pattern captures the label. *)
Lemma exec_label u label colon :
  endsOutside isLabelChar u = true ->
  label <> "" -> Str.all isLabelChar label = true ->
  colon = "" \/ colon = ":" ->
  exists m,
    exec false reLabel (u ++ label ++ colon) = Some m /\
    group m 1 = Some label.
Proof.
  intros Hend Hl Hlabel Hcolon. unfold exec.
  rewrite search_skip.
  - destruct (label_matches_here (0 + String.length u) label colon)
      as (st & others & Hmt & Hcaps); try done.
    destruct (label ++ colon) eqn:Heq; cbn [search]; rewrite Hmt;
      (eexists; split; [reflexivity|]);
      unfold group; cbn [groups]; rewrite Hcaps; reflexivity.
  - intros u1 u2 -> Hu2. apply label_fails_inside; try done.
    by apply (endsOutside_suffix _ u1).
Qed.

(** *** The window in front of the value, cleaned *)

Lemma substring_prefix (a b : string) :
  String.substring 0 (String.length a) (a ++ b) = a.
Proof.
  induction a as [|c a IH]; [by destruct b|].
  change (String c a ++ b) with (String c (a ++ b)). simpl. by rewrite IH.
Qed.

Lemma substring_window n : forall pre mid rest,
  (n <= String.length pre)%nat ->
  Str.substring (pre ++ mid ++ rest) n (String.length pre + String.length mid)
  = Str.drop n pre ++ mid.
Proof.
  unfold Str.substring.
  induction n as [|n IH]; intros pre mid rest Hn.
  - rewrite Nat.sub_0_r, <- length_append, <- PathFacts.append_assoc.
    apply substring_prefix.
  - destruct pre as [|c pre]; [simpl in Hn; lia|].
    change (String c pre ++ mid ++ rest) with (String c (pre ++ mid ++ rest)).
    simpl. apply IH. simpl in Hn. lia.
Qed.

Lemma endsOutside_tail p c s :
  endsOutside p (String c s) = true -> endsOutside p s = true.
Proof. simpl. by destruct s. Qed.

Lemma endsOutside_drop p n : forall s,
  endsOutside p s = true -> endsOutside p (Str.drop n s) = true.
Proof.
  induction n as [|n IH]; intros s Hs; [done|].
  destruct s as [|c s]; [done|]. simpl.
  by eapply IH, endsOutside_tail.
Qed.

Lemma unbreak_cons c s :
  unbreak (String c s)
  = String (if Ascii.eqb c (ascii_of_nat 10) then " "%char else c) (unbreak s).
Proof. unfold unbreak. simpl. by destruct (Ascii.eqb c _). Qed.

Lemma unbreak_app a b : unbreak (a ++ b) = unbreak a ++ unbreak b.
Proof.
  induction a as [|c a IH]; [done|].
  change (String c a ++ b) with (String c (a ++ b)).
  by rewrite !unbreak_cons, IH.
Qed.

Lemma isLabelChar_not_break c :
  isLabelChar c = true -> Ascii.eqb c (ascii_of_nat 10) = false.
Proof. by_bits c. Qed.

Lemma unbreak_label label :
  Str.all isLabelChar label = true -> unbreak label = label.
Proof.
  unfold Str.all. induction label as [|c label IH]; [done|]. simpl.
  intros [Hc Hl]%andb_true_iff.
  by rewrite unbreak_cons, (isLabelChar_not_break c Hc), IH.
Qed.

Lemma unbreak_spaces ws :
  Str.all Str.isSpace ws = true -> Str.all Str.isSpace (unbreak ws) = true.
Proof.
  unfold Str.all. induction ws as [|c ws IH]; [done|]. simpl.
  intros [Hc Hl]%andb_true_iff. rewrite unbreak_cons. simpl.
  rewrite IH by done. destruct (Ascii.eqb c _); [reflexivity|].
  by rewrite Hc.
Qed.

Lemma unbreak_separator sep :
  isSeparator sep = true ->
  exists colon ws,
    unbreak sep = colon ++ ws /\ (colon = "" \/ colon = ":") /\
    Str.all Str.isSpace ws = true.
Proof.
  destruct sep as [|c ws].
  { intros _. exists "", "". split; [done|]. split; [by left|done]. }
  unfold isSeparator, isColon. destruct (Ascii.eqb c ":") eqn:Hc.
  - apply Ascii.eqb_eq in Hc. subst c. intros Hws.
    exists ":", (unbreak ws). rewrite unbreak_cons.
    split; [done|]. split; [by right|]. by apply unbreak_spaces.
  - intros Hws. exists "", (unbreak (String c ws)).
    split; [done|]. split; [by left|]. by apply unbreak_spaces.
Qed.

Lemma unbreak_endsOutside u :
  endsOutside isLabelChar u = true ->
  endsOutside isLabelChar (unbreak u) = true.
Proof.
  induction u as [|c u IH]; [done|]. intros Hu.
  rewrite unbreak_cons. destruct u as [|d u].
  - simpl in *. destruct (Ascii.eqb c _); done.
  - specialize (IH (endsOutside_tail _ _ _ Hu)).
    rewrite unbreak_cons in *. exact IH.
Qed.

Lemma trimStart_app u x X :
  Str.isSpace x = false ->
  Str.trimStart (u ++ String x X) = Str.trimStart u ++ String x X.
Proof.
  intros Hx. induction u as [|c u IH].
  - simpl. rewrite Hx. reflexivity.
  - change (String c u ++ String x X) with (String c (u ++ String x X)).
    simpl. destruct (Str.isSpace c); done.
Qed.

Lemma trimStart_endsOutside p u :
  endsOutside p u = true -> endsOutside p (Str.trimStart u) = true.
Proof.
  induction u as [|c u IH]; [done|]. intros Hu. simpl.
  destruct (Str.isSpace c); [|done].
  by eapply IH, endsOutside_tail.
Qed.

Lemma trimEnd_spaces ws :
  Str.all Str.isSpace ws = true -> Str.trimEnd ws = "".
Proof.
  unfold Str.all. induction ws as [|c ws IH]; [done|]. simpl.
  intros [Hc Hl]%andb_true_iff. by rewrite IH, Hc.
Qed.

Lemma trimEnd_app a b :
  Str.trimEnd b <> "" -> Str.trimEnd (a ++ b) = a ++ Str.trimEnd b.
Proof.
  intros Hb. induction a as [|c a IH]; [done|].
  change (String c a ++ b) with (String c (a ++ b)). simpl. rewrite IH.
  destruct a; [|done]. simpl. by destruct (Str.trimEnd b).
Qed.

Lemma trimEnd_last a x ws :
  Str.isSpace x = false -> Str.all Str.isSpace ws = true ->
  Str.trimEnd (a ++ String x ws) = a ++ String x "".
Proof.
  intros Hx Hws.
  assert (Hlast : Str.trimEnd (String x ws) = String x "").
  { simpl. by rewrite (trimEnd_spaces ws Hws), Hx. }
  rewrite trimEnd_app; by rewrite Hlast.
Qed.

Lemma last_char p s :
  s <> "" -> Str.all p s = true ->
  exists s0 y, s = s0 ++ String y "" /\ p y = true.
Proof.
  unfold Str.all. induction s as [|c s IH]; [done|]. intros _. simpl.
  intros [Hc Hs]%andb_true_iff. destruct s as [|d s].
  - by exists "", c.
  - destruct IH as (s0 & y & Heq & Hy); [done..|].
    exists (String c s0), y. by rewrite Heq.
Qed.

(** The cleaned context of a label with its separator. *)
Lemma trim_label u label colon ws :
  label <> "" -> Str.all isLabelChar label = true ->
  colon = "" \/ colon = ":" -> Str.all Str.isSpace ws = true ->
  Str.trim (u ++ label ++ colon ++ ws) = Str.trimStart u ++ label ++ colon.
Proof.
  intros Hl Hlabel Hcolon Hws. unfold Str.trim.
  destruct (last_char isLabelChar label Hl Hlabel) as (l0 & y & -> & Hy).
  assert (Hfirst : exists x X, (l0 ++ String y "") ++ colon ++ ws = String x X
                               /\ Str.isSpace x = false).
  { destruct l0 as [|x l0].
    - exists y, (colon ++ ws). split; [done|].
      by apply isLabelChar_not_space.
    - exists x, ((l0 ++ String y "") ++ colon ++ ws). split; [done|].
      unfold Str.all in Hlabel. simpl in Hlabel.
      apply andb_true_iff in Hlabel as [Hx _].
      by apply isLabelChar_not_space. }
  destruct Hfirst as (x & X & Heq & Hx).
  rewrite Heq, trimStart_app, <- Heq by done.
  destruct Hcolon as [-> | ->].
  - change ("" ++ ws) with ws.
    rewrite (PathFacts.append_assoc l0), <- (PathFacts.append_assoc _ l0).
    change (String y "" ++ ws) with (String y ws).
    rewrite trimEnd_last; [|by apply isLabelChar_not_space|done].
    change ((l0 ++ String y "") ++ "") with ((l0 ++ String y "") ++ "").
    rewrite (PathFacts.append_assoc _ l0).
    replace ((l0 ++ String y "") ++ "") with (l0 ++ String y "");
      [done|].
    by rewrite PathFacts.append_assoc.
  - change (":" ++ ws) with (String ":" ws).
    rewrite <- (PathFacts.append_assoc _ (l0 ++ String y "")).
    rewrite trimEnd_last; [|done..].
    by rewrite PathFacts.append_assoc.
Qed.

(** The label that [learn] reads in front of a value: the run of letters
    that ends the 25 code units before the value, an optional colon and
    white space apart. *)
Lemma labelBefore_found pre label sep rest :
  endsOutside isLabelChar pre = true ->
  label <> "" -> Str.all isLabelChar label = true ->
  isSeparator sep = true ->
  (String.length label + String.length sep <= 25)%nat ->
  labelBefore (pre ++ label ++ sep ++ rest)
              (String.length pre + String.length label + String.length sep)
  = Some label.
Proof.
  intros Hpre Hl Hlabel Hsep Hlen. unfold labelBefore.
  cbn zeta. rewrite Nat.max_0_l.
  fold (unbreak (Str.substring (pre ++ label ++ sep ++ rest)
                   (String.length pre + String.length label
                    + String.length sep - 25)
                   (String.length pre + String.length label
                    + String.length sep))).
  rewrite <- (PathFacts.append_assoc label sep rest).
  rewrite <- Nat.add_assoc, <- length_append.
  rewrite substring_window by (rewrite length_append; lia).
  set (n := (_ - 25)%nat).
  rewrite !unbreak_app, (unbreak_label label Hlabel).
  destruct (unbreak_separator sep Hsep) as (colon & ws & -> & Hcolon & Hws).
  rewrite trim_label by done.
  destruct (exec_label (Str.trimStart (unbreak (Str.drop n pre))) label colon)
    as (m & -> & Hm); try done.
  by apply trimStart_endsOutside, unbreak_endsOutside, endsOutside_drop.
Qed.

End LabelFacts.

(** ** Learnt extraction patterns *)

Section PatternSteps.

Context {RT : Runtime}.

Lemma truthy_missing v : isMissing v = true -> truthy v = false.
Proof. by destruct v as [| |[|c s]| |]. Qed.

Lemma applyPattern_other now rawText st pattern key :
  ExtractionPattern.field pattern <> key ->
  Normalized.get (normalizedInvoice (applyPattern now rawText st pattern)) key
  = Normalized.get (normalizedInvoice st) key.
Proof.
  intros Hne. unfold applyPattern, setFieldValue.
  destruct (isMissing _); [|done]. destruct (truthy _); [|done].
  cbn [normalizedInvoice]. destruct (Str.includes _ "["); [done|].
  by apply get_set_ne.
Qed.

Lemma applyPattern_corrections now rawText st pattern c :
  In c (proposedCorrections st) ->
  In c (proposedCorrections (applyPattern now rawText st pattern)).
Proof.
  intros Hc. unfold applyPattern.
  destruct (isMissing _); [|done]. destruct (truthy _); [|done].
  simpl. apply in_or_app. by left.
Qed.

Lemma applyPatterns_corrections now rawText patterns : forall st c,
  In c (proposedCorrections st) ->
  In c (proposedCorrections (applyPatterns now rawText patterns st)).
Proof.
  unfold applyPatterns.
  induction patterns as [|p ps IH]; intros st c Hc; simpl; [done|].
  by apply IH, applyPattern_corrections.
Qed.

Lemma applyPatterns_frame now rawText patterns : forall st key,
  isMissing (Normalized.get (normalizedInvoice st) key) = false ->
  Normalized.get (normalizedInvoice (applyPatterns now rawText patterns st)) key
  = Normalized.get (normalizedInvoice st) key.
Proof.
  unfold applyPatterns.
  induction patterns as [|p ps IH]; intros st key Hkey; simpl; [done|].
  pose proof (applyPattern_frame now rawText st p key Hkey) as Hstep.
  rewrite IH by (by rewrite Hstep). exact Hstep.
Qed.

(** Patterns of other fields, and patterns that extract nothing, leave a
    missing field missing. *)
Lemma applyPatterns_skip now rawText patterns key : forall st,
  (forall q, In q patterns -> ExtractionPattern.field q = key ->
             truthy (extractWithRegex rawText
                       (ExtractionPattern.regexPattern q)) = false) ->
  Normalized.get (normalizedInvoice (applyPatterns now rawText patterns st)) key
  = Normalized.get (normalizedInvoice st) key.
Proof.
  unfold applyPatterns.
  induction patterns as [|p ps IH]; intros st Hnone; simpl; [done|].
  rewrite IH by (intros q Hq; apply Hnone; by right).
  destruct (string_dec (ExtractionPattern.field p) key) as [Heq | Hne].
  - unfold applyPattern. destruct (isMissing _); [|done].
    by rewrite (Hnone p (or_introl eq_refl) Heq).
  - by apply applyPattern_other.
Qed.

(** A pattern of a top-level field that is missing, on text in which it
    captures a non-empty string. *)
Lemma applyPattern_fills now rawText st pattern v :
  Str.includes (ExtractionPattern.field pattern) "[" = false ->
  isMissing (Normalized.get (normalizedInvoice st)
                            (ExtractionPattern.field pattern)) = true ->
  extractWithRegex rawText (ExtractionPattern.regexPattern pattern) = VStr v ->
  v <> "" ->
  let st' := applyPattern now rawText st pattern in
  Normalized.get (normalizedInvoice st') (ExtractionPattern.field pattern)
  = VStr v /\
  In (Correction.Make (ExtractionPattern.field pattern)
        (Normalized.get (normalizedInvoice st)
                        (ExtractionPattern.field pattern))
        (VStr v)
        ("Memory applied: Found match in raw text using learned pattern for "
         ++ ExtractionPattern.field pattern))
     (proposedCorrections st').
Proof.
  intros Htop Hmiss Hex Hv. unfold applyPattern, getFieldValue, setFieldValue.
  rewrite Htop, Hmiss, Hex.
  assert (Ht : truthy (VStr v) = true) by (by destruct v).
  rewrite Ht. cbn [normalizedInvoice proposedCorrections]. split.
  - apply get_set_eq.
  - apply in_or_app. right. by left.
Qed.

Lemma applyStatic_other st rule key :
  ValueCorrection.field rule <> key ->
  Normalized.get (normalizedInvoice (applyStatic st rule)) key
  = Normalized.get (normalizedInvoice st) key.
Proof.
  intros Hne. unfold applyStatic, setFieldValue.
  destruct (Str.includes _ "lineItems").
  - by destruct (mapSkus _ _ _).
  - destruct (_ || _); [|done]. cbn [normalizedInvoice].
    destruct (Str.includes _ "["); [done|]. by apply get_set_ne.
Qed.

Lemma applyStatics_other rules key : forall st,
  (forall r, In r rules -> ValueCorrection.field r <> key) ->
  Normalized.get (normalizedInvoice (applyStatics rules st)) key
  = Normalized.get (normalizedInvoice st) key.
Proof.
  unfold applyStatics.
  induction rules as [|r rs IH]; intros st Hne; simpl; [done|].
  rewrite IH by (intros q Hq; apply Hne; by right).
  apply applyStatic_other, Hne. by left.
Qed.

(** PO matching writes [poNumber] only, and only when it is falsy. *)
Lemma matchPO_keeps vendor referenceData st st' key :
  matchPO vendor referenceData st = Returns st' ->
  truthy (Normalized.get (normalizedInvoice st) key) = true ->
  Normalized.get (normalizedInvoice st') key
  = Normalized.get (normalizedInvoice st) key.
Proof.
  unfold matchPO. intros Hret Ht.
  destruct (negb _) eqn:Hpo; [|by injection Hret as <-].
  destruct (findMatchingPOWithVendor _ _ _) as [[po|]| |]; simpl in Hret;
    try discriminate; injection Hret as <-; [|done].
  cbn [normalizedInvoice]. apply get_set_ne. intros <-.
  by rewrite Ht in Hpo.
Qed.

End PatternSteps.

Section PatternLearning.

Context {RT : Runtime} {S : Type} {MS : MemoryStore S}
        {laws : MemoryStoreLaws S}.

(** The loop over the search values stops at the first one that occurs
    in the text. *)
Lemma learnFromText_first now vendor rawText field before val after index
      label (s : S) :
  (forall b, In b before -> Str.indexOf rawText b = None) ->
  Str.indexOf rawText val = Some index ->
  labelBefore rawText index = Some label ->
  learnFromText now vendor rawText field (before ++ val :: after) s
  = (true,
     addPattern now vendor
       (ExtractionPattern.Make field (label ++ ":?\s*" ++ valuePattern val)
                               0.6 1 now) s).
Proof.
  intros Hbefore Hval Hlabel.
  induction before as [|b before IH]; simpl.
  - by rewrite Hval, Hlabel.
  - rewrite (Hbefore b) by (by left). apply IH.
    intros b' Hb'. apply Hbefore. by right.
Qed.

(** C1 (amended).  For an approved correction to a string of at least 4
    code units (3 for the field [currency]), [learn] looks at the first
    occurrence in the raw text of the first search value that occurs at
    all (the value itself, then its DD.MM.YYYY and DD/MM/YYYY renderings
    when it is an ISO date).  When the text before that occurrence ends
    with a label, a run of letters that starts the text or follows a
    code unit that is no letter, then an optional colon and white space,
    label and separator within 25 code units, [learn] returns a store
    with the pattern [<label>:?\s*<value shape>] for the vendor and the
    field.  Afterwards [process] of a same-vendor invoice that is not a
    duplicate, in which that top-level field is missing, no earlier
    pattern of the field extracts a value and no static correction names
    the field, sets the field to the first group of the pattern's match
    in the raw text and proposes a Correction for it. *)
Theorem pattern_induction now (s : S) invoice humanLog c to before val after
        pre label sep post :
  HumanCorrectionLog.finalDecision humanLog = approved ->
  In c (HumanCorrectionLog.corrections humanLog) ->
  Correction.to c = VStr to ->
  ((if String.eqb (Correction.field c) "currency" then 3 else 4)
   <= String.length to)%nat ->
  searchValues to = (before ++ val :: after)%list ->
  (forall b, In b before -> Str.indexOf (Invoice.rawText invoice) b = None) ->
  Invoice.rawText invoice = pre ++ label ++ sep ++ val ++ post ->
  Str.indexOf (Invoice.rawText invoice) val
  = Some (String.length pre + String.length label + String.length sep)%nat ->
  endsOutside isLabelChar pre = true ->
  label <> "" -> Str.all isLabelChar label = true ->
  isSeparator sep = true ->
  (String.length label + String.length sep <= 25)%nat ->
  let vendor := Invoice.vendor invoice in
  let field := Correction.field c in
  let regex := label ++ ":?\s*" ++ valuePattern val in
  exists s',
    learn now s invoice humanLog = Returns s' /\
    hasPattern s' vendor field regex /\
    forall now' later referenceData pastInvoices prior p rest v,
      Invoice.vendor later = vendor ->
      findDuplicate later pastInvoices = None ->
      wellTyped (recall vendor s') later = true ->
      VendorMemory.patterns (recall vendor s') = (prior ++ p :: rest)%list ->
      ExtractionPattern.field p = field ->
      ExtractionPattern.regexPattern p = regex ->
      Str.includes field "[" = false ->
      isMissing (Normalized.get (deepCopy (Invoice.fields later)) field)
      = true ->
      (forall q, In q prior -> ExtractionPattern.field q = field ->
                 truthy (extractWithRegex (Invoice.rawText later)
                           (ExtractionPattern.regexPattern q)) = false) ->
      (forall r, In r (VendorMemory.staticCorrections (recall vendor s')) ->
                 ValueCorrection.field r <> field) ->
      extractWithRegex (Invoice.rawText later) regex = VStr v ->
      v <> "" ->
      exists r,
        process now' s' later referenceData pastInvoices = Returns r /\
        Normalized.get (ProcessResult.normalizedInvoice r) field = VStr v /\
        In (Correction.Make field
              (Normalized.get (deepCopy (Invoice.fields later)) field)
              (VStr v)
              ("Memory applied: Found match in raw text using learned pattern for "
               ++ field))
           (ProcessResult.proposedCorrections r).
Proof.
  intros Hdec Hin Hto Hmin Hvalues Hbefore Htext Hindex Hpre Hl Hlabel Hsep
         Hlen vendor field regex.
  destruct (learn_returns now s invoice humanLog) as (s' & Hs' & _).
  exists s'. split; [exact Hs'|].
  unfold learn in Hs'. rewrite Hdec in Hs'.
  assert (Hfound : labelBefore (Invoice.rawText invoice)
                     (String.length pre + String.length label
                      + String.length sep) = Some label).
  { rewrite Htext. by apply LabelFacts.labelBefore_found. }
  split.
  - apply (learnAll_keeps now invoice
             (HumanCorrectionLog.corrections humanLog) c
             (fun s0 => hasPattern s0 vendor field regex))
      with (s := s); [| |done..].
    + intros s0 s1 [Hp _]. apply Hp.
    + intros s0 s1. unfold learnCorrection, learnExtraction.
      rewrite Hto. apply Nat.leb_le in Hmin. rewrite Hmin, Hvalues.
      rewrite (learnFromText_first _ _ _ _ _ _ _ _ _ _ Hbefore Hindex Hfound).
      simpl. intros [= <-].
      apply learnMapping_extends.
      apply (addPattern_recall now vendor
               (ExtractionPattern.Make field regex 0.6 1 now) s0).
  - intros now' later referenceData pastInvoices prior p rest v
           Hv Hdup Hwt Hmem Hpf Hpr Htop Hmiss Hprior Hstatic Hex Hne.
    unfold process. fold (recall (Invoice.vendor later) s'). rewrite Hv.
    destruct (processWith_steps now' (recall vendor s') later referenceData
                pastInvoices Hdup Hwt) as (st3 & st4 & Hpo & Htax & ->).
    eexists. split; [reflexivity|].
    cbn [scoreAndDecide ProcessResult.normalizedInvoice
         ProcessResult.proposedCorrections].
    set (init := initialState now' later).
    set (stA := applyPatterns now' (Invoice.rawText later) prior init).
    set (stB := applyPattern now' (Invoice.rawText later) stA p).
    assert (HA : Normalized.get (normalizedInvoice stA) field
                 = Normalized.get (deepCopy (Invoice.fields later)) field).
    { unfold stA. by rewrite applyPatterns_skip. }
    destruct (applyPattern_fills now' (Invoice.rawText later) stA p v)
      as [HB Hcorr].
    { by rewrite Hpf. }
    { by rewrite Hpf, HA. }
    { by rewrite Hpr. }
    { done. }
    fold stB in HB, Hcorr. rewrite Hpf, HA in Hcorr. rewrite Hpf in HB.
    assert (Hmemory : afterMemory now' (recall vendor s') later
                      = applyStatics
                          (VendorMemory.staticCorrections (recall vendor s'))
                          (applyPatterns now' (Invoice.rawText later) rest
                                         stB)).
    { unfold afterMemory. rewrite Hmem. unfold applyPatterns.
      by rewrite fold_left_app. }
    assert (Hnot : isMissing (VStr v) = false) by (by destruct v).
    assert (H2 : Normalized.get
                   (normalizedInvoice (afterMemory now' (recall vendor s')
                                                   later)) field = VStr v).
    { rewrite Hmemory, applyStatics_other by done.
      rewrite applyPatterns_frame; by rewrite HB. }
    assert (H3 : Normalized.get (normalizedInvoice st3) field = VStr v).
    { rewrite (matchPO_keeps _ _ _ _ field Hpo); rewrite H2; [done|].
      by destruct v. }
    destruct (validateTax_frame _ _ _ field Htax) as (-> & _ & cs & ->).
    { intros Heq. rewrite Heq in Hmiss.
      by rewrite (deepCopy_total_present _ _ "netTotal" Hwt eq_refl) in Hmiss. }
    { intros Heq. rewrite Heq in Hmiss.
      by rewrite (deepCopy_total_present _ _ "taxTotal" Hwt eq_refl) in Hmiss. }
    split; [exact H3|].
    apply in_or_app. left.
    apply (proj2 (matchPO_frame _ _ _ _ Hpo)).
    rewrite Hmemory.
    by apply applyStatics_corrections, applyPatterns_corrections.
Qed.

End PatternLearning.

(** C1 as stated fails when the value occurs more than once: the raw text
    of [DemoLabel.invA3] contains "Leistungsdatum: 01.01.2024" and the
    correction sets [serviceDate] to "2024-01-01", yet [learn] reads the
    label in front of the first occurrence of "01.01.2024" and stores
    the pattern of "Rechnungsdatum" alone; the later invoice with
    "Leistungsdatum: 05.01.2024" keeps its null service date. *)
Lemma pattern_induction_counterexample :
  Str.includes (Invoice.rawText DemoLabel.invA3) "Leistungsdatum: 01.01.2024"
  = true /\
  Str.includes (Invoice.rawText DemoLabel.invA2) "Leistungsdatum: 05.01.2024"
  = true /\
  Normalized.get (deepCopy (Invoice.fields DemoLabel.invA2)) "serviceDate"
  = VNull /\
  exists s' r,
    learn Demo.now JsonStore.empty DemoLabel.invA3 DemoLabel.logA3
    = Returns s' /\
    List.map ExtractionPattern.regexPattern
             (VendorMemory.patterns (recall Demo.supplier s'))
    = ["Rechnungsdatum:?\s*(\d{2}\.\d{2}\.\d{4})"] /\
    process Demo.now s' DemoLabel.invA2 Demo.noReference [] = Returns r /\
    Normalized.get (ProcessResult.normalizedInvoice r) "serviceDate" = VNull.
Proof.
  split; [by vm_compute|]. split; [by vm_compute|]. split; [by vm_compute|].
  eexists. eexists.
  split; [vm_compute; reflexivity|]. split; [vm_compute; reflexivity|].
  split; [vm_compute; reflexivity|]. reflexivity.
Qed.

Lemma pattern_induction_witness :
  exists s' r,
    learn Demo.now JsonStore.empty Demo.invA1 DemoLabel.logA1 = Returns s' /\
    hasPattern s' Demo.supplier "serviceDate"
               "Leistungsdatum:?\s*(\d{2}\.\d{2}\.\d{4})" /\
    process Demo.now s' DemoLabel.invA2 Demo.noReference [] = Returns r /\
    Normalized.get (ProcessResult.normalizedInvoice r) "serviceDate"
    = VStr "05.01.2024".
Proof.
  destruct (pattern_induction (laws := jsonStore_laws) Demo.now
              JsonStore.empty Demo.invA1 DemoLabel.logA1
              DemoLabel.dateCorrection "2024-01-01"
              ["2024-01-01"] "01.01.2024" ["01/01/2024"]
              "Rechnung A-1001
" "Leistungsdatum" ": " "
Summe 119.00 EUR")
    as (s' & Hs' & Hpat & Hproc);
    [reflexivity|left; reflexivity|reflexivity|simpl; lia
    |vm_compute; reflexivity
    |intros b [<- | []]; vm_compute; reflexivity
    |reflexivity|vm_compute; reflexivity|reflexivity|discriminate
    |reflexivity|reflexivity|simpl; lia|].
  assert (Hs : s' = JsonStore.addPattern Demo.now Demo.supplier
                 DemoPatterns.serviceDate JsonStore.empty).
  { vm_compute in Hs'. injection Hs' as <-. vm_compute. reflexivity. }
  destruct (Hproc Demo.now DemoLabel.invA2 Demo.noReference []
              [] DemoPatterns.serviceDate [] "05.01.2024")
    as (r & Hr & Hget & _);
    [reflexivity|reflexivity|by rewrite Hs|by rewrite Hs
    |reflexivity|reflexivity|reflexivity|reflexivity
    |intros q []|rewrite Hs; intros q []
    |vm_compute; reflexivity|discriminate|].
  exists s', r. split; [exact Hs'|]. split; [exact Hpat|].
  split; [exact Hr|exact Hget].
Defined.

(** * Further properties of the stores *)

(** ** UPDATE by id of the first row found, as an update of the first
       element found *)

Section BumpFirst.

Context {R A : Type}.
Variables (id : R -> Z) (V key : R -> bool) (toA : R -> A)
          (same : A -> bool) (bumpBy : R -> R -> R) (f : A -> A).
Hypothesis Hkey : forall r, key r = V r && same (toA r).
Hypothesis HV : forall rec r, V (bumpBy rec r) = V r.
Hypothesis Hother : forall rec r, id r <> id rec -> bumpBy rec r = r.
Hypothesis Hself : forall rec, toA (bumpBy rec rec) = f (toA rec).

Lemma bump_others rec rows :
  ~ In (id rec) (List.map id rows) -> List.map (bumpBy rec) rows = rows.
Proof.
  induction rows as [|r rows IH]; intros Hnot; [done|]. simpl.
  rewrite Hother, IH; [done| |].
  - intros Hin. apply Hnot. by right.
  - intros Heq. apply Hnot. left. done.
Qed.

Lemma bump_updateFirst rows : forall rec rest,
  List.NoDup (List.map id rows) ->
  List.filter key rows = rec :: rest ->
  List.map toA (List.filter V (List.map (bumpBy rec) rows))
  = updateFirst same f (List.map toA (List.filter V rows)).
Proof.
  induction rows as [|r rows IH]; intros rec rest Hnd Hf; [done|].
  apply List.NoDup_cons_iff in Hnd as [Hnot Hnd].
  cbn [List.filter] in Hf. cbn [List.map List.filter].
  pose proof (Hkey r) as Hk.
  destruct (key r) eqn:Hr.
  - injection Hf as <- _. symmetry in Hk.
    apply andb_true_iff in Hk as [Hv Hs].
    rewrite HV, Hv, (bump_others r rows Hnot).
    cbn [List.map updateFirst]. by rewrite Hs, Hself.
  - assert (Hin : In rec rows).
    { apply (proj1 (filter_In key rec rows)). rewrite Hf. by left. }
    assert (Hne : id r <> id rec).
    { intros Heq. apply Hnot. rewrite Heq. by apply in_map. }
    rewrite (Hother rec r Hne).
    destruct (V r) eqn:Hv.
    + simpl in Hk. cbn [List.map updateFirst]. rewrite <- Hk.
      f_equal. by eapply IH.
    + by eapply IH.
Qed.

(** A row of another group is not touched at all. *)
Lemma bump_elsewhere (V' : R -> bool) rows rec :
  List.NoDup (List.map id rows) -> In rec rows ->
  (forall r, V' (bumpBy rec r) = V' r) ->
  V' rec = false ->
  List.filter V' (List.map (bumpBy rec) rows) = List.filter V' rows.
Proof.
  intros Hnd Hin HV' Hrec.
  induction rows as [|r rows IH]; [done|].
  apply List.NoDup_cons_iff in Hnd as [Hnot Hnd].
  cbn [List.map List.filter]. rewrite HV'.
  destruct Hin as [-> | Hin].
  - rewrite Hrec. by rewrite bump_others.
  - assert (Hne : id r <> id rec).
    { intros Heq. apply Hnot. rewrite Heq. by apply in_map. }
    rewrite (Hother rec r Hne), IH by done. done.
Qed.

Lemma find_key_none rows :
  List.filter key rows = [] ->
  List.find same (List.map toA (List.filter V rows)) = None.
Proof.
  induction rows as [|r rows IH]; [done|]. cbn [List.filter].
  pose proof (Hkey r) as Hk.
  destruct (key r); [done|]. intros Hf.
  destruct (V r); [|by apply IH].
  simpl in Hk. cbn [List.map List.find]. rewrite <- Hk. by apply IH.
Qed.

Lemma find_key_some rows rec rest :
  List.filter key rows = rec :: rest ->
  exists a, List.find same (List.map toA (List.filter V rows)) = Some a.
Proof.
  induction rows as [|r rows IH]; [done|]. cbn [List.filter].
  pose proof (Hkey r) as Hk.
  destruct (key r).
  - symmetry in Hk. apply andb_true_iff in Hk as [-> Hs]. intros _.
    cbn [List.map List.find]. rewrite Hs. eauto.
  - intros Hf. destruct (V r); [|by apply IH].
    simpl in Hk. cbn [List.map List.find]. rewrite <- Hk. by apply IH.
Qed.

End BumpFirst.

Module AgreeFacts.
Import SqlStore.

Lemma patternOfRow_new id vendor (p : ExtractionPattern.t) :
  patternOfRow
    (PatternRow id vendor (ExtractionPattern.field p)
       (ExtractionPattern.regexPattern p) (ExtractionPattern.confidence p)
       (ExtractionPattern.usageCount p) (ExtractionPattern.lastUsed p))
  = p.
Proof. by destruct p. Qed.

(** The patterns the SQLite store returns after [addPattern] are those
    the file-backed store's upsert makes of the patterns it returned
    before. *)
Lemma sql_recall_addPattern now vendor pattern (s : t) :
  List.NoDup (List.map p_id (patterns s)) ->
  VendorMemory.patterns (recall vendor (addPattern now vendor pattern s))
  = JsonStore.upsertPattern now pattern
      (VendorMemory.patterns (recall vendor s)).
Proof.
  intros Hnd. unfold recall. simpl.
  destruct (SqlFacts.addPattern_rows now vendor pattern s) as [-> _].
  unfold JsonStore.upsertPattern.
  set (V := fun r => String.eqb (p_vendor r) vendor).
  assert (Hkey : forall r, patternKey vendor pattern r
                           = V r && JsonStore.samePattern pattern (patternOfRow r)).
  { intros r. unfold patternKey, V, JsonStore.samePattern. simpl.
    by rewrite andb_assoc. }
  destruct (List.filter (patternKey vendor pattern) (patterns s))
    as [|rec rest] eqn:Hf.
  - rewrite (find_key_none V _ patternOfRow _ Hkey _ Hf).
    rewrite List.filter_app, List.map_app. cbn [List.filter].
    unfold V at 2. cbn [p_vendor]. rewrite String.eqb_refl.
    cbn [List.map]. by rewrite patternOfRow_new.
  - destruct (find_key_some V _ patternOfRow _ Hkey _ _ _ Hf) as [a ->].
    apply (bump_updateFirst p_id V (patternKey vendor pattern) patternOfRow
             (JsonStore.samePattern pattern)
             (fun rec => bumpPattern now (p_id rec)
                           (reinforce (p_confidence rec)))
             (JsonStore.reinforcePattern now)) with (rest := rest);
      try done.
    + intros rec0 r. unfold V.
      by destruct (SqlFacts.bumpPattern_key now (p_id rec0)
                     (reinforce (p_confidence rec0)) r) as (-> & _).
    + intros rec0 r Hne. unfold bumpPattern.
      destruct (p_id r =? p_id rec0)%Z eqn:He; [|done].
      by apply Z.eqb_eq in He.
    + intros rec0. unfold bumpPattern. by rewrite Z.eqb_refl.
Qed.

Lemma sql_recall_addPattern_other now vendor vendor' pattern (s : t) :
  List.NoDup (List.map p_id (patterns s)) -> vendor <> vendor' ->
  VendorMemory.patterns (recall vendor' (addPattern now vendor pattern s))
  = VendorMemory.patterns (recall vendor' s).
Proof.
  intros Hnd Hne. unfold recall. simpl.
  destruct (SqlFacts.addPattern_rows now vendor pattern s) as [-> _].
  f_equal.
  destruct (List.filter (patternKey vendor pattern) (patterns s))
    as [|rec rest] eqn:Hf.
  - rewrite List.filter_app. cbn [List.filter p_vendor].
    destruct (String.eqb vendor vendor') eqn:He.
    + by apply String.eqb_eq in He.
    + by rewrite app_nil_r.
  - destruct (SqlFacts.filter_head _ _ _ _ Hf) as [Hin Hk].
    apply (bump_elsewhere p_id
             (fun rec => bumpPattern now (p_id rec)
                           (reinforce (p_confidence rec)))); try done.
    + intros rec0 r Hne'. unfold bumpPattern.
      destruct (p_id r =? p_id rec0)%Z eqn:He; [|done].
      by apply Z.eqb_eq in He.
    + intros r.
      by destruct (SqlFacts.bumpPattern_key now (p_id rec)
                     (reinforce (p_confidence rec)) r) as (-> & _).
    + unfold patternKey in Hk.
      apply andb_true_iff in Hk as [Hk _].
      apply andb_true_iff in Hk as [Hk _].
      apply String.eqb_eq in Hk. rewrite Hk.
      destruct (String.eqb vendor vendor') eqn:He; [|done].
      by apply String.eqb_eq in He.
Qed.

Lemma sqlEq_string a t : sqlEq a (VStr t) = strictEq a (VStr t).
Proof. by destruct a. Qed.

(** The same for [addStaticCorrection], on a correction whose trigger is
    a non-empty string, whose corrected value is a string and whose
    condition is absent or non-empty: the values that both stores keep
    as they are. *)
Lemma sql_recall_addStatic vendor c (s : t) trigger corrected :
  List.NoDup (List.map c_id (static_corrections s)) ->
  ValueCorrection.triggerValue c = VStr trigger -> trigger <> "" ->
  ValueCorrection.correctedValue c = VStr corrected ->
  ValueCorrection.condition c <> Some "" ->
  VendorMemory.staticCorrections
    (recall vendor (addStaticCorrection vendor c s))
  = JsonStore.upsertCorrection c
      (VendorMemory.staticCorrections (recall vendor s)).
Proof.
  intros Hnd Ht Hne Hc Hcond. unfold recall. simpl.
  destruct (SqlFacts.addStaticCorrection_rows vendor c s) as [-> _].
  unfold JsonStore.upsertCorrection.
  assert (Htr : orNull (ValueCorrection.triggerValue c) = VStr trigger).
  { rewrite Ht. unfold orNull. simpl.
    destruct (String.eqb trigger "") eqn:He; [|done].
    by apply String.eqb_eq in He. }
  rewrite Htr, Hc. cbn [bind].
  set (V := fun r => String.eqb (c_vendor r) vendor).
  assert (Hkey : forall r,
            correctionKey vendor c (VStr trigger) r
            = V r && JsonStore.sameCorrection c (correctionOfRow r)).
  { intros r. unfold correctionKey, V, JsonStore.sameCorrection.
    rewrite Ht, Hc. cbn [bind isNull correctionOfRow
                         ValueCorrection.field ValueCorrection.triggerValue
                         ValueCorrection.correctedValue].
    rewrite !sqlEq_string, andb_false_r, orb_false_r.
    by rewrite !andb_assoc. }
  destruct (List.filter (correctionKey vendor c (VStr trigger))
                        (static_corrections s)) as [|rec rest] eqn:Hf.
  - rewrite (find_key_none V _ correctionOfRow _ Hkey _ Hf).
    rewrite List.filter_app, List.map_app. cbn [List.filter].
    unfold V at 2. cbn [c_vendor]. rewrite String.eqb_refl.
    cbn [List.map]. do 2 f_equal. unfold correctionOfRow. simpl.
    destruct c as [f t v cond conf cnt]. simpl in *. subst t v.
    f_equal. destruct cond as [[|x cond]|]; done.
  - destruct (find_key_some V _ correctionOfRow _ Hkey _ _ _ Hf) as [a ->].
    apply (bump_updateFirst c_id V (correctionKey vendor c (VStr trigger))
             correctionOfRow (JsonStore.sameCorrection c)
             (fun rec => bumpCorrection (c_id rec)
                           (reinforce (c_confidence rec)))
             JsonStore.reinforceCorrection) with (rest := rest);
      try done.
    + intros rec0 r. unfold V.
      by destruct (SqlFacts.bumpCorrection_key (c_id rec0)
                     (reinforce (c_confidence rec0)) r) as (-> & _).
    + intros rec0 r Hne'. unfold bumpCorrection.
      destruct (c_id r =? c_id rec0)%Z eqn:He; [|done].
      by apply Z.eqb_eq in He.
    + intros rec0. unfold bumpCorrection. by rewrite Z.eqb_refl.
Qed.

Lemma sql_recall_addStatic_other vendor vendor' c (s : t) :
  List.NoDup (List.map c_id (static_corrections s)) -> vendor <> vendor' ->
  VendorMemory.staticCorrections
    (recall vendor' (addStaticCorrection vendor c s))
  = VendorMemory.staticCorrections (recall vendor' s).
Proof.
  intros Hnd Hne. unfold recall. simpl.
  destruct (SqlFacts.addStaticCorrection_rows vendor c s) as [-> _].
  f_equal.
  destruct (List.filter _ (static_corrections s)) as [|rec rest] eqn:Hf.
  - rewrite List.filter_app. cbn [List.filter c_vendor].
    destruct (String.eqb vendor vendor') eqn:He.
    + by apply String.eqb_eq in He.
    + by rewrite app_nil_r.
  - destruct (SqlFacts.filter_head _ _ _ _ Hf) as [Hin Hk].
    apply (bump_elsewhere c_id
             (fun rec => bumpCorrection (c_id rec)
                           (reinforce (c_confidence rec)))); try done.
    + intros rec0 r Hne'. unfold bumpCorrection.
      destruct (c_id r =? c_id rec0)%Z eqn:He; [|done].
      by apply Z.eqb_eq in He.
    + intros r.
      by destruct (SqlFacts.bumpCorrection_key (c_id rec)
                     (reinforce (c_confidence rec)) r) as (-> & _).
    + unfold correctionKey in Hk.
      apply andb_true_iff in Hk as [Hk _].
      apply andb_true_iff in Hk as [Hk _].
      apply andb_true_iff in Hk as [Hk _].
      apply String.eqb_eq in Hk. rewrite Hk.
      destruct (String.eqb vendor vendor') eqn:He; [|done].
      by apply String.eqb_eq in He.
Qed.

(** *** The ids stay unique *)

Lemma ids_bump {R : Type} (id : R -> Z) (g : R -> R) rows :
  (forall r, id (g r) = id r) ->
  List.map id (List.map g rows) = List.map id rows.
Proof.
  intros Hg. induction rows as [|r rows IH]; [done|]. simpl.
  by rewrite Hg, IH.
Qed.

Lemma ids_append {R : Type} (id : R -> Z) rows r seq :
  List.NoDup (List.map id rows) ->
  List.Forall (fun r => (id r <= seq)%Z) rows ->
  id r = (seq + 1)%Z ->
  List.NoDup (List.map id (rows ++ [r])) /\
  List.Forall (fun r => (id r <= seq + 1)%Z) (rows ++ [r]).
Proof.
  intros Hnd Hle Hid. split.
  - rewrite List.map_app.
    apply List.NoDup_app; [done|constructor; [intros []|constructor]|].
    intros a (r0 & <- & Hin)%in_map_iff [Heq | []].
    pose proof (proj1 (List.Forall_forall _ _) Hle r0 Hin) as Hr0.
    simpl in Hr0. lia.
  - apply List.Forall_app. split.
    + eapply List.Forall_impl; [|exact Hle]. intros; simpl in *; lia.
    + constructor; [lia|constructor].
Qed.

Lemma sqlIdsUnique_empty : sqlIdsUnique empty.
Proof. repeat split; constructor. Qed.

Lemma sqlIdsUnique_addPattern now vendor pattern s :
  sqlIdsUnique s -> sqlIdsUnique (addPattern now vendor pattern s).
Proof.
  intros (Hp & Hps & Hc & Hcs). unfold sqlIdsUnique, addPattern.
  destruct (List.filter _ (patterns s)) as [|rec rest]; cbn [patterns
    static_corrections seq_patterns seq_static_corrections].
  - destruct (ids_append p_id (patterns s)
                (PatternRow (seq_patterns s + 1) vendor
                   (ExtractionPattern.field pattern)
                   (ExtractionPattern.regexPattern pattern)
                   (ExtractionPattern.confidence pattern)
                   (ExtractionPattern.usageCount pattern)
                   (ExtractionPattern.lastUsed pattern))
                (seq_patterns s) Hp Hps eq_refl). done.
  - assert (Hid : forall r, p_id (bumpPattern now (p_id rec)
                                    (reinforce (p_confidence rec)) r)
                            = p_id r).
    { intros r. unfold bumpPattern. by destruct (_ =? _)%Z. }
    rewrite ids_bump by done. repeat split; try done.
    apply List.Forall_forall. intros r (r0 & <- & Hin)%in_map_iff.
    rewrite Hid. by apply (proj1 (List.Forall_forall _ _) Hps).
Qed.

Lemma sqlIdsUnique_addStatic vendor c s :
  sqlIdsUnique s -> sqlIdsUnique (addStaticCorrection vendor c s).
Proof.
  intros (Hp & Hps & Hc & Hcs). unfold sqlIdsUnique, addStaticCorrection.
  destruct (List.filter _ (static_corrections s)) as [|rec rest]; cbn [patterns
    static_corrections seq_patterns seq_static_corrections].
  - destruct (ids_append c_id (static_corrections s)
                (CorrectionRow (seq_static_corrections s + 1) vendor
                   (ValueCorrection.field c)
                   (orNull (ValueCorrection.triggerValue c))
                   (bind (ValueCorrection.correctedValue c))
                   (orNullStr (ValueCorrection.condition c))
                   (ValueCorrection.confidence c)
                   (ValueCorrection.usageCount c))
                (seq_static_corrections s) Hc Hcs eq_refl). done.
  - assert (Hid : forall r, c_id (bumpCorrection (c_id rec)
                                    (reinforce (c_confidence rec)) r)
                            = c_id r).
    { intros r. unfold bumpCorrection. by destruct (_ =? _)%Z. }
    rewrite ids_bump by done. repeat split; try done.
    apply List.Forall_forall. intros r (r0 & <- & Hin)%in_map_iff.
    rewrite Hid. by apply (proj1 (List.Forall_forall _ _) Hcs).
Qed.

(** *** Agreement is kept *)

Lemma agree_addPattern now vendor pattern j q :
  sqlIdsUnique q -> storesAgree j q ->
  storesAgree (JsonStore.addPattern now vendor pattern j)
              (addPattern now vendor pattern q).
Proof.
  intros (Hp & _ & _ & _) Hag vendor'.
  change (recall vendor' (JsonStore.addPattern now vendor pattern j))
    with (fst (JsonStore.getVendorMemory vendor'
                 (JsonStore.addPattern now vendor pattern j))).
  rewrite JsonFacts.recall_addPattern.
  destruct (Hag vendor') as [Hp' Hc'].
  assert (Hst : VendorMemory.staticCorrections
                  (recall vendor' (addPattern now vendor pattern q))
                = VendorMemory.staticCorrections (recall vendor' q)).
  { unfold recall. simpl.
    by destruct (SqlFacts.addPattern_rows now vendor pattern q) as [_ ->]. }
  rewrite Hst.
  destruct (decide (vendor = vendor')) as [<- | Hne].
  - cbn [VendorMemory.patterns VendorMemory.staticCorrections].
    rewrite sql_recall_addPattern by done.
    split; [|done]. f_equal. exact Hp'.
  - rewrite sql_recall_addPattern_other by done. done.
Qed.

Lemma agree_addStatic vendor c j q trigger corrected :
  ValueCorrection.triggerValue c = VStr trigger -> trigger <> "" ->
  ValueCorrection.correctedValue c = VStr corrected ->
  ValueCorrection.condition c <> Some "" ->
  sqlIdsUnique q -> storesAgree j q ->
  storesAgree (JsonStore.addStaticCorrection vendor c j)
              (addStaticCorrection vendor c q).
Proof.
  intros Ht Hne Hc Hcond (_ & _ & Hcs & _) Hag vendor'.
  change (recall vendor' (JsonStore.addStaticCorrection vendor c j))
    with (fst (JsonStore.getVendorMemory vendor'
                 (JsonStore.addStaticCorrection vendor c j))).
  rewrite JsonFacts.recall_addStaticCorrection.
  destruct (Hag vendor') as [Hp' Hc'].
  assert (Hpat : VendorMemory.patterns
                   (recall vendor' (addStaticCorrection vendor c q))
                 = VendorMemory.patterns (recall vendor' q)).
  { unfold recall. simpl.
    by destruct (SqlFacts.addStaticCorrection_rows vendor c q) as [_ ->]. }
  rewrite Hpat.
  destruct (decide (vendor = vendor')) as [<- | Hne'].
  - cbn [VendorMemory.patterns VendorMemory.staticCorrections].
    rewrite (sql_recall_addStatic vendor c q trigger corrected) by done.
    split; [done|]. f_equal. exact Hc'.
  - rewrite sql_recall_addStatic_other by done. done.
Qed.

End AgreeFacts.

(** ** [learn] on the two stores *)

Section AgreeLearn.

Context {RT : Runtime}.

Lemma agreeing_addPattern now vendor pattern j q :
  agreeing j q ->
  agreeing (addPattern now vendor pattern j) (addPattern now vendor pattern q).
Proof.
  intros [Hag Hid]. split.
  - by apply AgreeFacts.agree_addPattern.
  - by apply AgreeFacts.sqlIdsUnique_addPattern.
Qed.

Lemma agreeing_learnFromText now vendor rawText field values : forall j q,
  agreeing j q ->
  fst (learnFromText now vendor rawText field values j)
  = fst (learnFromText now vendor rawText field values q) /\
  agreeing (snd (learnFromText now vendor rawText field values j))
           (snd (learnFromText now vendor rawText field values q)).
Proof.
  induction values as [|val values IH]; intros j q Hag; simpl; [done|].
  destruct (Str.indexOf rawText val); [|by apply IH]. simpl.
  split; [done|]. destruct (labelBefore rawText _); [|done].
  by apply agreeing_addPattern.
Qed.

Lemma agreeing_learnExtraction now invoice c j q :
  agreeing j q ->
  exists j' q',
    learnExtraction now invoice c j = Returns j' /\
    learnExtraction now invoice c q = Returns q' /\
    agreeing j' q'.
Proof.
  intros Hag. unfold learnExtraction.
  destruct (Correction.to c) as [| |to| |]; eauto.
  destruct (_ <=? _)%nat; [|eauto].
  destruct (agreeing_learnFromText now (Invoice.vendor invoice)
              (Invoice.rawText invoice) (Correction.field c)
              (searchValues to) j q Hag) as [Hfound Hag1].
  destruct (learnFromText _ _ _ _ _ j) as [f1 j1].
  destruct (learnFromText _ _ _ _ _ q) as [f2 q1].
  simpl in Hfound, Hag1. subst f2. destruct f1; [eauto|].
  unfold learnFlexible.
  destruct (Str.includes to " "); [|eauto].
  destruct (_ <? _)%nat; [|eauto].
  destruct (CompileFacts.compile_flexible (flexibleWords to)) as [r ->].
  destruct (RegExp.test true r _); [|eauto].
  eexists _, _. split; [done|]. split; [done|].
  by apply agreeing_addPattern.
Qed.

Lemma agreeing_learnMapping invoice c j q :
  (exists s, Correction.to c = VStr s) \/ truthy (Correction.to c) = false ->
  agreeing j q ->
  agreeing (learnMapping invoice c j) (learnMapping invoice c q).
Proof.
  intros Hto Hag. unfold learnMapping.
  destruct (Str.includes _ "sku"); [|done].
  destruct Hto as [[s Hs] | Hf]; [|by rewrite Hf].
  rewrite Hs. destruct (truthy (VStr s)); [|done]. cbn [andb].
  destruct (RegExp.exec false reSkuPath _) as [m|]; [|done].
  destruct (RegExp.group m 1) as [digits|]; [|done].
  destruct (nth_error _ _) as [item|]; [|done].
  destruct (LineItem.description item) as [desc|]; [|done].
  destruct (String.eqb desc "") eqn:Hd; [done|]. cbn [negb].
  apply String.eqb_neq in Hd. destruct Hag as [Hag Hid]. split.
  - by apply (AgreeFacts.agree_addStatic _ _ _ _ desc s).
  - by apply AgreeFacts.sqlIdsUnique_addStatic.
Qed.

Lemma agreeing_learnAll now invoice corrections : forall j q,
  (forall c, In c corrections ->
             (exists s, Correction.to c = VStr s) \/
             truthy (Correction.to c) = false) ->
  agreeing j q ->
  exists j' q',
    learnAll now invoice corrections j = Returns j' /\
    learnAll now invoice corrections q = Returns q' /\
    agreeing j' q'.
Proof.
  induction corrections as [|c cs IH]; intros j q Hto Hag; simpl; [eauto|].
  unfold learnCorrection.
  destruct (agreeing_learnExtraction now invoice c j q Hag)
    as (j1 & q1 & -> & -> & Hag1).
  simpl. apply IH.
  - intros c' Hc'. apply Hto. by right.
  - apply agreeing_learnMapping; [|done]. apply Hto. by left.
Qed.

End AgreeLearn.

(** ** What the stores guarantee *)

Lemma updateFirst_split {A : Type} (p : A -> bool) (f : A -> A)
  (pre : list A) (x : A) (post : list A) :
  (forall y, In y pre -> p y = false) -> p x = true ->
  List.find p (pre ++ x :: post) = Some x /\
  updateFirst p f (pre ++ x :: post) = (pre ++ f x :: post)%list.
Proof.
  intros Hpre Hx. induction pre as [|y pre IH]; simpl.
  - by rewrite Hx.
  - rewrite (Hpre y) by (by left).
    destruct IH as [-> ->]; [|done]. intros z Hz. apply Hpre. by right.
Qed.

Lemma find_none_all {A : Type} (p : A -> bool) (l : list A) :
  (forall y, In y l -> p y = false) -> List.find p l = None.
Proof.
  intros Hl. induction l as [|y l IH]; [done|]. simpl.
  rewrite (Hl y) by (by left). apply IH. intros z Hz. apply Hl. by right.
Qed.

Lemma samePattern_key pattern p :
  JsonStore.samePattern pattern p = true <-> samePatternKey p pattern.
Proof.
  unfold JsonStore.samePattern, samePatternKey.
  rewrite andb_true_iff, !String.eqb_eq. done.
Qed.

Lemma sameCorrection_key correction c :
  JsonStore.sameCorrection correction c = true <-> sameCorrectionKey c correction.
Proof.
  unfold JsonStore.sameCorrection, sameCorrectionKey.
  rewrite !andb_true_iff, String.eqb_eq. tauto.
Qed.

Lemma not_true_false (b : bool) : ~ b = true -> b = false.
Proof. by destruct b. Qed.

(** The upsert on the list of a vendor's patterns. *)
Lemma upsertPattern_cases now pattern l :
  (forall pre p post,
     l = (pre ++ p :: post)%list ->
     (forall q, In q pre -> ~ samePatternKey q pattern) ->
     samePatternKey p pattern ->
     JsonStore.upsertPattern now pattern l
     = (pre ++
        ExtractionPattern.Make
          (ExtractionPattern.field p) (ExtractionPattern.regexPattern p)
          (Num.min 1 (ExtractionPattern.confidence p + 0.05))
          (ExtractionPattern.usageCount p + 1)%Z now :: post)%list) /\
  ((forall q, In q l -> ~ samePatternKey q pattern) ->
   JsonStore.upsertPattern now pattern l = (l ++ [pattern])%list).
Proof.
  unfold JsonStore.upsertPattern. split.
  - intros pre p post -> Hpre Hp.
    destruct (updateFirst_split (JsonStore.samePattern pattern)
                (JsonStore.reinforcePattern now) pre p post) as [-> ->];
      [| |done].
    + intros q Hq. apply not_true_false. rewrite samePattern_key.
      by apply Hpre.
    + by apply samePattern_key.
  - intros Hall. rewrite find_none_all; [done|].
    intros q Hq. apply not_true_false. rewrite samePattern_key.
    by apply Hall.
Qed.

Lemma upsertCorrection_cases correction l :
  (forall pre c post,
     l = (pre ++ c :: post)%list ->
     (forall d, In d pre -> ~ sameCorrectionKey d correction) ->
     sameCorrectionKey c correction ->
     JsonStore.upsertCorrection correction l
     = (pre ++
        ValueCorrection.Make
          (ValueCorrection.field c) (ValueCorrection.triggerValue c)
          (ValueCorrection.correctedValue c) (ValueCorrection.condition c)
          (Num.min 1 (ValueCorrection.confidence c + 0.05))
          (ValueCorrection.usageCount c + 1)%Z :: post)%list) /\
  ((forall d, In d l -> ~ sameCorrectionKey d correction) ->
   JsonStore.upsertCorrection correction l = (l ++ [correction])%list).
Proof.
  unfold JsonStore.upsertCorrection. split.
  - intros pre c post -> Hpre Hc.
    destruct (updateFirst_split (JsonStore.sameCorrection correction)
                JsonStore.reinforceCorrection pre c post) as [-> ->];
      [| |done].
    + intros d Hd. apply not_true_false. rewrite sameCorrection_key.
      by apply Hpre.
    + by apply sameCorrection_key.
  - intros Hall. rewrite find_none_all; [done|].
    intros d Hd. apply not_true_false. rewrite sameCorrection_key.
    by apply Hall.
Qed.

(** [addPattern] of the file-backed store is an upsert by field and
    pattern text within the vendor: the first stored pattern with that
    key is reinforced in place (usage count plus one, confidence
    [min(1, c + 0.05)], [lastUsed] now) and nothing is added; when no
    stored pattern has the key, the pattern is appended as given.  The
    vendor's static corrections and the memory of every other vendor are
    as before, and the file holds what the store holds. *)
Theorem json_addPattern_upsert now vendor pattern (s : JsonStore.t) :
  let s' := JsonStore.addPattern now vendor pattern s in
  let before := VendorMemory.patterns (recall vendor s) in
  let after := VendorMemory.patterns (recall vendor s') in
  (forall pre p post,
     before = (pre ++ p :: post)%list ->
     (forall q, In q pre -> ~ samePatternKey q pattern) ->
     samePatternKey p pattern ->
     after
     = (pre ++
        ExtractionPattern.Make
          (ExtractionPattern.field p) (ExtractionPattern.regexPattern p)
          (Num.min 1 (ExtractionPattern.confidence p + 0.05))
          (ExtractionPattern.usageCount p + 1)%Z now :: post)%list) /\
  ((forall q, In q before -> ~ samePatternKey q pattern) ->
   after = (before ++ [pattern])%list) /\
  VendorMemory.staticCorrections (recall vendor s')
  = VendorMemory.staticCorrections (recall vendor s) /\
  (forall vendor', vendor' <> vendor -> recall vendor' s' = recall vendor' s) /\
  JsonStore.file s' = JsonStore.data s'.
Proof.
  cbn zeta.
  assert (Hrec : forall vendor',
            recall vendor' (JsonStore.addPattern now vendor pattern s)
            = fst (JsonStore.getVendorMemory vendor'
                     (JsonStore.addPattern now vendor pattern s)))
    by reflexivity.
  rewrite Hrec, JsonFacts.recall_addPattern.
  destruct (decide (vendor = vendor)); [|done].
  cbn [VendorMemory.patterns VendorMemory.staticCorrections].
  destruct (upsertPattern_cases now pattern
              (VendorMemory.patterns
                 (fst (JsonStore.getVendorMemory vendor s))))
    as [Hfound Hnew].
  split; [exact Hfound|]. split; [exact Hnew|]. split; [done|].
  split.
  - intros vendor' Hne. rewrite Hrec, JsonFacts.recall_addPattern.
    destruct (decide (vendor = vendor')); [by subst|done].
  - unfold JsonStore.addPattern.
    by destruct (JsonStore.getVendorMemory vendor s).
Qed.

Lemma json_addPattern_upsert_witness :
  let s1 := JsonStore.addPattern Demo.now Demo.supplier
              DemoPatterns.serviceDate
              (JsonStore.addPattern Demo.now Demo.supplier
                 DemoPatterns.currency JsonStore.empty) in
  VendorMemory.patterns
    (recall Demo.supplier
       (JsonStore.addPattern "2024-02-01T08:00:00.000Z" Demo.supplier
          DemoPatterns.serviceDate s1))
  = [DemoPatterns.currency;
     ExtractionPattern.Make "serviceDate"
       "Leistungsdatum:?\s*(\d{2}\.\d{2}\.\d{4})"
       (Num.min 1 (0.6 + 0.05)) 2 "2024-02-01T08:00:00.000Z"].
Proof.
  intros s1.
  apply (proj1 (json_addPattern_upsert "2024-02-01T08:00:00.000Z"
                  Demo.supplier DemoPatterns.serviceDate s1)
           [DemoPatterns.currency] DemoPatterns.serviceDate []).
  - reflexivity.
  - intros q [<- | []] [Hf _]. discriminate Hf.
  - split; reflexivity.
Defined.

(** [addStaticCorrection] of the file-backed store is an upsert by field,
    trigger value and corrected value (compared with [===]) within the
    vendor, with the same reinforcement. *)
Theorem json_addStaticCorrection_upsert vendor correction (s : JsonStore.t) :
  let s' := JsonStore.addStaticCorrection vendor correction s in
  let before := VendorMemory.staticCorrections (recall vendor s) in
  let after := VendorMemory.staticCorrections (recall vendor s') in
  (forall pre c post,
     before = (pre ++ c :: post)%list ->
     (forall d, In d pre -> ~ sameCorrectionKey d correction) ->
     sameCorrectionKey c correction ->
     after
     = (pre ++
        ValueCorrection.Make
          (ValueCorrection.field c) (ValueCorrection.triggerValue c)
          (ValueCorrection.correctedValue c) (ValueCorrection.condition c)
          (Num.min 1 (ValueCorrection.confidence c + 0.05))
          (ValueCorrection.usageCount c + 1)%Z :: post)%list) /\
  ((forall d, In d before -> ~ sameCorrectionKey d correction) ->
   after = (before ++ [correction])%list) /\
  VendorMemory.patterns (recall vendor s')
  = VendorMemory.patterns (recall vendor s) /\
  (forall vendor', vendor' <> vendor -> recall vendor' s' = recall vendor' s) /\
  JsonStore.file s' = JsonStore.data s'.
Proof.
  cbn zeta.
  assert (Hrec : forall vendor',
            recall vendor' (JsonStore.addStaticCorrection vendor correction s)
            = fst (JsonStore.getVendorMemory vendor'
                     (JsonStore.addStaticCorrection vendor correction s)))
    by reflexivity.
  rewrite Hrec, JsonFacts.recall_addStaticCorrection.
  destruct (decide (vendor = vendor)); [|done].
  cbn [VendorMemory.patterns VendorMemory.staticCorrections].
  destruct (upsertCorrection_cases correction
              (VendorMemory.staticCorrections
                 (fst (JsonStore.getVendorMemory vendor s))))
    as [Hfound Hnew].
  split; [exact Hfound|]. split; [exact Hnew|]. split; [done|].
  split.
  - intros vendor' Hne. rewrite Hrec, JsonFacts.recall_addStaticCorrection.
    destruct (decide (vendor = vendor')); [by subst|done].
  - unfold JsonStore.addStaticCorrection.
    by destruct (JsonStore.getVendorMemory vendor s).
Qed.

Lemma json_addStaticCorrection_upsert_witness :
  VendorMemory.staticCorrections
    (recall DemoTax.parts
       (JsonStore.addStaticCorrection DemoTax.parts DemoStore.clearTerms
          (JsonStore.addStaticCorrection DemoTax.parts DemoStore.clearTerms
             JsonStore.empty)))
  = [ValueCorrection.Make "discountTerms" VUndefined VNull (Some "always")
       (Num.min 1 (0.8 + 0.05)) 2].
Proof.
  apply (proj1 (json_addStaticCorrection_upsert DemoTax.parts
                  DemoStore.clearTerms
                  (JsonStore.addStaticCorrection DemoTax.parts
                     DemoStore.clearTerms JsonStore.empty))
           [] DemoStore.clearTerms []).
  - reflexivity.
  - intros d [].
  - repeat split; reflexivity.
Defined.

(** [addPattern] of the SQLite store, on a database whose row ids are
    unique, does to the patterns it returns for the vendor what the
    file-backed store does: the first row with the vendor, field and
    pattern text is reinforced in place, or the pattern is appended (its
    confidence a number that a REAL column holds); the vendor's static
    corrections and the other vendors' rows are as before, and the ids
    stay unique. *)
Theorem sql_addPattern_upsert now vendor pattern (s : SqlStore.t) :
  sqlIdsUnique s ->
  Num.isNaN (ExtractionPattern.confidence pattern) = false ->
  let s' := SqlStore.addPattern now vendor pattern s in
  let before := VendorMemory.patterns (recall vendor s) in
  let after := VendorMemory.patterns (recall vendor s') in
  (forall pre p post,
     before = (pre ++ p :: post)%list ->
     (forall q, In q pre -> ~ samePatternKey q pattern) ->
     samePatternKey p pattern ->
     after
     = (pre ++
        ExtractionPattern.Make
          (ExtractionPattern.field p) (ExtractionPattern.regexPattern p)
          (Num.min 1 (ExtractionPattern.confidence p + 0.05))
          (ExtractionPattern.usageCount p + 1)%Z now :: post)%list) /\
  ((forall q, In q before -> ~ samePatternKey q pattern) ->
   after = (before ++ [pattern])%list) /\
  VendorMemory.staticCorrections (recall vendor s')
  = VendorMemory.staticCorrections (recall vendor s) /\
  (forall vendor', vendor' <> vendor ->
     VendorMemory.patterns (recall vendor' s')
     = VendorMemory.patterns (recall vendor' s)) /\
  sqlIdsUnique s'.
Proof.
  intros Hid _. cbn zeta.
  rewrite AgreeFacts.sql_recall_addPattern by apply Hid.
  destruct (upsertPattern_cases now pattern
              (VendorMemory.patterns (recall vendor s))) as [Hfound Hnew].
  split; [exact Hfound|]. split; [exact Hnew|]. split.
  { unfold recall. simpl.
    by destruct (SqlFacts.addPattern_rows now vendor pattern s) as [_ ->]. }
  split.
  - intros vendor' Hne.
    apply AgreeFacts.sql_recall_addPattern_other; [apply Hid|done].
  - by apply AgreeFacts.sqlIdsUnique_addPattern.
Qed.

Lemma sql_addPattern_upsert_witness :
  let s1 := SqlStore.addPattern Demo.now Demo.supplier
              DemoPatterns.serviceDate
              (SqlStore.addPattern Demo.now Demo.supplier
                 DemoPatterns.currency SqlStore.empty) in
  VendorMemory.patterns
    (recall Demo.supplier
       (SqlStore.addPattern "2024-02-01T08:00:00.000Z" Demo.supplier
          DemoPatterns.serviceDate s1))
  = [DemoPatterns.currency;
     ExtractionPattern.Make "serviceDate"
       "Leistungsdatum:?\s*(\d{2}\.\d{2}\.\d{4})"
       (Num.min 1 (0.6 + 0.05)) 2 "2024-02-01T08:00:00.000Z"].
Proof.
  intros s1.
  assert (Hid : sqlIdsUnique s1).
  { do 2 apply AgreeFacts.sqlIdsUnique_addPattern.
    apply AgreeFacts.sqlIdsUnique_empty. }
  apply (proj1 (sql_addPattern_upsert "2024-02-01T08:00:00.000Z"
                  Demo.supplier DemoPatterns.serviceDate s1 Hid eq_refl)
           [DemoPatterns.currency] DemoPatterns.serviceDate []).
  - reflexivity.
  - intros q [<- | []] [Hf _]. discriminate Hf.
  - split; reflexivity.
Defined.

(** [addStaticCorrection] of the SQLite store is the same upsert when
    the correction's trigger is a non-empty string, its corrected value
    a string and its condition absent or non-empty; the second check of
    the WHERE clause then never meets NULL. *)
Theorem sql_addStaticCorrection_upsert vendor correction (s : SqlStore.t)
        trigger corrected :
  sqlIdsUnique s ->
  Num.isNaN (ValueCorrection.confidence correction) = false ->
  ValueCorrection.triggerValue correction = VStr trigger -> trigger <> "" ->
  ValueCorrection.correctedValue correction = VStr corrected ->
  ValueCorrection.condition correction <> Some "" ->
  let s' := SqlStore.addStaticCorrection vendor correction s in
  let before := VendorMemory.staticCorrections (recall vendor s) in
  let after := VendorMemory.staticCorrections (recall vendor s') in
  (forall pre c post,
     before = (pre ++ c :: post)%list ->
     (forall d, In d pre -> ~ sameCorrectionKey d correction) ->
     sameCorrectionKey c correction ->
     after
     = (pre ++
        ValueCorrection.Make
          (ValueCorrection.field c) (ValueCorrection.triggerValue c)
          (ValueCorrection.correctedValue c) (ValueCorrection.condition c)
          (Num.min 1 (ValueCorrection.confidence c + 0.05))
          (ValueCorrection.usageCount c + 1)%Z :: post)%list) /\
  ((forall d, In d before -> ~ sameCorrectionKey d correction) ->
   after = (before ++ [correction])%list) /\
  VendorMemory.patterns (recall vendor s')
  = VendorMemory.patterns (recall vendor s) /\
  (forall vendor', vendor' <> vendor ->
     VendorMemory.staticCorrections (recall vendor' s')
     = VendorMemory.staticCorrections (recall vendor' s)) /\
  sqlIdsUnique s'.
Proof.
  intros Hid _ Ht Hne Hc Hcond. cbn zeta.
  rewrite (AgreeFacts.sql_recall_addStatic vendor correction s trigger
             corrected) by (done || apply Hid).
  destruct (upsertCorrection_cases correction
              (VendorMemory.staticCorrections (recall vendor s)))
    as [Hfound Hnew].
  split; [exact Hfound|]. split; [exact Hnew|]. split.
  { unfold recall. simpl.
    by destruct (SqlFacts.addStaticCorrection_rows vendor correction s)
      as [_ ->]. }
  split.
  - intros vendor' Hne'.
    apply AgreeFacts.sql_recall_addStatic_other; [apply Hid|done].
  - by apply AgreeFacts.sqlIdsUnique_addStatic.
Qed.

Lemma sql_addStaticCorrection_upsert_witness :
  let rule := ValueCorrection.Make "lineItems.sku" (VStr "Seefracht")
                (VStr "FREIGHT") None 0.8 1 in
  VendorMemory.staticCorrections
    (recall DemoPO.freight
       (SqlStore.addStaticCorrection DemoPO.freight rule
          (SqlStore.addStaticCorrection DemoPO.freight rule SqlStore.empty)))
  = [ValueCorrection.Make "lineItems.sku" (VStr "Seefracht") (VStr "FREIGHT")
       None (Num.min 1 (0.8 + 0.05)) 2].
Proof.
  intros rule.
  assert (Hid : sqlIdsUnique
                  (SqlStore.addStaticCorrection DemoPO.freight rule
                     SqlStore.empty)).
  { apply AgreeFacts.sqlIdsUnique_addStatic, AgreeFacts.sqlIdsUnique_empty. }
  apply (proj1 (sql_addStaticCorrection_upsert DemoPO.freight rule _
                  "Seefracht" "FREIGHT" Hid eq_refl eq_refl
                  ltac:(discriminate)
                  eq_refl ltac:(discriminate))
           [] rule []).
  - reflexivity.
  - intros d [].
  - repeat split; reflexivity.
Defined.

(** Learning from the same approved or rejected log on both stores keeps
    them in agreement: when the two stores return the same patterns and
    static corrections for every vendor, and the corrected values of the
    log are strings or falsy, [learn] returns on both and the stores
    agree afterwards. *)
Theorem stores_agree_under_learn {RT : Runtime} now invoice humanLog
        (j : JsonStore.t) (q : SqlStore.t) :
  storesAgree j q -> sqlIdsUnique q ->
  (forall c, In c (HumanCorrectionLog.corrections humanLog) ->
             (exists s, Correction.to c = VStr s) \/
             truthy (Correction.to c) = false) ->
  exists j' q',
    learn now j invoice humanLog = Returns j' /\
    learn now q invoice humanLog = Returns q' /\
    storesAgree j' q' /\ sqlIdsUnique q'.
Proof.
  intros Hag Hid Hto. unfold learn.
  destruct (HumanCorrectionLog.finalDecision humanLog).
  - destruct (agreeing_learnAll now invoice
                (HumanCorrectionLog.corrections humanLog) j q Hto
                (conj Hag Hid)) as (j' & q' & Hj & Hq & Hag' & Hid').
    eauto 10.
  - eauto 10.
Qed.

Lemma stores_agree_under_learn_witness :
  exists j' q',
    learn Demo.now JsonStore.empty DemoSku.invC2 DemoSku.logC2 = Returns j' /\
    learn Demo.now SqlStore.empty DemoSku.invC2 DemoSku.logC2 = Returns q' /\
    recall DemoPO.freight j' = recall DemoPO.freight q'.
Proof.
  destruct (stores_agree_under_learn Demo.now DemoSku.invC2 DemoSku.logC2
              JsonStore.empty SqlStore.empty)
    as (j' & q' & Hj & Hq & Hag & _).
  - intros vendor. split; reflexivity.
  - apply AgreeFacts.sqlIdsUnique_empty.
  - intros c [<- | []]. left. by exists "FREIGHT".
  - exists j', q'. split; [exact Hj|]. split; [exact Hq|].
    vm_compute in Hj, Hq. injection Hj as <-. injection Hq as <-.
    vm_compute. reflexivity.
Defined.

(** * Further properties of the agent *)

(** ** Escaped text and flexible patterns *)

Module EscapeFacts.
Import RegExp Matching MatchFacts CompileFacts.

Lemma escapeRegExp_cons c w :
  escapeRegExp (String c w)
  = if isRegExpSpecial c then String "\" (String c (escapeRegExp w))
    else String c (escapeRegExp w).
Proof. unfold escapeRegExp. simpl. by destruct (isRegExpSpecial c). Qed.

(** The escaped text parses to the literal pattern of the text. *)
Lemma parseAlt_escaped w : forall fuel n,
  (String.length (escapeRegExp w) < fuel)%nat ->
  parseAlt fuel (escapeRegExp w) n = Some (litsThen w REmpty, EmptyString, n).
Proof.
  induction w as [|c w IH]; intros [|f] n Hlen;
    try (by apply Nat.nlt_0_r in Hlen).
  - reflexivity.
  - rewrite escapeRegExp_cons in *.
    destruct (isRegExpSpecial c) eqn:Hc; simpl in Hlen.
    + rewrite parseAlt_escape, quantified_plain
        by (done || apply escapeRegExp_plain).
      rewrite IH by lia. reflexivity.
    + rewrite parseAlt_char, quantified_plain
        by (done || apply escapeRegExp_plain).
      rewrite IH by lia. reflexivity.
Qed.

Lemma compile_escaped w :
  compile (escapeRegExp w) = Some (litsThen w REmpty).
Proof.
  unfold compile.
  replace (2 * String.length (escapeRegExp w) + 4)%nat
    with (Datatypes.S (2 * String.length (escapeRegExp w) + 3)) by lia.
  cbn [parseDisj]. by rewrite parseAlt_escaped by lia.
Qed.

Lemma itemMatches_refl ic c : itemMatches ic (ILit c) c = true.
Proof. destruct ic; simpl; apply Ascii.eqb_refl. Qed.

Lemma mt_literal ic s K : forall p rest caps,
  mt ic (litsThen s K) (MState p (s ++ rest) caps)
  = mt ic K (MState (p + String.length s) rest caps).
Proof.
  induction s as [|c s IH]; intros p rest caps; simpl litsThen.
  - simpl. by rewrite Nat.add_0_r.
  - cbn [mt]. rewrite (step_hit _ (MState p (String c s ++ rest) caps) c
                         (s ++ rest)); [|done|apply itemMatches_refl].
    cbn [flat_map pos RegExp.caps]. rewrite app_nil_r, IH.
    simpl. do 2 f_equal. lia.
Qed.

Lemma search_finds ic r a : forall i T,
  mt ic r (MState (i + String.length a) T []) <> [] ->
  exists m, search ic r i (a ++ T) = Some m.
Proof.
  induction a as [|c a IH]; intros i T Hmt.
  - simpl in Hmt. rewrite Nat.add_0_r in Hmt.
    change ("" ++ T) with T.
    destruct T; cbn [search]; destruct (mt ic r _); try done; eauto.
  - change (String c a ++ T) with (String c (a ++ T)). cbn [search].
    destruct (mt ic r (MState i (String c (a ++ T)) [])); [|eauto].
    apply IH. simpl in Hmt. by rewrite Nat.add_succ_r in Hmt.
Qed.

(** *** Patterns without group capture nothing *)

Lemma Forall_flat_map {A B : Type} (P : B -> Prop) (f : A -> list B)
  (l : list A) :
  (forall x, In x l -> Forall P (f x)) -> Forall P (flat_map f l).
Proof.
  induction l as [|x l IH]; intros Hf; [constructor|]. simpl.
  apply List.Forall_app. split; [apply Hf; by left|].
  apply IH. intros y Hy. apply Hf. by right.
Qed.

Lemma repLoop_caps m lo hi greedy :
  (forall st, Forall (fun st' => RegExp.caps st' = RegExp.caps st) (m st)) ->
  forall fuel i st,
    Forall (fun st' => RegExp.caps st' = RegExp.caps st)
           (repLoop m lo hi greedy fuel i st).
Proof.
  intros Hm. induction fuel as [|f IH]; intros i st; cbn [repLoop].
  - destruct greedy; cbn [app]; destruct (lo <=? i)%nat;
      repeat constructor.
  - assert (Hstop : Forall (fun st' => RegExp.caps st' = RegExp.caps st)
                      (if (lo <=? i)%nat then [st] else [])).
    { destruct (lo <=? i)%nat; repeat constructor. }
    assert (Hmore : Forall (fun st' => RegExp.caps st' = RegExp.caps st)
              (if belowMax i hi
               then flat_map
                      (fun st' =>
                         if (lo <=? i)%nat && negb (progress st st') then []
                         else repLoop m lo hi greedy f (Datatypes.S i) st')
                      (m st)
               else [])).
    { destruct (belowMax i hi); [|constructor].
      apply Forall_flat_map. intros st1 Hst1.
      destruct (_ && _); [constructor|].
      pose proof (proj1 (List.Forall_forall _ _) (Hm st) st1 Hst1) as Hc.
      eapply List.Forall_impl; [|apply IH].
      intros st2 Hst2. simpl in *. congruence. }
    destruct greedy; apply List.Forall_app; done.
Qed.

Lemma step_caps p st :
  Forall (fun st' => RegExp.caps st' = RegExp.caps st) (step p st).
Proof.
  unfold step. destruct (rest st); [constructor|].
  destruct (p a); repeat constructor.
Qed.

Lemma mt_groupFree ic r :
  groupFree r = true ->
  forall st, Forall (fun st' => RegExp.caps st' = RegExp.caps st) (mt ic r st).
Proof.
  induction r as [| | | | | |r1 IH1 r2 IH2|r1 IH1 r2 IH2|r IH lo hi greedy
                  |n r IH]; intros Hg st; cbn [mt]; simpl in Hg;
    try (apply step_caps); try discriminate.
  - repeat constructor.
  - destruct (_ =? _)%nat; repeat constructor.
  - destruct (rest st); repeat constructor.
  - apply andb_true_iff in Hg as [Hg1 Hg2].
    apply Forall_flat_map. intros st1 Hst1.
    pose proof (proj1 (List.Forall_forall _ _) (IH1 Hg1 st) st1 Hst1) as Hc.
    eapply List.Forall_impl; [|apply (IH2 Hg2)].
    intros st2 Hst2. simpl in *. congruence.
  - apply andb_true_iff in Hg as [Hg1 Hg2].
    apply List.Forall_app. auto.
  - apply repLoop_caps. auto.
Qed.

Lemma search_groupFree ic r s : forall i m,
  groupFree r = true -> search ic r i s = Some m -> groups m = [].
Proof.
  induction s as [|c s IH]; intros i m Hg; cbn [search];
    pose proof (mt_groupFree ic r Hg) as Hcaps.
  - specialize (Hcaps (MState i "" [])).
    destruct (mt ic r _) as [|st l]; [done|]. intros [= <-]. simpl.
    by inversion Hcaps.
  - specialize (Hcaps (MState i (String c s) [])).
    destruct (mt ic r _) as [|st l]; [by apply IH|]. intros [= <-]. simpl.
    by inversion Hcaps.
Qed.

Lemma andThen_groupFree t res r s n :
  groupFree t = true ->
  (forall r0, res = Some (r0, s, n) -> groupFree r0 = true) ->
  andThen t res = Some (r, s, n) -> groupFree r = true.
Proof.
  intros Ht Hres. unfold andThen. destruct res as [[[r0 s0] n0]|]; [|done].
  intros [= <- <- <-]. simpl. rewrite Ht. by apply Hres.
Qed.

Lemma parseAlt_plain_groupFree s :
  plainPattern s ->
  forall fuel n, (String.length s < fuel)%nat ->
  exists r, parseAlt fuel s n = Some (r, EmptyString, n) /\
            groupFree r = true.
Proof.
  induction 1 as [|c s Hc Hs IH|c s Hc Hs IH|s Hs IH];
    intros [|f] n Hlen; simpl in Hlen; try lia.
  - eauto.
  - rewrite parseAlt_char, quantified_plain by done.
    destruct (IH f n) as (r & -> & Hr); [lia|]. simpl. eauto.
  - rewrite parseAlt_escape, quantified_plain by done.
    destruct (IH f n) as (r & -> & Hr); [lia|]. simpl. eauto.
  - rewrite parseAlt_dotStar, parseLazy_plain by done.
    destruct (IH f n) as (r & -> & Hr); [lia|]. simpl. eauto.
Qed.

Lemma compile_plain_groupFree s :
  plainPattern s -> exists r, compile s = Some r /\ groupFree r = true.
Proof.
  intros Hs. unfold compile.
  replace (2 * String.length s + 4)%nat
    with (Datatypes.S (2 * String.length s + 3)) by lia.
  cbn [parseDisj].
  destruct (parseAlt_plain_groupFree s Hs (2 * String.length s + 3) 1)
    as (r & -> & Hr); [lia|]. eauto.
Qed.

End EscapeFacts.

(** The text that [escapeRegExp] returns is a pattern that compiles,
    with or without the [i] flag, and that is found in every text that
    contains the escaped text, although the closing bracket is left
    unescaped. *)
Theorem escapeRegExp_finds_itself (ic : bool) (w before after : string) :
  exists r,
    RegExp.compile (escapeRegExp w) = Some r /\
    RegExp.test ic r (before ++ w ++ after) = true.
Proof.
  exists (Matching.litsThen w RegExp.REmpty).
  split; [apply EscapeFacts.compile_escaped|].
  unfold RegExp.test, RegExp.exec.
  destruct (EscapeFacts.search_finds ic (Matching.litsThen w RegExp.REmpty)
              before 0 (w ++ after)) as [m ->]; [|done].
  by rewrite EscapeFacts.mt_literal.
Qed.

Section FlexibleNeverExtracts.

Context {RT : Runtime}.

(** The flexible pattern that [learn] stores, the words of the corrected
    value escaped and joined by [.*], always compiles, and it has no
    capturing group: [extractWithRegex] with it returns null or
    undefined on every text, and [process] never fills a field from
    it. *)
Theorem flexible_pattern_never_extracts (words : list string)
        (now rawText : string) (st : pstate) (pattern : ExtractionPattern.t) :
  (exists r, RegExp.compile (flexiblePattern words) = Some r) /\
  truthy (extractWithRegex rawText (flexiblePattern words)) = false /\
  (ExtractionPattern.regexPattern pattern = flexiblePattern words ->
   applyPattern now rawText st pattern = st).
Proof.
  destruct (EscapeFacts.compile_plain_groupFree (flexiblePattern words)
              (CompileFacts.flexiblePattern_plain words)) as (r & Hr & Hg).
  assert (Hex : truthy (extractWithRegex rawText (flexiblePattern words))
                = false).
  { unfold extractWithRegex. rewrite Hr.
    destruct (RegExp.exec true r rawText) as [m|] eqn:Hm; [|done].
    unfold RegExp.exec in Hm.
    apply EscapeFacts.search_groupFree in Hm; [|done].
    unfold RegExp.group. by rewrite Hm. }
  split; [eauto|]. split; [exact Hex|].
  intros Hp. unfold applyPattern. rewrite Hp, Hex.
  by destruct (isMissing _).
Qed.

End FlexibleNeverExtracts.

Lemma flexible_pattern_never_extracts_witness :
  extractWithRegex "Zahlung: 2% Skonto bei Zahlung innerhalb 10 Tagen"
                   (flexiblePattern ["2%"; "Skonto"; "innerhalb"; "10"; "Tagen"])
  = VUndefined /\
  applyPattern Demo.now "2% Skonto innerhalb 10 Tagen"
    (initialState Demo.now Demo.invA1)
    (ExtractionPattern.Make "discountTerms"
       (flexiblePattern ["2%"; "Skonto"; "innerhalb"; "10"; "Tagen"])
       0.5 1 Demo.now)
  = initialState Demo.now Demo.invA1.
Proof.
  split; [vm_compute; reflexivity|].
  apply (proj2 (proj2 (flexible_pattern_never_extracts
                         ["2%"; "Skonto"; "innerhalb"; "10"; "Tagen"]
                         Demo.now "2% Skonto innerhalb 10 Tagen"
                         (initialState Demo.now Demo.invA1)
                         (ExtractionPattern.Make "discountTerms"
                            (flexiblePattern
                               ["2%"; "Skonto"; "innerhalb"; "10"; "Tagen"])
                            0.5 1 Demo.now)))).
  reflexivity.
Defined.

(** ** The audit entry of the decision *)

Section DecideAudit.

Context {RT : Runtime} {S : Type} {MS : MemoryStore S}.

(** On the path without duplicate, the last entry of the audit trail is
    the one of step [decide], stamped [now]; its text gives the review
    flag and the score with two decimals, both as returned. *)
Theorem decide_audit_entry
  (now : string) (store : S) (invoice : Invoice.t)
  (referenceData : ReferenceData.t) (pastInvoices : list Invoice.t) :
  findDuplicate invoice pastInvoices = None ->
  wellTyped (fst (getVendorMemory (Invoice.vendor invoice) store)) invoice
  = true ->
  exists r trail,
    process now store invoice referenceData pastInvoices = Returns r /\
    ProcessResult.auditTrail r
    = (trail ++
       [AuditEntry.Make "decide" now
          ("Review: " ++ boolToString (ProcessResult.requiresHumanReview r) ++
           ", Score: " ++
           Num.toFixed2String (ProcessResult.confidenceScore r))])%list.
Proof.
  intros Hdup Hwt.
  destruct (processWith_steps now _ invoice referenceData pastInvoices
              Hdup Hwt) as (st3 & st4 & _ & _ & Hr).
  exists (scoreAndDecide now (Invoice.confidence invoice) st4), (auditTrail st4).
  split; [exact Hr|]. reflexivity.
Qed.

End DecideAudit.

Lemma decide_audit_entry_witness :
  exists r trail,
    process Demo.now JsonStore.empty DemoPO.borderline DemoPO.reference []
    = Returns r /\
    ProcessResult.auditTrail r
    = (trail ++
       [AuditEntry.Make "decide" Demo.now "Review: true, Score: 0.80"])%list.
Proof.
  destruct (decide_audit_entry Demo.now JsonStore.empty DemoPO.borderline
              DemoPO.reference [])
    as (r & trail & Hr & Htrail).
  - reflexivity.
  - vm_compute. reflexivity.
  - exists r, trail. split; [exact Hr|]. rewrite Htrail.
    vm_compute in Hr. injection Hr as <-. reflexivity.
Defined.

(** ** The tax checks on amounts with cents *)

(** The tax step computes in binary64.  With a gross amount of 100.11
    copied into the net total at a rate of 20 % and "incl. VAT" in the
    text, [process] proposes Net -> 83.42 and Tax -> 16.69 (the quotient
    100.11 / 1.2 lies below 83.425) and asks for no review.  With
    Net = 1000.10, Tax = 190.02 and Gross = 1189.12 the computed
    difference is above 1.0: [process] asks for a review because the
    totals do not sum up, and proposes nothing. *)
Theorem tax_checks_in_binary64 :
  (exists r,
     process Demo.now JsonStore.empty DemoTax.rounding Demo.noReference []
     = Returns r /\
     ProcessResult.proposedCorrections r
     = [Correction.Make "netTotal" (VNum 100.11) (VNum 83.42)
          "Detected 'incl. VAT' context, recalculated Net from Gross";
        Correction.Make "taxTotal" (VNum 0) (VNum 16.69)
          "Recalculated Tax from Gross"] /\
     ProcessResult.requiresHumanReview r = false) /\
  (exists r,
     process Demo.now JsonStore.empty DemoTax.oneOff Demo.noReference []
     = Returns r /\
     ProcessResult.proposedCorrections r = [] /\
     ProcessResult.requiresHumanReview r = true /\
     ProcessResult.reasoning r
     = "Totals do not sum up (Net + Tax != Gross).").
Proof.
  split.
  - eexists. split; [vm_compute; reflexivity|].
    split; vm_compute; reflexivity.
  - eexists. split; [vm_compute; reflexivity|].
    repeat split; vm_compute; reflexivity.
Qed.

(** ** Learning from a rejected or a repeated log *)

Section LearnRejected.

Context {RT : Runtime} {S : Type} {MS : MemoryStore S}.


End LearnRejected.


(** Learning twice from the same approved SKU correction leaves one
    mapping in either store, used twice and with the confidence
    reinforced from 0.8 to 0.8 + 0.05, which is 0.8500000000000001. *)
Theorem learning_twice_reinforces :
  let rule := ValueCorrection.Make "lineItems.sku" (VStr "Seefracht")
                (VStr "FREIGHT") None 0.8500000000000001 2 in
  (exists j1 j2,
     learn Demo.now JsonStore.empty DemoSku.invC2 DemoSku.logC2 = Returns j1 /\
     learn Demo.now j1 DemoSku.invC2 DemoSku.logC2 = Returns j2 /\
     VendorMemory.staticCorrections (recall DemoPO.freight j2) = [rule]) /\
  (exists q1 q2,
     learn Demo.now SqlStore.empty DemoSku.invC2 DemoSku.logC2 = Returns q1 /\
     learn Demo.now q1 DemoSku.invC2 DemoSku.logC2 = Returns q2 /\
     VendorMemory.staticCorrections (recall DemoPO.freight q2) = [rule]).
Proof.
  split.
  - eexists. eexists. split; [vm_compute; reflexivity|].
    split; [vm_compute; reflexivity|]. vm_compute. reflexivity.
  - eexists. eexists. split; [vm_compute; reflexivity|].
    split; [vm_compute; reflexivity|]. vm_compute. reflexivity.
Qed.
